(** * Disk imaging with live hashing and a verify pass (Given/FTK_img.py)

    A shallow embedding of [hash_file], [image_and_hash] and the integrity
    decisions of [main], over a small model of the file system and of the
    two [hashlib] objects the program uses.

    Bytes are [Byte.byte], file contents are [list byte], Python integers
    are [Z], the file system is a finite map of files, with the place each
    path leads to. *)

From Stdlib Require Import ZArith List Lia String Ascii Bool.
From Stdlib.Strings Require Import Byte.
From stdpp Require Import gmap strings pretty.
Import ListNotations.

Local Open Scope Z_scope.

(** ** 32-bit words, as the two digest algorithms use them *)

Module Word32.

Definition mask : Z := 0xFFFFFFFF.

Definition add (a b : Z) : Z := Z.land (a + b) mask.

Definition not (a : Z) : Z := Z.lxor a mask.

Definition rotl (x n : Z) : Z :=
  Z.land (Z.lor (Z.shiftl x n) (Z.shiftr x (32 - n))) mask.

Definition of_byte (b : byte) : Z := Z.of_N (Byte.to_N b).

(** The four bytes of a word, least significant first. *)
Definition bytes_le (x : Z) : list Z :=
  [Z.land x 0xFF; Z.land (Z.shiftr x 8) 0xFF;
   Z.land (Z.shiftr x 16) 0xFF; Z.land (Z.shiftr x 24) 0xFF].

Definition bytes_be (x : Z) : list Z := rev (bytes_le x).

Fixpoint words_le (l : list byte) : list Z :=
  match l with
  | b0 :: b1 :: b2 :: b3 :: r =>
      Z.lor (of_byte b0)
        (Z.lor (Z.shiftl (of_byte b1) 8)
           (Z.lor (Z.shiftl (of_byte b2) 16) (Z.shiftl (of_byte b3) 24)))
      :: words_le r
  | _ => []
  end.

Fixpoint words_be (l : list byte) : list Z :=
  match l with
  | b0 :: b1 :: b2 :: b3 :: r =>
      Z.lor (of_byte b3)
        (Z.lor (Z.shiftl (of_byte b2) 8)
           (Z.lor (Z.shiftl (of_byte b1) 16) (Z.shiftl (of_byte b0) 24)))
      :: words_be r
  | _ => []
  end.

Definition byte_of_Z (z : Z) : byte :=
  match Byte.of_N (Z.to_N (Z.land z 0xFF)) with
  | Some b => b
  | None => x00
  end.

Definition hex_digit (n : Z) : ascii :=
  nth (Z.to_nat n)
    ["0"; "1"; "2"; "3"; "4"; "5"; "6"; "7";
     "8"; "9"; "a"; "b"; "c"; "d"; "e"; "f"]%char "0"%char.

(** Lower-case hexadecimal, two digits a byte, as [hexdigest] prints. *)
Fixpoint hex (l : list Z) : string :=
  match l with
  | [] => EmptyString
  | b :: r => String (hex_digit (Z.shiftr b 4)) (String (hex_digit (Z.land b 0xF)) (hex r))
  end.

(** The padding both algorithms append to a message of [count] bytes:
    0x80, zeros up to 56 modulo 64; the 64-bit bit length follows, in the
    byte order of the algorithm. *)
Definition pad_zeros (count : Z) : list byte :=
  x80 :: repeat x00 (Z.to_nat ((55 - count) mod 64)).

Definition length_le (count : Z) : list byte :=
  map (fun i => byte_of_Z (Z.shiftr (8 * count) (8 * Z.of_nat i))) (seq 0 8).

Definition length_be (count : Z) : list byte := rev (length_le count).

End Word32.

(** ** [hashlib.md5()]: RFC 1321, fed incrementally *)

Module MD5.
Import Word32.

Definition K : list Z :=
  [0xd76aa478; 0xe8c7b756; 0x242070db; 0xc1bdceee;
   0xf57c0faf; 0x4787c62a; 0xa8304613; 0xfd469501;
   0x698098d8; 0x8b44f7af; 0xffff5bb1; 0x895cd7be;
   0x6b901122; 0xfd987193; 0xa679438e; 0x49b40821;
   0xf61e2562; 0xc040b340; 0x265e5a51; 0xe9b6c7aa;
   0xd62f105d; 0x02441453; 0xd8a1e681; 0xe7d3fbc8;
   0x21e1cde6; 0xc33707d6; 0xf4d50d87; 0x455a14ed;
   0xa9e3e905; 0xfcefa3f8; 0x676f02d9; 0x8d2a4c8a;
   0xfffa3942; 0x8771f681; 0x6d9d6122; 0xfde5380c;
   0xa4beea44; 0x4bdecfa9; 0xf6bb4b60; 0xbebfbc70;
   0x289b7ec6; 0xeaa127fa; 0xd4ef3085; 0x04881d05;
   0xd9d4d039; 0xe6db99e5; 0x1fa27cf8; 0xc4ac5665;
   0xf4292244; 0x432aff97; 0xab9423a7; 0xfc93a039;
   0x655b59c3; 0x8f0ccc92; 0xffeff47d; 0x85845dd1;
   0x6fa87e4f; 0xfe2ce6e0; 0xa3014314; 0x4e0811a1;
   0xf7537e82; 0xbd3af235; 0x2ad7d2bb; 0xeb86d391].

Definition S : list Z :=
  [7; 12; 17; 22; 7; 12; 17; 22; 7; 12; 17; 22; 7; 12; 17; 22;
   5; 9; 14; 20; 5; 9; 14; 20; 5; 9; 14; 20; 5; 9; 14; 20;
   4; 11; 16; 23; 4; 11; 16; 23; 4; 11; 16; 23; 4; 11; 16; 23;
   6; 10; 15; 21; 6; 10; 15; 21; 6; 10; 15; 21; 6; 10; 15; 21].

Definition regs : Type := Z * Z * Z * Z.

Definition round (M : list Z) (r : regs) (i : nat) : regs :=
  let '(A, B, C, D) := r in
  let iz := Z.of_nat i in
  let '(F, g) :=
    if iz <? 16 then (Z.lor (Z.land B C) (Z.land (not B) D), iz)
    else if iz <? 32 then (Z.lor (Z.land D B) (Z.land (not D) C), (5 * iz + 1) mod 16)
    else if iz <? 48 then (Z.lxor B (Z.lxor C D), (3 * iz + 5) mod 16)
    else (Z.lxor C (Z.lor B (not D)), (7 * iz) mod 16) in
  let F' := add (add (add F A) (nth i K 0)) (nth (Z.to_nat g) M 0) in
  (D, add B (rotl F' (nth i S 0)), B, C).

(** One 64-byte block. *)
Definition compress (r : regs) (block : list byte) : regs :=
  let '(a0, b0, c0, d0) := r in
  let '(A, B, C, D) := fold_left (round (words_le block)) (seq 0 64) r in
  (add a0 A, add b0 B, add c0 C, add d0 D).

(** The hash object: chaining value, bytes not yet compressed (fewer than
    64, in arrival order), bytes seen. *)
Record state : Type := mk {
  h : regs;
  pending : list byte;
  count : Z
}.

Definition init : state :=
  {| h := (0x67452301, 0xefcdab89, 0x98badcfe, 0x10325476);
     pending := []; count := 0 |}.

Definition feed (s : state) (b : byte) : state :=
  let buf := pending s ++ [b] in
  if (length buf =? 64)%nat
  then {| h := compress (h s) buf; pending := []; count := count s + 1 |}
  else {| h := h s; pending := buf; count := count s + 1 |}.

(** [m.update(data)] *)
Definition update (s : state) (data : list byte) : state :=
  fold_left feed data s.

(** [m.hexdigest()]: pads a copy of the state; the object is unchanged. *)
Definition hexdigest (s : state) : string :=
  let '(A, B, C, D) :=
    h (update s (pad_zeros (count s) ++ length_le (count s))) in
  hex (bytes_le A ++ bytes_le B ++ bytes_le C ++ bytes_le D).

(** The digest of a whole message. *)
Definition digest (msg : list byte) : string := hexdigest (update init msg).

End MD5.

(** ** [hashlib.sha1()]: FIPS 180-4, fed incrementally *)

Module SHA1.
Import Word32.

Definition regs : Type := Z * Z * Z * Z * Z.

(** The message schedule: 16 words extended to 80. *)
Fixpoint extend (n : nat) (w : list Z) : list Z :=
  match n with
  | O => w
  | Datatypes.S n' =>
      let i := length w in
      let x := Z.lxor (nth (i - 3) w 0)
                 (Z.lxor (nth (i - 8) w 0)
                    (Z.lxor (nth (i - 14) w 0) (nth (i - 16) w 0))) in
      extend n' (w ++ [rotl x 1])
  end.

Definition round (W : list Z) (r : regs) (i : nat) : regs :=
  let '(a, b, c, d, e) := r in
  let iz := Z.of_nat i in
  let '(f, k) :=
    if iz <? 20 then (Z.lor (Z.land b c) (Z.land (not b) d), 0x5A827999)
    else if iz <? 40 then (Z.lxor b (Z.lxor c d), 0x6ED9EBA1)
    else if iz <? 60
         then (Z.lor (Z.land b c) (Z.lor (Z.land b d) (Z.land c d)), 0x8F1BBCDC)
         else (Z.lxor b (Z.lxor c d), 0xCA62C1D6) in
  let temp := add (add (add (add (rotl a 5) f) e) k) (nth i W 0) in
  (temp, a, rotl b 30, c, d).

Definition compress (r : regs) (block : list byte) : regs :=
  let '(h0, h1, h2, h3, h4) := r in
  let W := extend 64 (words_be block) in
  let '(a, b, c, d, e) := fold_left (round W) (seq 0 80) r in
  (add h0 a, add h1 b, add h2 c, add h3 d, add h4 e).

Record state : Type := mk {
  h : regs;
  pending : list byte;
  count : Z
}.

Definition init : state :=
  {| h := (0x67452301, 0xEFCDAB89, 0x98BADCFE, 0x10325476, 0xC3D2E1F0);
     pending := []; count := 0 |}.

Definition feed (s : state) (b : byte) : state :=
  let buf := pending s ++ [b] in
  if (length buf =? 64)%nat
  then {| h := compress (h s) buf; pending := []; count := count s + 1 |}
  else {| h := h s; pending := buf; count := count s + 1 |}.

Definition update (s : state) (data : list byte) : state :=
  fold_left feed data s.

Definition hexdigest (s : state) : string :=
  let '(h0, h1, h2, h3, h4) :=
    h (update s (pad_zeros (count s) ++ length_be (count s))) in
  hex (bytes_be h0 ++ bytes_be h1 ++ bytes_be h2 ++ bytes_be h3 ++ bytes_be h4).

Definition digest (msg : list byte) : string := hexdigest (update init msg).

End SHA1.

(** ** Exceptions and results *)

(** The exception classes the program can meet. [PermissionError],
    [FileNotFoundError] and [IsADirectoryError] are subclasses of [OSError]
    in Python, and [OSError] stands here for every other one of them;
    [main] has a handler for [PermissionError], one for
    [FileNotFoundError], and a last one for every other exception. *)
Inductive exn : Type :=
  | PermissionError
  | FileNotFoundError
  | IsADirectoryError
  | OSError
  | ValueError.

Inductive result (A : Type) : Type :=
  | Return (a : A)
  | Raise (e : exn).

Arguments Return {A} a.
Arguments Raise {A} e.

(** ** The file system *)

(** What the program can observe of a file: the bytes in it, whether
    [os.path.getsize] answers for it (a raw device may not), whether it may
    be opened for reading, whether it may be opened for writing, and the
    I/O faults of the medium: [Some k] makes the read (the write) number
    [k], counted from 0 on a fresh handle, raise [OSError]. *)
Record node : Type := mk_node {
  content : list byte;
  sizable : bool;
  readable : bool;
  writable : bool;
  read_fault : option nat;
  write_fault : option nat
}.

Definition regular (c : list byte) : node :=
  {| content := c; sizable := true; readable := true; writable := true;
     read_fault := None; write_fault := None |}.

Definition set_content (c : list byte) (n : node) : node :=
  {| content := c; sizable := sizable n; readable := readable n;
     writable := writable n;
     read_fault := read_fault n; write_fault := write_fault n |}.

(** What there is at a place that holds no file: a free name in a
    directory that takes new files; a name whose directory does not exist;
    a free name in a directory that may not be written; a directory (with
    the size [os.path.getsize] answers for it). *)
Inductive vacancy : Type :=
  | Free
  | NoDirectory
  | Protected
  | Directory (st_size : Z).

(** The file system: the files, each under the key that stands for the
    file itself; [target], which sends a path to the key of the place it
    leads to (one key for all the paths that lead to the same file: another
    spelling, a link); and what there is at the keys that hold no file. *)
Record filesystem : Type := mk_filesystem {
  files : gmap string node;
  target : string -> string;
  vacant : string -> vacancy
}.

(** A path without the "./" at its head (and without the slashes that
    follow it): "./a", ".//a" and "././a" are "a", and "./" is ".". *)
Fixpoint strip_dot_slash (stripping : bool) (path : string) : string :=
  match path with
  | EmptyString => if stripping then "." else ""
  | String c rest =>
      if Ascii.eqb c "/" then
        if stripping then strip_dot_slash true rest else path
      else if Ascii.eqb c "." then
        match rest with
        | String c' rest' =>
            if Ascii.eqb c' "/" then strip_dot_slash true rest' else path
        | EmptyString => path
        end
      else path
  end.

(** The key of the place a path leads to. *)
Definition file_of (fs : filesystem) (path : string) : string :=
  target fs (strip_dot_slash false path).

(** The same names and places, with other files. *)
Definition with_files (fs : filesystem) (m : gmap string node) : filesystem :=
  {| files := m; target := target fs; vacant := vacant fs |}.

(** [fs !! path] is the file a path leads to, and [<[path := n]> fs] puts
    the file [n] where the path leads. *)
#[global] Instance filesystem_lookup : Lookup string node filesystem :=
  fun path fs => files fs !! file_of fs path.

#[global] Instance filesystem_insert : Insert string node filesystem :=
  fun path n fs => with_files fs (<[file_of fs path := n]> (files fs)).

(** The bytes of the file under a key, and of the file a path leads to. *)
Definition bytes_of (m : gmap string node) (file : string) : list byte :=
  match m !! file with
  | Some n => content n
  | None => []
  end.

Definition file_bytes (fs : filesystem) (path : string) : list byte :=
  match fs !! path with
  | Some n => content n
  | None => []
  end.

(** [os.path.getsize(path)] *)
Definition getsize (fs : filesystem) (path : string) : result Z :=
  match fs !! path with
  | Some n =>
      if sizable n then Return (Z.of_nat (length (content n))) else Raise OSError
  | None =>
      match vacant fs (file_of fs path) with
      | Directory st_size => Return st_size
      | _ => Raise FileNotFoundError
      end
  end.

(** [try: size = os.path.getsize(path) except Exception: size = None] *)
Definition try_getsize (fs : filesystem) (path : string) : option Z :=
  match getsize fs path with
  | Return n => Some n
  | Raise _ => None
  end.

(** *** Handles *)

(** A handle open for reading: a cursor into the file under the key
    [rfile]. *)
Record reader : Type := mk_reader {
  rfile : string;
  offset : nat;
  rfault : option nat
}.

(** A handle open for writing on the file under the key [wfile]; [writes]
    counts the calls of [write] that went through (a ghost field: the
    program does not read it). *)
Record writer : Type := mk_writer {
  wfile : string;
  wfault : option nat;
  writes : nat
}.

(** [open(path, "rb")] *)
Definition open_rb (fs : filesystem) (path : string) : result reader :=
  match fs !! path with
  | Some n =>
      if readable n
      then Return {| rfile := file_of fs path; offset := 0; rfault := read_fault n |}
      else Raise PermissionError
  | None =>
      match vacant fs (file_of fs path) with
      | Directory _ => Raise IsADirectoryError
      | _ => Raise FileNotFoundError
      end
  end.

(** [open(path, "wb")]: truncates the file the path leads to, if it may be
    written, or creates one at a free name; raises when the file or the
    directory may not be written, when there is no directory for the name,
    and when the path leads to a directory. *)
Definition open_wb (fs : filesystem) (path : string)
  : result (filesystem * writer) :=
  match fs !! path with
  | Some n =>
      if writable n
      then Return (<[path := set_content [] n]> fs,
                   {| wfile := file_of fs path; wfault := write_fault n;
                      writes := 0 |})
      else Raise PermissionError
  | None =>
      match vacant fs (file_of fs path) with
      | Free =>
          Return (<[path := regular []]> fs,
                  {| wfile := file_of fs path; wfault := None; writes := 0 |})
      | NoDirectory => Raise FileNotFoundError
      | Protected => Raise PermissionError
      | Directory _ => Raise IsADirectoryError
      end
  end.

(** Whether [open(path, "wb")] goes through. *)
Definition opens_wb (fs : filesystem) (path : string) : bool :=
  match fs !! path with
  | Some n => writable n
  | None =>
      match vacant fs (file_of fs path) with
      | Free => true
      | _ => false
      end
  end.

(** What a read of [size] bytes returns when [rest] is what lies beyond
    the cursor: a negative size reads to the end of the file, 0 reads
    nothing. *)
Definition read_slice (size : Z) (rest : list byte) : list byte :=
  if size <? 0 then rest else firstn (Z.to_nat size) rest.

(** [src.read(size)] on an unbuffered handle ([buffering=0]); [fs] is the
    files, under their keys. *)
Definition raw_read (fs : gmap string node) (r : reader) (size : Z)
  : result (list byte * reader) :=
  match rfault r with
  | Some O => Raise OSError
  | _ =>
      let rest := skipn (offset r) (bytes_of fs (rfile r)) in
      let chunk := read_slice size rest in
      Return (chunk,
              {| rfile := rfile r;
                 offset := (offset r + length chunk)%nat;
                 rfault := Nat.pred <$> rfault r |})
  end.

(** [f.read(size)] on a buffered handle: as above, but a size below -1 is
    refused with [ValueError]. *)
Definition buffered_read (fs : gmap string node) (r : reader) (size : Z)
  : result (list byte * reader) :=
  if size <? -1 then Raise ValueError else raw_read fs r size.

(** [dst.write(chunk)]: appends at the end of the file. *)
Definition write (fs : gmap string node) (w : writer) (chunk : list byte)
  : result (gmap string node * writer) :=
  match wfault w with
  | Some O => Raise OSError
  | _ =>
      Return (match fs !! wfile w with
              | Some n => <[wfile w := set_content (content n ++ chunk) n]> fs
              | None => fs
              end,
              {| wfile := wfile w;
                 wfault := Nat.pred <$> wfault w;
                 writes := Datatypes.S (writes w) |})
  end.

(** The node an [open(path, "wb")] that goes through works on: the one
    there, or a fresh regular file. *)
Definition dest_node (fs : filesystem) (path : string) : node :=
  match fs !! path with
  | Some n => n
  | None => regular []
  end.

(** A node that opens for reading and whose medium raises no I/O fault. *)
Definition fault_free (n : node) : Prop :=
  readable n = true /\ read_fault n = None /\ write_fault n = None.

(** The number of non-empty chunks in which [avail] bytes are read with
    reads of [size] bytes (a counting function for the statements below). *)
Definition transfers (size : Z) (avail : nat) : nat :=
  if size <? 0 then (if (avail =? 0)%nat then 0%nat else 1%nat)
  else Z.to_nat ((Z.of_nat avail + size - 1) / size).

(** ** [hash_file] *)

(** The [while True] loop of [hash_file]. [fuel] bounds the iterations;
    [None] is "out of fuel". *)
Fixpoint hash_loop (fuel : nat) (chunk_size : Z) (fs : gmap string node)
    (f : reader) (md5 : MD5.state) (sha1 : SHA1.state) (total_read : Z)
  : option (result (MD5.state * SHA1.state * Z)) :=
  match fuel with
  | O => None
  | Datatypes.S fuel' =>
      match buffered_read fs f chunk_size with
      | Raise e => Some (Raise e)
      | Return ([], _) => Some (Return (md5, sha1, total_read))
      | Return (chunk, f') =>
          hash_loop fuel' chunk_size fs f'
            (MD5.update md5 chunk) (SHA1.update sha1 chunk)
            (total_read + Z.of_nat (length chunk))
      end
  end.

Definition hash_file (fs : filesystem) (path : string) (chunk_size : Z)
  : option (result (string * string)) :=
  match open_rb fs path with
  | Raise e => Some (Raise e)
  | Return f =>
      match hash_loop (Datatypes.S (length (file_bytes fs path))) chunk_size
              (files fs) f MD5.init SHA1.init 0 with
      | None => None
      | Some (Raise e) => Some (Raise e)
      | Some (Return (md5, sha1, _)) =>
          Some (Return (MD5.hexdigest md5, SHA1.hexdigest sha1))
      end
  end.

(** ** [image_and_hash] *)

(** The [while True] loop of [image_and_hash]: read a chunk, stop on the
    empty one, else write it and feed it to both hash objects. The files
    are returned on every exit, with what has been written so far. *)
Fixpoint copy_loop (fuel : nat) (chunk_size : Z) (fs : gmap string node)
    (src : reader) (dst : writer)
    (md5 : MD5.state) (sha1 : SHA1.state) (total_read : Z)
  : option (gmap string node * result (MD5.state * SHA1.state * Z * writer)) :=
  match fuel with
  | O => None
  | Datatypes.S fuel' =>
      match raw_read fs src chunk_size with
      | Raise e => Some (fs, Raise e)
      | Return ([], _) => Some (fs, Return (md5, sha1, total_read, dst))
      | Return (chunk, src') =>
          match write fs dst chunk with
          | Raise e => Some (fs, Raise e)
          | Return (fs', dst') =>
              copy_loop fuel' chunk_size fs' src' dst'
                (MD5.update md5 chunk) (SHA1.update sha1 chunk)
                (total_read + Z.of_nat (length chunk))
          end
      end
  end.

(** The source is opened first, then the destination (created or
    truncated); an [open] that raises ends the call with nothing written.
    The loop reads what the source holds from then on, so that a
    destination that is the source itself, under whatever name, is read as
    the empty file. *)
Definition image_and_hash (fs : filesystem)
    (source_path output_path : string) (chunk_size : Z)
  : option (filesystem * result (string * string * option Z * option Z)) :=
  let source_size := try_getsize fs source_path in
  match open_rb fs source_path with
  | Raise e => Some (fs, Raise e)
  | Return src =>
      match open_wb fs output_path with
      | Raise e => Some (fs, Raise e)
      | Return (fs1, dst) =>
          match copy_loop (Datatypes.S (length (file_bytes fs1 source_path)))
                  chunk_size (files fs1) src dst MD5.init SHA1.init 0 with
          | None => None
          | Some (files2, Raise e) => Some (with_files fs1 files2, Raise e)
          | Some (files2, Return (md5, sha1, _, _)) =>
              let fs2 := with_files fs1 files2 in
              let output_size := try_getsize fs2 output_path in
              Some (fs2, Return (MD5.hexdigest md5, SHA1.hexdigest sha1,
                                 source_size, output_size))
          end
      end
  end.

(** ** [main] *)

(** The answers typed at the prompts, already stripped (and, for the last
    one, lower-cased). *)
Record inputs : Type := mk_inputs {
  in_case_id : string;
  in_examiner : string;
  in_evidence_desc : string;
  in_source_path : string;
  in_output_path : string;
  in_user_input : string
}.

(** [report_data], without the time stamp and with the two sizes as the
    integers that [human_readable_size] then renders. *)
Record report_data : Type := mk_report {
  case_id : string;
  examiner : string;
  evidence_desc : string;
  source_path : string;
  output_path : string;
  source_size : option Z;
  output_size : option Z;
  size_match : string;
  md5_copy : string;
  sha1_copy : string;
  md5_verify : string;
  sha1_verify : string;
  md5_match : string;
  sha1_match : string;
  user_confirm : string;
  conclusion : string
}.

(** [s or d] on strings *)
Definition or_default (s d : string) : string :=
  if String.eqb s "" then d else s.

Definition default_chunk_size : Z := 1024 * 1024.

Definition default_output : string := "disk_image.dd".

Definition yes_no (b : bool) : string := if b then "YES" else "NO".

(** Lines 220 to 223 of [main]. *)
Definition size_match_of (source_size output_size : option Z) : string :=
  match source_size, output_size with
  | Some s, Some o => if s =? o then "YES" else "NO"
  | _, _ => "UNKNOWN"
  end.

Definition SUCCESSFUL : string :=
  "Image creation SUCCESSFUL. Integrity verified by size and hash match.".

Definition HASH_ONLY : string :=
  "Image hashes match, but size comparison was not fully available.".

Definition WARNING : string :=
  "WARNING: Hash mismatch detected. Image may be corrupted or modified.".

(** Lines 225 to 230 of [main]. *)
Definition conclusion_of (md5_match_bool sha1_match_bool : bool)
    (size_match : string) : string :=
  if md5_match_bool && sha1_match_bool && String.eqb size_match "YES"
  then SUCCESSFUL
  else if md5_match_bool && sha1_match_bool
  then HASH_ONLY
  else WARNING.

(** How a run of [main] ends: at the empty source path, with the report
    record, or in one of the three handlers, told apart by the exception. *)
Inductive main_result : Type :=
  | NoSourcePath
  | Reported (d : report_data)
  | Failed (e : exn).

(** [main] from the verification pass on (lines 184 to 258), given what
    [image_and_hash] returned. The file system is the one the verify pass
    reads; the text report that [write_report] then renders from the record
    is not part of it. *)
Definition main_after_copy (inp : inputs) (output_path : string)
    (fs : filesystem)
    (copy : string * string * option Z * option Z)
  : option (filesystem * main_result) :=
  let '(md5_copy, sha1_copy, source_size, output_size) := copy in
  match hash_file fs output_path default_chunk_size with
  | None => None
  | Some (Raise e) => Some (fs, Failed e)
  | Some (Return (md5_verify, sha1_verify)) =>
      let md5_match_bool := String.eqb md5_copy md5_verify in
      let sha1_match_bool := String.eqb sha1_copy sha1_verify in
      let user_confirm :=
        if String.eqb (in_user_input inp) "yes" || String.eqb (in_user_input inp) "y"
        then "YES" else "NO" in
      let size_match := size_match_of source_size output_size in
      Some (fs, Reported
        {| case_id := or_default (in_case_id inp) "N/A";
           examiner := or_default (in_examiner inp) "N/A";
           evidence_desc := or_default (in_evidence_desc inp) "N/A";
           source_path := in_source_path inp;
           output_path := output_path;
           source_size := source_size;
           output_size := output_size;
           size_match := size_match;
           md5_copy := md5_copy;
           sha1_copy := sha1_copy;
           md5_verify := md5_verify;
           sha1_verify := sha1_verify;
           md5_match := yes_no md5_match_bool;
           sha1_match := yes_no sha1_match_bool;
           user_confirm := user_confirm;
           conclusion := conclusion_of md5_match_bool sha1_match_bool size_match |})
  end.

Definition main (fs : filesystem) (inp : inputs)
  : option (filesystem * main_result) :=
  if String.eqb (in_source_path inp) "" then Some (fs, NoSourcePath)
  else
    let output_path := or_default (in_output_path inp) default_output in
    match image_and_hash fs (in_source_path inp) output_path default_chunk_size with
    | None => None
    | Some (fs', Raise e) => Some (fs', Failed e)
    | Some (fs', Return copy) => main_after_copy inp output_path fs' copy
    end.

(** ** Scenarios *)

(** Three MiB of the byte 0xAB. *)
Definition three_mib : list byte := repeat xab (Z.to_nat 3145728).

(** A run of [main] on [source] with every other prompt left empty but the
    last one: the image goes to [default_output]. *)
Definition plain_run (source : string) : inputs :=
  {| in_case_id := ""; in_examiner := ""; in_evidence_desc := "";
     in_source_path := source; in_output_path := ""; in_user_input := "y" |}.



(** A source for which [os.path.getsize] does not answer. *)
Definition raw_device (c : list byte) : node :=
  {| content := c; sizable := false; readable := true; writable := true;
     read_fault := None; write_fault := None |}.

(** A source of one byte whose second read raises. *)
Definition faulty_source : node :=
  {| content := [x61]; sizable := true; readable := true; writable := true;
     read_fault := Some 1%nat; write_fault := None |}.

(** The report of a run whose two passes found the digests of [c], with
    the sizes [ss] and [os]. *)
Definition report_of (inp : inputs) (out_path : string) (c : list byte)
    (ss os : option Z) : report_data :=
  {| case_id := or_default (in_case_id inp) "N/A";
     examiner := or_default (in_examiner inp) "N/A";
     evidence_desc := or_default (in_evidence_desc inp) "N/A";
     source_path := in_source_path inp;
     output_path := out_path;
     source_size := ss;
     output_size := os;
     size_match := size_match_of ss os;
     md5_copy := MD5.digest c;
     sha1_copy := SHA1.digest c;
     md5_verify := MD5.digest c;
     sha1_verify := SHA1.digest c;
     md5_match := "YES";
     sha1_match := "YES";
     user_confirm :=
       if String.eqb (in_user_input inp) "yes" || String.eqb (in_user_input inp) "y"
       then "YES" else "NO";
     conclusion := conclusion_of true true (size_match_of ss os) |}.

(** ** [human_readable_size] *)

(** Python's floats are binary64. The integer nearest to [n >= 0] among
    those with at most 53 significant bits, ties going to the even one, is
    what the conversion of [n] to a float keeps of it. *)
Definition round53 (n : Z) : Z :=
  let s := Z.log2 n + 1 - 53 in
  if s <=? 0 then n
  else
    let q := Z.shiftr n s in
    let r := Z.land n (Z.ones s) in
    let half := Z.shiftl 1 (s - 1) in
    Z.shiftl (if (half <? r) || ((r =? half) && Z.odd q) then q + 1 else q) s.

(** The first power of two that is no binary64 value: a conversion or a
    division whose rounded result reaches it raises [OverflowError]. *)
Definition float_limit : Z := 2 ^ 1024.

(** The values [size_bytes] takes in [human_readable_size]: the integer it
    is given, then floats. [Float m k] is the float [m / 1024^k], for an
    integer [m] of at most 53 significant bits: dividing such a float by
    1024 again is exact. *)
Inductive number : Type :=
  | Int (n : Z)
  | Float (m : Z) (k : nat).

(** [size_bytes < 1024] *)
Definition lt_1024 (x : number) : bool :=
  match x with
  | Int n => n <? 1024
  | Float m k => m <? 1024 * 1024 ^ Z.of_nat k
  end.

(** [size_bytes /= 1024]; [None] is [OverflowError]. *)
Definition div_1024 (x : number) : option number :=
  match x with
  | Int n =>
      let m := Z.sgn n * round53 (Z.abs n) in
      if float_limit * 1024 <=? Z.abs m then None else Some (Float m 1)
  | Float m k => Some (Float m (Datatypes.S k))
  end.

(** The quotient [a / b] of two non-negative integers ([b] positive),
    rounded to the nearest integer, ties going to the even one. *)
Definition round_half_even (a b : Z) : Z :=
  let q := a / b in
  let r := a mod b in
  if (b <? 2 * r) || ((2 * r =? b) && Z.odd q) then q + 1 else q.

Definition decimal_digit (n : Z) : ascii :=
  nth (Z.to_nat n) ["0"; "1"; "2"; "3"; "4"; "5"; "6"; "7"; "8"; "9"]%char "0"%char.

(** A non-negative number of hundredths, written with two decimals. *)
Definition fixed2 (centi : Z) : string :=
  pretty (centi / 100) +:+ "." +:+
  String (decimal_digit (centi mod 100 / 10))
    (String (decimal_digit (centi mod 10)) "").

Definition sign_of (m : Z) : string := if m <? 0 then "-" else "".

(** [f"{size_bytes:.2f}"]: an integer is converted to a float first; the
    decimals are those of the float's exact value, rounded half to even.
    [None] is [OverflowError]. *)
Definition format_2f (x : number) : option string :=
  match x with
  | Int n =>
      let m := Z.sgn n * round53 (Z.abs n) in
      if float_limit <=? Z.abs m then None
      else Some (sign_of m +:+ fixed2 (100 * Z.abs m))
  | Float m k =>
      Some (sign_of m +:+
            fixed2 (round_half_even (100 * Z.abs m) (1024 ^ Z.of_nat k)))
  end.

(** The [for unit in ...] loop and the [return] after it. *)
Fixpoint size_loop (units : list string) (size_bytes : number) : option string :=
  match units with
  | [] =>
      match format_2f size_bytes with
      | Some s => Some (s +:+ " PB")
      | None => None
      end
  | unit :: units' =>
      if lt_1024 size_bytes
      then match format_2f size_bytes with
           | Some s => Some (s +:+ " " +:+ unit)
           | None => None
           end
      else match div_1024 size_bytes with
           | Some x => size_loop units' x
           | None => None
           end
  end.

Definition size_units : list string := ["B"; "KB"; "MB"; "GB"; "TB"].

Definition human_readable_size (size_bytes : option Z) : option string :=
  match size_bytes with
  | None => Some "UNKNOWN"%string
  | Some n => size_loop size_units (Int n)
  end.

(** ** [print_result_table] *)

(** The dictionary [report_data] of [main]; a value is a string or
    [None]. *)
Module ReportDict.

Record dict : Type := mk {
  datetime : option string;
  case_id : option string;
  examiner : option string;
  evidence_desc : option string;
  source_path : option string;
  output_path : option string;
  source_size_hr : option string;
  output_size_hr : option string;
  size_match : option string;
  md5_copy : option string;
  sha1_copy : option string;
  md5_verify : option string;
  sha1_verify : option string;
  md5_match : option string;
  sha1_match : option string;
  user_confirm : option string;
  conclusion : option string
}.

End ReportDict.

(** Lines 232 to 250 of [main]: the dictionary made of the report record,
    of the time [now] and of the two sizes as [human_readable_size] gives
    them. *)
Definition report_dict (now : string) (d : report_data)
    (source_size_hr output_size_hr : string) : ReportDict.dict :=
  {| ReportDict.datetime := Some now;
     ReportDict.case_id := Some (case_id d);
     ReportDict.examiner := Some (examiner d);
     ReportDict.evidence_desc := Some (evidence_desc d);
     ReportDict.source_path := Some (source_path d);
     ReportDict.output_path := Some (output_path d);
     ReportDict.source_size_hr := Some source_size_hr;
     ReportDict.output_size_hr := Some output_size_hr;
     ReportDict.size_match := Some (size_match d);
     ReportDict.md5_copy := Some (md5_copy d);
     ReportDict.sha1_copy := Some (sha1_copy d);
     ReportDict.md5_verify := Some (md5_verify d);
     ReportDict.sha1_verify := Some (sha1_verify d);
     ReportDict.md5_match := Some (md5_match d);
     ReportDict.sha1_match := Some (sha1_match d);
     ReportDict.user_confirm := Some (user_confirm d);
     ReportDict.conclusion := Some (conclusion d) |}.

(** [None] is the [OverflowError] of [human_readable_size]. *)
Definition report_dict_of (now : string) (d : report_data)
  : option ReportDict.dict :=
  match human_readable_size (source_size d),
        human_readable_size (output_size d) with
  | Some source_size_hr, Some output_size_hr =>
      Some (report_dict now d source_size_hr output_size_hr)
  | _, _ => None
  end.

(** [c * n] for a character [c] *)
Fixpoint repeat_char (c : ascii) (n : nat) : string :=
  match n with
  | O => EmptyString
  | Datatypes.S n' => String c (repeat_char c n')
  end.

(** [f"{s:<{width}}"]: [s], then spaces up to [width] characters. *)
Definition ljust (width : nat) (s : string) : string :=
  s +:+ repeat_char " " (width - String.length s).

(** [s[:n]] *)
Definition prefix_of (n : nat) (s : string) : string := substring 0 n s.

Definition table_headers : string * string := ("Field"%string, "Value"%string).

Definition table_rows (data : ReportDict.dict) : list (string * option string) :=
  [("Case ID", ReportDict.case_id data);
   ("Examiner", ReportDict.examiner data);
   ("Evidence Description", ReportDict.evidence_desc data);
   ("Source Path", ReportDict.source_path data);
   ("Image Path", ReportDict.output_path data);
   ("Source Size", ReportDict.source_size_hr data);
   ("Image Size", ReportDict.output_size_hr data);
   ("Size Match", ReportDict.size_match data);
   ("MD5 (Copy)", ReportDict.md5_copy data);
   ("MD5 (Verify)", ReportDict.md5_verify data);
   ("MD5 Match", ReportDict.md5_match data);
   ("SHA1 (Copy)", ReportDict.sha1_copy data);
   ("SHA1 (Verify)", ReportDict.sha1_verify data);
   ("SHA1 Match", ReportDict.sha1_match data);
   ("User Manual Verification", ReportDict.user_confirm data);
   ("Conclusion", ReportDict.conclusion data)]%string.

(** [max(len(h[0]) for h in [headers] + rows) + 2] *)
Definition col1_width (rows : list (string * option string)) : nat :=
  (fold_right Nat.max 0
     (map String.length (fst table_headers :: map fst rows)) + 2)%nat.

Definition col2_width : nat := 60.

(** One line of the table: the field, left-justified, a bar, and the first
    [col2_width] characters of the value, left-justified; [None] is shown
    as the empty string. *)
Definition table_line (w1 : nat) (field : string) (value : option string)
  : string :=
  ljust w1 field +:+ "| " +:+
  ljust col2_width
    (prefix_of col2_width (match value with Some v => v | None => "" end)).

Definition table_rule (w1 : nat) : string :=
  repeat_char "-" (w1 + col2_width + 3).

Definition newline : string := String (ascii_of_nat 10) EmptyString.

(** The lines [print_result_table] prints, one for each call of [print]. *)
Definition print_result_table (data : ReportDict.dict) : list string :=
  let rows := table_rows data in
  let w1 := col1_width rows in
  [newline +:+ "==================== RESULT TABLE ===================="%string;
   table_rule w1;
   ljust w1 (fst table_headers) +:+ "| " +:+ ljust col2_width (snd table_headers);
   table_rule w1]
  ++ map (fun row => table_line w1 (fst row) (snd row)) rows
  ++ [table_rule w1;
      "======================================================"%string +:+ newline].

(** ** File systems for the instances *)

Fixpoint has_slash (s : string) : bool :=
  match s with
  | EmptyString => false
  | String c rest => Ascii.eqb c "/" || has_slash rest
  end.

(** A working directory that takes new files and holds the files [m] under
    their names, no link and no directory: a name without a slash that is
    not in [m] is free, "." and ".." are directories, and a path through a
    directory finds none, as the empty path does. *)
Definition flat (m : gmap string node) : filesystem :=
  {| files := m;
     target := fun path => path;
     vacant := fun key =>
       if String.eqb key "." || String.eqb key ".." then Directory 4096
       else if String.eqb key "" || has_slash key then NoDirectory
       else Free |}.

Definition hello : list byte := [x68; x65; x6c; x6c; x6f].

(** A source whose second read raises, beside a file of notes. *)
Definition fs_with_notes : filesystem :=
  flat (<[ "notes.txt"%string := regular [x6e] ]>
          {[ "src.bin"%string :=
               {| content := hello; sizable := true; readable := true;
                  writable := true;
                  read_fault := Some 1%nat; write_fault := None |} ]}).

(** A regular source, and an old image on a medium whose third write
    raises. *)
Definition fs_with_old_image : filesystem :=
  flat (<[ "img.dd"%string :=
             {| content := [x00]; sizable := true; readable := true;
                writable := true;
                read_fault := None; write_fault := Some 2%nat |} ]>
          {[ "src.bin"%string := regular hello ]}).

(** A regular source alone. *)
Definition fs_hello : filesystem := flat {[ "src.bin"%string := regular hello ]}.

(** A regular source and an old regular image. *)
Definition fs_two_files : filesystem :=
  flat (<[ "img.dd"%string := regular [x00; x01] ]>
          {[ "src.bin"%string := regular hello ]}).

(** A regular source, and at the default output path a file on a medium
    whose first read raises. *)
Definition fs_bad_sector : filesystem :=
  flat (<[ default_output :=
             {| content := []; sizable := true; readable := true;
                writable := true;
                read_fault := Some 0%nat; write_fault := None |} ]>
          {[ "src.bin"%string := regular hello ]}).

(** A regular source, and an old image that may be read but not written. *)
Definition fs_read_only_image : filesystem :=
  flat (<[ "img.dd"%string :=
             {| content := [x00; x01]; sizable := true; readable := true;
                writable := false;
                read_fault := None; write_fault := None |} ]>
          {[ "src.bin"%string := regular hello ]}).

(** A regular source in a directory that may not be written: no name in
    it is free. *)
Definition fs_protected : filesystem :=
  {| files := {[ "src.bin"%string := regular hello ]};
     target := fun path => path;
     vacant := fun _ => Protected |}.

(** The text [format_2f] gives for the float [m / 1024^k], [m] not
    negative. *)
Definition float_text (m : Z) (k : nat) : string :=
  fixed2 (round_half_even (100 * m) (1024 ^ Z.of_nat k)).

(** The report of a plain run on [fs_hello], and its dictionary. *)
Definition report_hello : report_data :=
  report_of (plain_run "src.bin") default_output hello (Some 5) (Some 5).

Definition dict_hello : ReportDict.dict :=
  report_dict "2026-11-03 10:00:00" report_hello "5.00 B" "5.00 B".

(** * Properties *)

(** ** Reference digests *)

Example md5_empty : MD5.digest [] = "d41d8cd98f00b204e9800998ecf8427e"%string.
Proof. vm_compute. reflexivity. Qed.
Example md5_a : MD5.digest [x61] = "0cc175b9c0f1b6a831c399e269772661"%string.
Proof. vm_compute. reflexivity. Qed.
Example md5_abc : MD5.digest [x61;x62;x63] = "900150983cd24fb0d6963f7d28e17f72"%string.
Proof. vm_compute. reflexivity. Qed.
Example md5_a130 : MD5.digest (repeat x61 130) = "e016e4ccc7fdaea56fc377600b58c4cb"%string.
Proof. vm_compute. reflexivity. Qed.
Example md5_a56 : MD5.digest (repeat x61 56) = "3b0c8ac703f828b04c6c197006d17218"%string.
Proof. vm_compute. reflexivity. Qed.
Example sha1_empty : SHA1.digest [] = "da39a3ee5e6b4b0d3255bfef95601890afd80709"%string.
Proof. vm_compute. reflexivity. Qed.
Example sha1_abc : SHA1.digest [x61;x62;x63] = "a9993e364706816aba3e25717850c26c9cd0d89d"%string.
Proof. vm_compute. reflexivity. Qed.
Example sha1_a130 : SHA1.digest (repeat x61 130) = "e1cd437ec3e8a60db34e1d150a4fc73882d83b41"%string.
Proof. vm_compute. reflexivity. Qed.
Example sha1_a56 : SHA1.digest (repeat x61 56) = "c2db330f6083854c99d4b5bfb6e8f29f201be699"%string.
Proof. vm_compute. reflexivity. Qed.

(** ** The hash objects take their input as one stream *)

Lemma md5_update_app (s : MD5.state) (a b : list byte) :
  MD5.update s (a ++ b) = MD5.update (MD5.update s a) b.
Proof. unfold MD5.update. apply fold_left_app. Qed.

Lemma sha1_update_app (s : SHA1.state) (a b : list byte) :
  SHA1.update s (a ++ b) = SHA1.update (SHA1.update s a) b.
Proof. unfold SHA1.update. apply fold_left_app. Qed.

(** Feeding the chunks of a list one after the other is feeding their
    concatenation. *)
Lemma md5_update_chunks (chunks : list (list byte)) (s : MD5.state) :
  fold_left MD5.update chunks s = MD5.update s (concat chunks).
Proof.
  revert s. induction chunks as [|c chunks IH]; intros s; simpl.
  - reflexivity.
  - rewrite IH. symmetry. apply md5_update_app.
Qed.

Lemma sha1_update_chunks (chunks : list (list byte)) (s : SHA1.state) :
  fold_left SHA1.update chunks s = SHA1.update s (concat chunks).
Proof.
  revert s. induction chunks as [|c chunks IH]; intros s; simpl.
  - reflexivity.
  - rewrite IH. symmetry. apply sha1_update_app.
Qed.

(** ** Reads *)

Lemma read_slice_nil (size : Z) : read_slice size [] = [].
Proof. unfold read_slice. destruct (size <? 0); [reflexivity | apply firstn_nil]. Qed.

Lemma read_slice_nonempty (size : Z) (rest : list byte) :
  size <> 0 -> rest <> [] -> read_slice size rest <> [].
Proof.
  intros Hs Hr. unfold read_slice.
  destruct (Z.ltb_spec size 0) as [Hneg | Hpos]; [exact Hr |].
  destruct rest as [|b rest]; [congruence |].
  destruct (Z.to_nat size) eqn:E; [lia | simpl; discriminate].
Qed.

Lemma read_slice_zero (rest : list byte) : read_slice 0 rest = [].
Proof. reflexivity. Qed.

Lemma read_slice_length (size : Z) (rest : list byte) :
  length (read_slice size rest) =
  if size <? 0 then length rest else Nat.min (Z.to_nat size) (length rest).
Proof.
  unfold read_slice. destruct (size <? 0); [reflexivity | apply length_firstn].
Qed.

Lemma read_slice_split (size : Z) (rest : list byte) :
  read_slice size rest ++ skipn (length (read_slice size rest)) rest = rest.
Proof.
  unfold read_slice. destruct (size <? 0).
  - rewrite skipn_all. apply app_nil_r.
  - rewrite length_firstn.
    destruct (Nat.le_ge_cases (Z.to_nat size) (length rest)) as [H | H].
    + rewrite Nat.min_l by exact H. apply firstn_skipn.
    + rewrite Nat.min_r by exact H.
      rewrite firstn_all2 by exact H. rewrite skipn_all. apply app_nil_r.
Qed.

Lemma read_slice_rest_length (size : Z) (rest : list byte) :
  size <> 0 -> rest <> [] ->
  (length (skipn (length (read_slice size rest)) rest) < length rest)%nat.
Proof.
  intros Hs Hr.
  pose proof (read_slice_nonempty size rest Hs Hr) as Hne.
  rewrite length_skipn.
  destruct (read_slice size rest) as [|b c]; [congruence |].
  destruct rest; [congruence |]. simpl. lia.
Qed.

Lemma skipn_offset (o n : nat) (l : list byte) :
  skipn (o + n) l = skipn n (skipn o l).
Proof. rewrite skipn_skipn. f_equal. lia. Qed.

Lemma set_content_same (n : node) : set_content (content n) n = n.
Proof. destruct n; reflexivity. Qed.

Lemma set_content_twice (c c' : list byte) (n : node) :
  set_content c (set_content c' n) = set_content c n.
Proof. reflexivity. Qed.

Lemma set_content_app (c c' : list byte) (n : node) :
  set_content (content (set_content c n) ++ c') (set_content c n) =
  set_content (c ++ c') n.
Proof. reflexivity. Qed.

Lemma bytes_of_lookup (fs : gmap string node) (p : string) (n : node) :
  fs !! p = Some n -> bytes_of fs p = content n.
Proof. intros H. unfold bytes_of. rewrite H. reflexivity. Qed.

(** ** The loop of [hash_file] *)

(** With no fault on the handle and a chunk size the buffered read accepts,
    the loop ends, whatever is left to read has been fed to both hash
    objects, and [total_read] has grown by its length. *)
Lemma hash_loop_ok (fuel : nat) (chunk_size : Z) (fs : gmap string node)
    (f : reader) (md5 : MD5.state) (sha1 : SHA1.state) (total_read : Z) :
  rfault f = None ->
  chunk_size = -1 \/ 0 < chunk_size ->
  (length (skipn (offset f) (bytes_of fs (rfile f))) < fuel)%nat ->
  hash_loop fuel chunk_size fs f md5 sha1 total_read =
  Some (Return (MD5.update md5 (skipn (offset f) (bytes_of fs (rfile f))),
                SHA1.update sha1 (skipn (offset f) (bytes_of fs (rfile f))),
                total_read + Z.of_nat (length (skipn (offset f) (bytes_of fs (rfile f)))))).
Proof.
  revert f md5 sha1 total_read.
  induction fuel as [|fuel IH]; intros f md5 sha1 total_read Hf Hcs Hlen; [lia |].
  assert (Hnz : chunk_size <> 0) by lia.
  assert (Hok : (chunk_size <? -1) = false) by (apply Z.ltb_ge; lia).
  simpl. unfold buffered_read, raw_read. rewrite Hok, Hf.
  set (rest := skipn (offset f) (bytes_of fs (rfile f))) in *.
  destruct rest as [|b rest'] eqn:Erest.
  - rewrite read_slice_nil. simpl. rewrite Z.add_0_r. reflexivity.
  - assert (Hne : b :: rest' <> []) by discriminate.
    pose proof (read_slice_nonempty chunk_size _ Hnz Hne) as Hchunk.
    pose proof (read_slice_split chunk_size (b :: rest')) as Hsplit.
    pose proof (read_slice_rest_length chunk_size _ Hnz Hne) as Hless.
    destruct (read_slice chunk_size (b :: rest')) as [|c chunk] eqn:Echunk;
      [congruence |].
    rewrite IH; cbn [rfile offset rfault fmap option_fmap option_map].
    + rewrite skipn_offset. fold rest. rewrite Erest.
      set (tail := skipn (length (c :: chunk)) (b :: rest')) in *.
      clearbody tail. rewrite <- Hsplit.
      rewrite md5_update_app, sha1_update_app, length_app.
      rewrite Nat2Z.inj_add, Z.add_assoc. reflexivity.
    + reflexivity.
    + exact Hcs.
    + rewrite skipn_offset. fold rest. rewrite Erest. lia.
Qed.

(** ** Counting chunks *)

Lemma transfers_zero (size : Z) : size <> 0 -> transfers size 0 = 0%nat.
Proof.
  intros Hs. unfold transfers.
  destruct (Z.ltb_spec size 0) as [Hneg | Hpos]; [reflexivity |].
  rewrite Z.div_small by lia. reflexivity.
Qed.

Lemma transfers_positive (size : Z) (avail : nat) :
  0 < size ->
  transfers size avail = Z.to_nat ((Z.of_nat avail + size - 1) / size).
Proof.
  intros Hs. unfold transfers.
  destruct (Z.ltb_spec size 0); [lia | reflexivity].
Qed.

(** One more chunk is transferred for what a read takes off a non-empty
    rest. *)
Lemma transfers_step (size : Z) (rest : list byte) :
  size <> 0 -> rest <> [] ->
  transfers size (length rest) =
  Datatypes.S (transfers size (length (skipn (length (read_slice size rest)) rest))).
Proof.
  intros Hs Hr.
  assert (Hlen : (0 < length rest)%nat) by (destruct rest; [congruence | simpl; lia]).
  rewrite length_skipn, read_slice_length. unfold transfers.
  destruct (Z.ltb_spec size 0) as [Hneg | Hpos].
  - rewrite Nat.sub_diag.
    destruct (Nat.eqb_spec (length rest) 0); [lia | reflexivity].
  - assert (Hsz : 0 < size) by lia.
    destruct (Nat.le_ge_cases (Z.to_nat size) (length rest)) as [H | H].
    + rewrite Nat.min_l by exact H.
      rewrite Nat2Z.inj_sub by exact H. rewrite Z2Nat.id by lia.
      replace (Z.of_nat (length rest) + size - 1)
        with ((Z.of_nat (length rest) - size + size - 1) + 1 * size) by lia.
      rewrite Z.div_add by lia.
      assert (0 <= (Z.of_nat (length rest) - size + size - 1) / size)
        by (apply Z.div_pos; lia).
      lia.
    + rewrite Nat.min_r by exact H. rewrite Nat.sub_diag.
      change (Z.of_nat 0) with 0. rewrite (Z.div_small (0 + size - 1)) by lia.
      replace (Z.of_nat (length rest) + size - 1)
        with ((Z.of_nat (length rest) - 1) + 1 * size) by lia.
      rewrite Z.div_add by lia. rewrite Z.div_small by lia. reflexivity.
Qed.

(** ** The loop of [image_and_hash] *)

(** With no fault on either handle, a chunk size other than 0 and a
    destination that is not the source, the loop ends: what was left of the
    source has been appended to the destination and fed to both hash
    objects; nothing else in the file system has changed. *)
Lemma copy_loop_ok (fuel : nat) (chunk_size : Z) (fs : gmap string node)
    (src : reader) (dst : writer) (md5 : MD5.state) (sha1 : SHA1.state)
    (total_read : Z) (ns nd : node) :
  chunk_size <> 0 ->
  rfault src = None ->
  wfault dst = None ->
  rfile src <> wfile dst ->
  fs !! rfile src = Some ns ->
  fs !! wfile dst = Some nd ->
  (length (skipn (offset src) (content ns)) < fuel)%nat ->
  copy_loop fuel chunk_size fs src dst md5 sha1 total_read =
  Some (<[wfile dst := set_content (content nd ++ skipn (offset src) (content ns)) nd]> fs,
        Return (MD5.update md5 (skipn (offset src) (content ns)),
                SHA1.update sha1 (skipn (offset src) (content ns)),
                total_read + Z.of_nat (length (skipn (offset src) (content ns))),
                {| wfile := wfile dst; wfault := None;
                   writes := (writes dst +
                              transfers chunk_size
                                (length (skipn (offset src) (content ns))))%nat |})).
Proof.
  revert fs src dst md5 sha1 total_read nd.
  induction fuel as [|fuel IH];
    intros fs src dst md5 sha1 total_read nd Hnz Hrf Hwf Hne Hs Hd Hlen; [lia |].
  simpl. unfold raw_read. rewrite Hrf, (bytes_of_lookup _ _ _ Hs).
  set (rest := skipn (offset src) (content ns)) in *.
  destruct rest as [|b rest'] eqn:Erest.
  - rewrite read_slice_nil. cbn [length]. rewrite app_nil_r, set_content_same.
    rewrite insert_id by exact Hd.
    rewrite transfers_zero by exact Hnz. rewrite Z.add_0_r, Nat.add_0_r.
    destruct dst as [p wf n]. simpl in Hwf. subst wf. reflexivity.
  - assert (Hnil : b :: rest' <> []) by discriminate.
    pose proof (read_slice_nonempty chunk_size _ Hnz Hnil) as Hchunk.
    pose proof (read_slice_split chunk_size (b :: rest')) as Hsplit.
    pose proof (read_slice_rest_length chunk_size _ Hnz Hnil) as Hless.
    pose proof (transfers_step chunk_size _ Hnz Hnil) as Hcount.
    destruct (read_slice chunk_size (b :: rest')) as [|c chunk] eqn:Echunk;
      [congruence |].
    unfold write. rewrite Hwf, Hd.
    rewrite IH with (nd := set_content (content nd ++ c :: chunk) nd);
      cbn [rfile offset rfault wfile wfault writes fmap option_fmap option_map].
    + rewrite skipn_offset. fold rest. rewrite Erest.
      set (tail := skipn (length (c :: chunk)) (b :: rest')) in *.
      clearbody tail. rewrite <- Hsplit in Hcount |- *.
      rewrite insert_insert_eq, set_content_app, <- app_assoc.
      rewrite md5_update_app, sha1_update_app, Hcount.
      rewrite length_app, Nat2Z.inj_add, Z.add_assoc.
      rewrite Nat.add_succ_r. reflexivity.
    + exact Hnz.
    + reflexivity.
    + reflexivity.
    + exact Hne.
    + rewrite lookup_insert_ne by (intros E; apply Hne; symmetry; exact E). exact Hs.
    + apply lookup_insert_eq.
    + rewrite skipn_offset. fold rest. rewrite Erest. lia.
Qed.

(** The loop stops at the first read that returns no byte, and leaves
    everything as it is. *)
Lemma copy_loop_stop (fuel : nat) (chunk_size : Z) (fs : gmap string node)
    (src : reader) (dst : writer) (md5 : MD5.state) (sha1 : SHA1.state)
    (total_read : Z) :
  rfault src <> Some 0%nat ->
  read_slice chunk_size (skipn (offset src) (bytes_of fs (rfile src))) = [] ->
  copy_loop (Datatypes.S fuel) chunk_size fs src dst md5 sha1 total_read =
  Some (fs, Return (md5, sha1, total_read, dst)).
Proof.
  intros Hrf Hnil. simpl. unfold raw_read. rewrite Hnil.
  destruct (rfault src) as [[|k]|]; [congruence | reflexivity | reflexivity].
Qed.

(** *** Faults in the middle of the stream *)

Lemma firstn_plus (n m : nat) (l : list byte) :
  firstn (n + m) l = firstn n l ++ firstn m (skipn n l).
Proof.
  revert l. induction n as [|n IH]; intros l; [reflexivity |].
  destruct l as [|b l]; simpl.
  - rewrite firstn_nil. reflexivity.
  - rewrite IH. reflexivity.
Qed.

Lemma skipn_length_firstn (n : nat) (l : list byte) :
  skipn (length (firstn n l)) l = skipn n l.
Proof.
  rewrite length_firstn.
  destruct (Nat.le_ge_cases n (length l)) as [H | H].
  - rewrite Nat.min_l by exact H. reflexivity.
  - rewrite Nat.min_r by exact H.
    rewrite skipn_all. symmetry. apply skipn_all2. exact H.
Qed.

Lemma read_slice_positive (size : Z) (rest : list byte) :
  0 < size -> read_slice size rest = firstn (Z.to_nat size) rest.
Proof.
  intros H. unfold read_slice. destruct (Z.ltb_spec size 0); [lia | reflexivity].
Qed.

(** A read that raises after [k] good ones, while the source still has
    bytes or at the read that would have found its end: the loop stops with
    the exception, and the destination holds the [k] chunks written so
    far. *)
Lemma copy_loop_read_fault (fuel : nat) (chunk_size : Z)
    (fs : gmap string node) (src : reader) (dst : writer)
    (md5 : MD5.state) (sha1 : SHA1.state) (total_read : Z)
    (ns nd : node) (k : nat) :
  0 < chunk_size ->
  rfault src = Some k ->
  wfault dst = None ->
  rfile src <> wfile dst ->
  fs !! rfile src = Some ns ->
  fs !! wfile dst = Some nd ->
  (k * Z.to_nat chunk_size <
   length (skipn (offset src) (content ns)) + Z.to_nat chunk_size)%nat ->
  (length (skipn (offset src) (content ns)) < fuel)%nat ->
  copy_loop fuel chunk_size fs src dst md5 sha1 total_read =
  Some (<[wfile dst :=
            set_content
              (content nd ++
               firstn (k * Z.to_nat chunk_size) (skipn (offset src) (content ns)))
              nd]> fs,
        Raise OSError).
Proof.
  revert fs src dst md5 sha1 total_read nd k.
  induction fuel as [|fuel IH];
    intros fs src dst md5 sha1 total_read nd k Hcs Hrf Hwf Hne Hs Hd Hk Hlen; [lia |].
  assert (Hnz : chunk_size <> 0) by lia.
  simpl. unfold raw_read. rewrite Hrf, (bytes_of_lookup _ _ _ Hs).
  set (rest := skipn (offset src) (content ns)) in *.
  destruct k as [|k].
  - cbn [Nat.mul firstn]. rewrite app_nil_r, set_content_same.
    rewrite insert_id by exact Hd. reflexivity.
  - rewrite Nat.mul_succ_l in Hk.
    assert (Hnil : rest <> []).
    { intros E. rewrite E in Hk. simpl in Hk. lia. }
    pose proof (read_slice_nonempty chunk_size _ Hnz Hnil) as Hchunk.
    pose proof (read_slice_rest_length chunk_size _ Hnz Hnil) as Hless.
    pose proof (read_slice_length chunk_size rest) as Hclen.
    pose proof (read_slice_positive chunk_size rest Hcs) as Hfirst.
    destruct (Z.ltb_spec chunk_size 0) as [Hneg | _]; [lia |].
    destruct (read_slice chunk_size rest) as [|c chunk] eqn:Echunk; [congruence |].
    unfold write. rewrite Hwf, Hd.
    rewrite IH with (nd := set_content (content nd ++ c :: chunk) nd) (k := k);
      cbn [rfile offset rfault wfile wfault writes fmap option_fmap option_map Nat.pred].
    + rewrite skipn_offset. fold rest.
      rewrite insert_insert_eq, set_content_app, <- app_assoc.
      rewrite Hfirst, skipn_length_firstn.
      rewrite Nat.mul_succ_l, (Nat.add_comm (k * Z.to_nat chunk_size)), firstn_plus.
      reflexivity.
    + exact Hcs.
    + reflexivity.
    + reflexivity.
    + exact Hne.
    + rewrite lookup_insert_ne by (intros E; apply Hne; symmetry; exact E). exact Hs.
    + apply lookup_insert_eq.
    + rewrite skipn_offset. fold rest. rewrite length_skipn, Hclen. lia.
    + rewrite skipn_offset. fold rest. lia.
Qed.

(** A write that raises after [k] good ones, while the source still has
    bytes for it: the loop stops with the exception, and the destination
    holds the [k] chunks written so far. *)
Lemma copy_loop_write_fault (fuel : nat) (chunk_size : Z)
    (fs : gmap string node) (src : reader) (dst : writer)
    (md5 : MD5.state) (sha1 : SHA1.state) (total_read : Z)
    (ns nd : node) (k : nat) :
  0 < chunk_size ->
  rfault src = None ->
  wfault dst = Some k ->
  rfile src <> wfile dst ->
  fs !! rfile src = Some ns ->
  fs !! wfile dst = Some nd ->
  (k * Z.to_nat chunk_size < length (skipn (offset src) (content ns)))%nat ->
  (length (skipn (offset src) (content ns)) < fuel)%nat ->
  copy_loop fuel chunk_size fs src dst md5 sha1 total_read =
  Some (<[wfile dst :=
            set_content
              (content nd ++
               firstn (k * Z.to_nat chunk_size) (skipn (offset src) (content ns)))
              nd]> fs,
        Raise OSError).
Proof.
  revert fs src dst md5 sha1 total_read nd k.
  induction fuel as [|fuel IH];
    intros fs src dst md5 sha1 total_read nd k Hcs Hrf Hwf Hne Hs Hd Hk Hlen; [lia |].
  assert (Hnz : chunk_size <> 0) by lia.
  simpl. unfold raw_read. rewrite Hrf, (bytes_of_lookup _ _ _ Hs).
  set (rest := skipn (offset src) (content ns)) in *.
  assert (Hnil : rest <> []).
  { intros E. rewrite E in Hk. simpl in Hk. lia. }
  pose proof (read_slice_nonempty chunk_size _ Hnz Hnil) as Hchunk.
  pose proof (read_slice_rest_length chunk_size _ Hnz Hnil) as Hless.
  pose proof (read_slice_length chunk_size rest) as Hclen.
  pose proof (read_slice_positive chunk_size rest Hcs) as Hfirst.
  destruct (Z.ltb_spec chunk_size 0) as [Hneg | _]; [lia |].
  destruct (read_slice chunk_size rest) as [|c chunk] eqn:Echunk; [congruence |].
  unfold write. rewrite Hwf.
  destruct k as [|k].
  - cbn [Nat.mul firstn]. rewrite app_nil_r, set_content_same.
    rewrite insert_id by exact Hd. reflexivity.
  - rewrite Nat.mul_succ_l in Hk. rewrite Hd.
    rewrite IH with (nd := set_content (content nd ++ c :: chunk) nd) (k := k);
      cbn [rfile offset rfault wfile wfault writes fmap option_fmap option_map Nat.pred].
    + rewrite skipn_offset. fold rest.
      rewrite insert_insert_eq, set_content_app, <- app_assoc.
      rewrite Hfirst, skipn_length_firstn.
      rewrite Nat.mul_succ_l, (Nat.add_comm (k * Z.to_nat chunk_size)), firstn_plus.
      reflexivity.
    + exact Hcs.
    + reflexivity.
    + reflexivity.
    + exact Hne.
    + rewrite lookup_insert_ne by (intros E; apply Hne; symmetry; exact E). exact Hs.
    + apply lookup_insert_eq.
    + rewrite skipn_offset. fold rest. rewrite length_skipn, Hclen. lia.
    + rewrite skipn_offset. fold rest. lia.
Qed.

(** ** Paths and files *)

Lemma lookup_path (fs : filesystem) (path : string) :
  fs !! path = files fs !! file_of fs path.
Proof. reflexivity. Qed.

Lemma insert_path (fs : filesystem) (path : string) (n : node) :
  <[path := n]> fs = with_files fs (<[file_of fs path := n]> (files fs)).
Proof. reflexivity. Qed.

Lemma file_of_with_files (fs : filesystem) (m : gmap string node) (path : string) :
  file_of (with_files fs m) path = file_of fs path.
Proof. reflexivity. Qed.

Lemma with_files_twice (fs : filesystem) (m m' : gmap string node) :
  with_files (with_files fs m) m' = with_files fs m'.
Proof. reflexivity. Qed.

Lemma with_files_same (fs : filesystem) : with_files fs (files fs) = fs.
Proof. destruct fs; reflexivity. Qed.

(** Two paths that lead to the same file see the same node; a file put
    where a path leads is found there under every name of the place, and
    nowhere else. *)
Lemma path_lookup_same (fs : filesystem) (p q : string) :
  file_of fs p = file_of fs q -> fs !! p = fs !! q.
Proof. intros H. rewrite !lookup_path, H. reflexivity. Qed.

Lemma path_lookup_insert_eq (fs : filesystem) (p : string) (n : node) :
  <[p := n]> fs !! p = Some n.
Proof.
  rewrite lookup_path, insert_path, file_of_with_files.
  apply lookup_insert_eq.
Qed.

Lemma path_lookup_insert_same (fs : filesystem) (p q : string) (n : node) :
  file_of fs p = file_of fs q -> <[p := n]> fs !! q = Some n.
Proof.
  intros H. rewrite lookup_path, insert_path, file_of_with_files, <- H.
  apply lookup_insert_eq.
Qed.

Lemma path_lookup_insert_ne (fs : filesystem) (p q : string) (n : node) :
  file_of fs p <> file_of fs q -> <[p := n]> fs !! q = fs !! q.
Proof.
  intros H. rewrite !lookup_path, insert_path, file_of_with_files.
  apply lookup_insert_ne. exact H.
Qed.

Lemma path_insert_insert_eq (fs : filesystem) (p : string) (n n' : node) :
  <[p := n]> (<[p := n']> fs) = <[p := n]> fs.
Proof.
  rewrite !insert_path, with_files_twice, file_of_with_files.
  cbn [files with_files]. rewrite insert_insert_eq. reflexivity.
Qed.

(** What has been written through a handle on a file that [open] has just
    put at [p]. *)
Lemma insert_after_open (fs : filesystem) (p : string) (n0 n : node) :
  with_files (<[p := n0]> fs) (<[file_of fs p := n]> (files (<[p := n0]> fs)))
  = <[p := n]> fs.
Proof.
  rewrite !insert_path, with_files_twice. cbn [files with_files].
  rewrite insert_insert_eq. reflexivity.
Qed.

Lemma path_insert_id (fs : filesystem) (p : string) (n : node) :
  fs !! p = Some n -> <[p := n]> fs = fs.
Proof.
  intros H. rewrite insert_path, insert_id by exact H. apply with_files_same.
Qed.

Lemma file_bytes_lookup (fs : filesystem) (p : string) (n : node) :
  fs !! p = Some n -> file_bytes fs p = content n.
Proof. intros H. unfold file_bytes. rewrite H. reflexivity. Qed.

Lemma file_bytes_insert_eq (fs : filesystem) (p : string) (n : node) :
  file_bytes (<[p := n]> fs) p = content n.
Proof. apply file_bytes_lookup, path_lookup_insert_eq. Qed.

Lemma bytes_of_path (fs : filesystem) (p : string) :
  bytes_of (files fs) (file_of fs p) = file_bytes fs p.
Proof. reflexivity. Qed.

Lemma dest_node_lookup (fs : filesystem) (p : string) (n : node) :
  fs !! p = Some n -> dest_node fs p = n.
Proof. intros H. unfold dest_node. rewrite H. reflexivity. Qed.

(** In every file system a path and the same path after "./" lead to the
    same place. *)
Lemma strip_dot_slash_stripping (p : string) (c : ascii) (rest : string) :
  p = String c rest -> Ascii.eqb c "/" = false ->
  strip_dot_slash true p = strip_dot_slash false p.
Proof. intros -> Hc. cbn [strip_dot_slash]. rewrite Hc. reflexivity. Qed.

Lemma file_of_dot_slash (fs : filesystem) (c : ascii) (rest : string) :
  Ascii.eqb c "/" = false ->
  file_of fs (String "." (String "/" (String c rest))) = file_of fs (String c rest).
Proof.
  intros Hc. unfold file_of. f_equal.
  change (strip_dot_slash false (String "." (String "/" (String c rest))))
    with (strip_dot_slash true (String c rest)).
  apply (strip_dot_slash_stripping _ c rest eq_refl Hc).
Qed.

Example src_bin_under_two_names (fs : filesystem) :
  file_of fs "./src.bin" = file_of fs "src.bin".
Proof. reflexivity. Qed.

(** The paths of the working directory. *)
Lemma flat_lookup (m : gmap string node) (p : string) :
  strip_dot_slash false p = p -> flat m !! p = m !! p.
Proof. intros H. rewrite lookup_path. unfold file_of. rewrite H. reflexivity. Qed.

(** ** [hash_file] and [image_and_hash] as functions of the content *)

Lemma hash_file_ok (fs : filesystem) (path : string) (chunk_size : Z)
    (n : node) :
  fs !! path = Some n ->
  readable n = true ->
  read_fault n = None ->
  chunk_size = -1 \/ 0 < chunk_size ->
  hash_file fs path chunk_size =
  Some (Return (MD5.digest (content n), SHA1.digest (content n))).
Proof.
  intros Hn Hr Hf Hcs. unfold hash_file, open_rb. rewrite Hn, Hr.
  rewrite hash_loop_ok; cbn [rfile offset rfault]; rewrite ?skipn_O, ?bytes_of_path.
  - rewrite (file_bytes_lookup _ _ _ Hn). reflexivity.
  - exact Hf.
  - exact Hcs.
  - lia.
Qed.

(** An [open(path, "wb")] goes through exactly when the path leads to a
    file that may be written or to a free name, and then it leaves an empty
    file there; when it raises it has changed nothing. *)
Lemma open_wb_eq (fs : filesystem) (path : string) :
  opens_wb fs path = true ->
  open_wb fs path =
  Return (<[path := set_content [] (dest_node fs path)]> fs,
          {| wfile := file_of fs path; wfault := write_fault (dest_node fs path);
             writes := 0 |}).
Proof.
  unfold opens_wb, open_wb, dest_node.
  destruct (fs !! path) as [n|].
  - intros ->. reflexivity.
  - destruct (vacant fs (file_of fs path)); [reflexivity | discriminate ..].
Qed.

Lemma open_wb_raises (fs : filesystem) (path : string) :
  opens_wb fs path = false ->
  exists e : exn,
    open_wb fs path = Raise e /\
    (e = PermissionError \/ e = FileNotFoundError \/ e = IsADirectoryError).
Proof.
  unfold opens_wb, open_wb.
  destruct (fs !! path) as [n|].
  - intros ->. exists PermissionError. auto.
  - destruct (vacant fs (file_of fs path)); [discriminate | | |]; intros _.
    + exists FileNotFoundError. auto.
    + exists PermissionError. auto.
    + exists IsADirectoryError. auto.
Qed.

Lemma open_wb_return_inv (fs fs1 : filesystem) (path : string) (dst : writer) :
  open_wb fs path = Return (fs1, dst) -> opens_wb fs path = true.
Proof.
  destruct (opens_wb fs path) eqn:E; [reflexivity |].
  destruct (open_wb_raises fs path E) as (e & -> & _). discriminate.
Qed.

Lemma open_rb_return_inv (fs : filesystem) (path : string) (src : reader) :
  open_rb fs path = Return src ->
  exists n : node,
    fs !! path = Some n /\ readable n = true /\
    src = {| rfile := file_of fs path; offset := 0; rfault := read_fault n |}.
Proof.
  unfold open_rb. destruct (fs !! path) as [n|].
  - destruct (readable n) eqn:Hr; [| discriminate].
    intros H. injection H as <-. exists n. repeat split. exact Hr.
  - destruct (vacant fs (file_of fs path)); discriminate.
Qed.

Lemma try_getsize_lookup (fs : filesystem) (path : string) (n : node) :
  fs !! path = Some n ->
  try_getsize fs path =
  if sizable n then Some (Z.of_nat (length (content n))) else None.
Proof.
  intros H. unfold try_getsize, getsize. rewrite H.
  destruct (sizable n); reflexivity.
Qed.

(** A source that opens and reads without fault, an output path that
    leads to another file than the source, that opens for writing and
    takes the writes, a chunk size other than 0: the destination ends with
    the content of the source, and both digests are those of that
    content. *)
Lemma image_and_hash_ok (fs : filesystem) (src_path out_path : string)
    (chunk_size : Z) (ns : node) :
  fs !! src_path = Some ns ->
  readable ns = true ->
  read_fault ns = None ->
  file_of fs src_path <> file_of fs out_path ->
  opens_wb fs out_path = true ->
  write_fault (dest_node fs out_path) = None ->
  chunk_size <> 0 ->
  image_and_hash fs src_path out_path chunk_size =
  Some (<[out_path := set_content (content ns) (dest_node fs out_path)]> fs,
        Return (MD5.digest (content ns), SHA1.digest (content ns),
                (if sizable ns then Some (Z.of_nat (length (content ns))) else None),
                (if sizable (dest_node fs out_path)
                 then Some (Z.of_nat (length (content ns))) else None))).
Proof.
  intros Hs Hr Hrf Hne Hopen Hwf Hcs.
  unfold image_and_hash, open_rb. rewrite Hs, Hr, (open_wb_eq _ _ Hopen).
  set (nd := dest_node fs out_path) in *.
  assert (Hs1 : <[out_path := set_content [] nd]> fs !! src_path = Some ns).
  { rewrite path_lookup_insert_ne by (intros E; apply Hne; symmetry; exact E).
    exact Hs. }
  rewrite (file_bytes_lookup _ _ _ Hs1).
  rewrite copy_loop_ok with (ns := ns) (nd := set_content [] nd);
    cbn [rfile offset rfault wfile wfault writes]; rewrite ?skipn_O.
  - rewrite insert_after_open. cbn [content set_content app].
    rewrite (try_getsize_lookup _ _ _ Hs).
    erewrite try_getsize_lookup by apply path_lookup_insert_eq.
    reflexivity.
  - exact Hcs.
  - exact Hrf.
  - exact Hwf.
  - exact Hne.
  - exact Hs1.
  - apply path_lookup_insert_eq.
  - lia.
Qed.

(** ** The loops end *)

Lemma hash_loop_total (fuel : nat) (chunk_size : Z) (fs : gmap string node)
    (f : reader) (md5 : MD5.state) (sha1 : SHA1.state) (total_read : Z) :
  (length (skipn (offset f) (bytes_of fs (rfile f))) < fuel)%nat ->
  hash_loop fuel chunk_size fs f md5 sha1 total_read <> None.
Proof.
  revert f md5 sha1 total_read.
  induction fuel as [|fuel IH]; intros f md5 sha1 total_read Hlen; [lia |].
  simpl. unfold buffered_read.
  destruct (chunk_size <? -1); [discriminate |].
  unfold raw_read.
  set (rest := skipn (offset f) (bytes_of fs (rfile f))) in *.
  destruct (Z.eq_dec chunk_size 0) as [-> | Hnz].
  { rewrite read_slice_zero. destruct (rfault f) as [[|k]|]; discriminate. }
  destruct rest as [|b rest'] eqn:Erest.
  { rewrite read_slice_nil. destruct (rfault f) as [[|k]|]; discriminate. }
  assert (Hnil : b :: rest' <> []) by discriminate.
  pose proof (read_slice_rest_length chunk_size _ Hnz Hnil) as Hless.
  assert (Hstep : forall rf,
    hash_loop fuel chunk_size fs
      {| rfile := rfile f;
         offset := (offset f + length (read_slice chunk_size (b :: rest')))%nat;
         rfault := rf |}
      (MD5.update md5 (read_slice chunk_size (b :: rest')))
      (SHA1.update sha1 (read_slice chunk_size (b :: rest')))
      (total_read + Z.of_nat (length (read_slice chunk_size (b :: rest')))) <> None).
  { intros rf. apply IH. cbn [rfile offset].
    rewrite skipn_offset. fold rest. rewrite Erest. lia. }
  destruct (rfault f) as [[|k]|]; [discriminate | |];
    (destruct (read_slice chunk_size (b :: rest')) as [|c chunk];
     [discriminate | apply Hstep]).
Qed.

Lemma copy_loop_total (fuel : nat) (chunk_size : Z) (fs : gmap string node)
    (src : reader) (dst : writer) (md5 : MD5.state) (sha1 : SHA1.state)
    (total_read : Z) :
  rfile src <> wfile dst ->
  (length (skipn (offset src) (bytes_of fs (rfile src))) < fuel)%nat ->
  copy_loop fuel chunk_size fs src dst md5 sha1 total_read <> None.
Proof.
  revert fs src dst md5 sha1 total_read.
  induction fuel as [|fuel IH]; intros fs src dst md5 sha1 total_read Hne Hlen; [lia |].
  simpl. unfold raw_read.
  set (rest := skipn (offset src) (bytes_of fs (rfile src))) in *.
  destruct (Z.eq_dec chunk_size 0) as [-> | Hnz].
  { rewrite read_slice_zero. destruct (rfault src) as [[|k]|]; discriminate. }
  destruct rest as [|b rest'] eqn:Erest.
  { rewrite read_slice_nil. destruct (rfault src) as [[|k]|]; discriminate. }
  assert (Hnil : b :: rest' <> []) by discriminate.
  pose proof (read_slice_rest_length chunk_size _ Hnz Hnil) as Hless.
  assert (Hstep : forall rf,
    match write fs dst (read_slice chunk_size (b :: rest')) with
    | Return (fs', dst') =>
        copy_loop fuel chunk_size fs'
          {| rfile := rfile src;
             offset := (offset src + length (read_slice chunk_size (b :: rest')))%nat;
             rfault := rf |} dst'
          (MD5.update md5 (read_slice chunk_size (b :: rest')))
          (SHA1.update sha1 (read_slice chunk_size (b :: rest')))
          (total_read + Z.of_nat (length (read_slice chunk_size (b :: rest'))))
    | Raise e => Some (fs, Raise e)
    end <> None).
  { intros rf. unfold write.
    assert (Hkeep : forall fs',
      bytes_of fs' (rfile src) = bytes_of fs (rfile src) ->
      forall wf n, copy_loop fuel chunk_size fs'
        {| rfile := rfile src;
           offset := (offset src + length (read_slice chunk_size (b :: rest')))%nat;
           rfault := rf |}
        {| wfile := wfile dst; wfault := wf; writes := n |}
        (MD5.update md5 (read_slice chunk_size (b :: rest')))
        (SHA1.update sha1 (read_slice chunk_size (b :: rest')))
        (total_read + Z.of_nat (length (read_slice chunk_size (b :: rest')))) <> None).
    { intros fs' Hsame wf n. apply IH; cbn [rfile offset wfile].
      - exact Hne.
      - rewrite Hsame, skipn_offset. fold rest. rewrite Erest. lia. }
    assert (Hfs : bytes_of
              match fs !! wfile dst with
              | Some n =>
                  <[wfile dst :=
                      set_content (content n ++ read_slice chunk_size (b :: rest')) n]> fs
              | None => fs
              end (rfile src) = bytes_of fs (rfile src)).
    { destruct (fs !! wfile dst); [| reflexivity].
      unfold bytes_of.
      rewrite lookup_insert_ne by (intros E; apply Hne; symmetry; exact E).
      reflexivity. }
    destruct (wfault dst) as [[|k]|]; [discriminate | |]; apply Hkeep; exact Hfs. }
  destruct (rfault src) as [[|k]|]; [discriminate | |];
    (destruct (read_slice chunk_size (b :: rest')) as [|c chunk];
     [discriminate | apply Hstep]).
Qed.

Lemma hash_file_total (fs : filesystem) (path : string) (chunk_size : Z) :
  hash_file fs path chunk_size <> None.
Proof.
  unfold hash_file. destruct (open_rb fs path) as [f | e] eqn:Eopen; [| discriminate].
  destruct (open_rb_return_inv _ _ _ Eopen) as (n & _ & _ & ->).
  pose proof (hash_loop_total (Datatypes.S (length (file_bytes fs path)))
                chunk_size (files fs)
                {| rfile := file_of fs path; offset := 0; rfault := read_fault n |}
                MD5.init SHA1.init 0) as Hloop.
  cbn [rfile offset] in Hloop. rewrite skipn_O, bytes_of_path in Hloop.
  specialize (Hloop (Nat.lt_succ_diag_r _)).
  destruct (hash_loop _ _ _ _ _ _ _) as [[[[md5 sha1] t] | e] |];
    [discriminate | discriminate | congruence].
Qed.

(** [image_and_hash] returns or raises, whatever the paths, the chunk size
    and the faults of the medium. *)
Lemma image_and_hash_total (fs : filesystem) (src_path out_path : string)
    (chunk_size : Z) :
  image_and_hash fs src_path out_path chunk_size <> None.
Proof.
  unfold image_and_hash.
  destruct (open_rb fs src_path) as [src | e] eqn:Eopen; [| discriminate].
  destruct (open_rb_return_inv _ _ _ Eopen) as (ns & Hs & _ & ->).
  destruct (open_wb fs out_path) as [[fs1 dst] | e] eqn:Ewb; [| discriminate].
  rewrite (open_wb_eq _ _ (open_wb_return_inv _ _ _ _ Ewb)) in Ewb.
  injection Ewb as <- <-.
  set (fs1 := <[out_path := set_content [] (dest_node fs out_path)]> fs).
  set (src := {| rfile := file_of fs src_path; offset := 0; rfault := read_fault ns |}).
  set (dst := {| wfile := file_of fs out_path;
                 wfault := write_fault (dest_node fs out_path); writes := 0 |}).
  assert (Hloop : copy_loop (Datatypes.S (length (file_bytes fs1 src_path)))
                    chunk_size (files fs1) src dst MD5.init SHA1.init 0 <> None).
  { destruct (decide (file_of fs src_path = file_of fs out_path)) as [Heq | Hne].
    - assert (Hnil : file_bytes fs1 src_path = []).
      { apply (file_bytes_lookup _ _ (set_content [] (dest_node fs out_path))).
        apply path_lookup_insert_same. symmetry. exact Heq. }
      rewrite Hnil. cbn [length copy_loop]. unfold raw_read.
      cbn [src rfile offset rfault].
      change (bytes_of (files fs1) (file_of fs src_path))
        with (file_bytes fs1 src_path).
      rewrite Hnil, skipn_O, read_slice_nil.
      destruct (read_fault ns) as [[|k]|]; discriminate.
    - apply copy_loop_total.
      + exact Hne.
      + cbn [src rfile offset]. rewrite skipn_O.
        change (bytes_of (files fs1) (file_of fs src_path))
          with (file_bytes fs1 src_path).
        lia. }
  destruct (copy_loop _ _ _ _ _ _ _ _) as [[fs2 [[[[md5 sha1] t] d] | e]] |];
    [discriminate | discriminate | congruence].
Qed.

(** [main] always ends: at the prompt, with a report, or in a handler. *)
Lemma main_total (fs : filesystem) (inp : inputs) : main fs inp <> None.
Proof.
  unfold main. destruct (String.eqb (in_source_path inp) ""); [discriminate |].
  pose proof (image_and_hash_total fs (in_source_path inp)
                (or_default (in_output_path inp) default_output)
                default_chunk_size) as Hcopy.
  destruct (image_and_hash _ _ _ _) as [[fs' [copy | e]] |];
    [| discriminate | congruence].
  unfold main_after_copy. destruct copy as [[[m s] ss] os].
  pose proof (hash_file_total fs' (or_default (in_output_path inp) default_output)
                default_chunk_size) as Hverify.
  destruct (hash_file _ _ _) as [[[mv sv] | e] |];
    [discriminate | discriminate | congruence].
Qed.

(** ** What a run of the copy loop that returns has done *)

(** Whatever the faults scheduled on the two handles: if the loop returns,
    none has fired, and the whole rest of the source has been appended to
    the destination and fed to both hash objects. *)
Lemma copy_loop_return_inv (fuel : nat) (chunk_size : Z)
    (fs : gmap string node) (src : reader) (dst : writer)
    (md5 : MD5.state) (sha1 : SHA1.state) (total_read : Z) (ns nd : node)
    (fs' : gmap string node) (md5' : MD5.state) (sha1' : SHA1.state)
    (total_read' : Z) (dst' : writer) :
  chunk_size <> 0 ->
  rfile src <> wfile dst ->
  fs !! rfile src = Some ns ->
  fs !! wfile dst = Some nd ->
  copy_loop fuel chunk_size fs src dst md5 sha1 total_read =
    Some (fs', Return (md5', sha1', total_read', dst')) ->
  fs' = <[wfile dst := set_content (content nd ++ skipn (offset src) (content ns)) nd]> fs /\
  md5' = MD5.update md5 (skipn (offset src) (content ns)) /\
  sha1' = SHA1.update sha1 (skipn (offset src) (content ns)) /\
  total_read' = total_read + Z.of_nat (length (skipn (offset src) (content ns))) /\
  writes dst' =
    (writes dst + transfers chunk_size (length (skipn (offset src) (content ns))))%nat.
Proof.
  revert fs src dst md5 sha1 total_read nd.
  induction fuel as [|fuel IH];
    intros fs src dst md5 sha1 total_read nd Hnz Hne Hs Hd Hrun; [discriminate |].
  simpl in Hrun. unfold raw_read in Hrun.
  rewrite (bytes_of_lookup _ _ _ Hs) in Hrun.
  set (rest := skipn (offset src) (content ns)) in *.
  destruct (rfault src) as [[|kr]|] eqn:Hrf; [discriminate | |].
  all: destruct rest as [|b rest'] eqn:Erest;
    [ rewrite read_slice_nil in Hrun; injection Hrun as <- <- <- <- <-;
      cbn [length]; rewrite app_nil_r, set_content_same, (insert_id _ _ _ Hd),
        (transfers_zero _ Hnz), Z.add_0_r, Nat.add_0_r;
      repeat split; reflexivity
    | ].
  all: assert (Hnil : b :: rest' <> []) by discriminate.
  all: pose proof (read_slice_nonempty chunk_size _ Hnz Hnil) as Hchunk.
  all: pose proof (read_slice_split chunk_size (b :: rest')) as Hsplit.
  all: pose proof (transfers_step chunk_size _ Hnz Hnil) as Hcount.
  all: destruct (read_slice chunk_size (b :: rest')) as [|c chunk] eqn:Echunk;
    [congruence |].
  all: unfold write in Hrun; rewrite Hd in Hrun.
  all: destruct (wfault dst) as [[|kw]|] eqn:Hwf; [discriminate | |].
  all: apply IH with (nd := set_content (content nd ++ c :: chunk) nd) in Hrun;
    cbn [rfile offset rfault wfile wfault writes] in *;
    [ | exact Hnz | exact Hne
      | rewrite lookup_insert_ne by (intros E; apply Hne; symmetry; exact E); exact Hs
      | apply lookup_insert_eq ].
  all: rewrite skipn_offset in Hrun; fold rest in Hrun; rewrite Erest in Hrun.
  all: set (tail := skipn (length (c :: chunk)) (b :: rest')) in *; clearbody tail.
  all: rewrite <- Hsplit in Hcount |- *.
  all: destruct Hrun as (-> & -> & -> & -> & ->).
  all: rewrite insert_insert_eq, set_content_app, <- app_assoc.
  all: rewrite md5_update_app, sha1_update_app, Hcount.
  all: rewrite length_app, Nat2Z.inj_add, Z.add_assoc, Nat.add_succ_r.
  all: repeat split; reflexivity.
Qed.

(** ** The size comparison *)

(** C3. The size comparison of [main] is a three-valued function of the two
    sizes: "YES" exactly when both are known and equal, "NO" exactly when
    both are known and differ, "UNKNOWN" exactly when one of them is
    unknown. *)
Theorem size_match_tristate (source_size output_size : option Z) :
  (size_match_of source_size output_size = "YES"%string <->
   exists s : Z, source_size = Some s /\ output_size = Some s) /\
  (size_match_of source_size output_size = "NO"%string <->
   exists s o : Z, source_size = Some s /\ output_size = Some o /\ s <> o) /\
  (size_match_of source_size output_size = "UNKNOWN"%string <->
   source_size = None \/ output_size = None).
Proof.
  unfold size_match_of.
  destruct source_size as [s|], output_size as [o|].
  - destruct (Z.eqb_spec s o) as [-> | Hne].
    + split; [| split].
      * split; [intros _; exists o; auto | reflexivity].
      * split; [discriminate | intros (s' & o' & Hs & Ho & Hd); congruence].
      * split; [discriminate | intros [H | H]; discriminate].
    + split; [| split].
      * split; [discriminate | intros (s' & Hs & Ho); congruence].
      * split; [intros _; exists s, o; auto | reflexivity].
      * split; [discriminate | intros [H | H]; discriminate].
  - split; [| split].
    + split; [discriminate | intros (s' & Hs & Ho); discriminate].
    + split; [discriminate | intros (s' & o' & Hs & Ho & Hd); discriminate].
    + split; [intros _; right; reflexivity | reflexivity].
  - split; [| split].
    + split; [discriminate | intros (s' & Hs & Ho); discriminate].
    + split; [discriminate | intros (s' & o' & Hs & Ho & Hd); discriminate].
    + split; [intros _; left; reflexivity | reflexivity].
  - split; [| split].
    + split; [discriminate | intros (s' & Hs & Ho); discriminate].
    + split; [discriminate | intros (s' & o' & Hs & Ho & Hd); discriminate].
    + split; [intros _; left; reflexivity | reflexivity].
Qed.

(** The report of [main] carries that function of the two sizes that
    [image_and_hash] returned. *)
Lemma main_after_copy_size_match (inp : inputs) (out_path : string)
    (fs fs' : filesystem) (m s : string) (ss os : option Z)
    (d : report_data) :
  main_after_copy inp out_path fs (m, s, ss, os) = Some (fs', Reported d) ->
  size_match d = size_match_of ss os /\ source_size d = ss /\ output_size d = os.
Proof.
  unfold main_after_copy.
  destruct (hash_file fs out_path default_chunk_size) as [[[mv sv] | e] |];
    [| discriminate | discriminate].
  intros H. injection H as _ <-. repeat split; reflexivity.
Qed.

(** ** The conclusion *)

Lemma conclusions_distinct :
  SUCCESSFUL <> HASH_ONLY /\ SUCCESSFUL <> WARNING /\ HASH_ONLY <> WARNING.
Proof. repeat split; discriminate. Qed.

(** What the three branches of the conclusion do: success needs both
    digests and the sizes to match; a digest that does not match gives the
    warning whatever the sizes; matching digests with a size comparison
    other than "YES" give the weaker conclusion. *)
Lemma conclusion_of_cases (md5_ok sha1_ok : bool) (sm : string) :
  (conclusion_of md5_ok sha1_ok sm = SUCCESSFUL <->
   md5_ok = true /\ sha1_ok = true /\ sm = "YES"%string) /\
  (conclusion_of md5_ok sha1_ok sm = WARNING <->
   md5_ok = false \/ sha1_ok = false) /\
  (conclusion_of md5_ok sha1_ok sm = HASH_ONLY <->
   md5_ok = true /\ sha1_ok = true /\ sm <> "YES"%string).
Proof.
  unfold conclusion_of.
  destruct md5_ok, sha1_ok; cbn [andb];
    try destruct (String.eqb_spec sm "YES") as [-> | Hne].
  all: repeat split; try discriminate; try congruence; try tauto.
  all: try (intros [? | ?]; discriminate).
  all: try (intros (? & ? & ?); congruence).
Qed.

(** C4. The conclusion of [main] at equal digests and unequal known sizes:
    a regular three-byte file named both as the source and as the image is
    truncated by the copy, both digest comparisons say "YES", the size
    comparison says "NO", and the conclusion is the sentence about a size
    comparison that was not available, not the one reserved to an unknown
    size. *)
Theorem conclusion_hash_only_on_size_mismatch :
  conclusion_of true true "NO" = HASH_ONLY /\
  main (flat {[ "evidence.bin"%string := regular [x61; x62; x63] ]})
       {| in_case_id := "case 7"; in_examiner := ""; in_evidence_desc := "";
          in_source_path := "evidence.bin"; in_output_path := "evidence.bin";
          in_user_input := "yes" |}
  = Some (flat {[ "evidence.bin"%string := regular [] ]},
          Reported
            {| case_id := "case 7"; examiner := "N/A"; evidence_desc := "N/A";
               source_path := "evidence.bin"; output_path := "evidence.bin";
               source_size := Some 3; output_size := Some 0;
               size_match := "NO";
               md5_copy := "d41d8cd98f00b204e9800998ecf8427e";
               sha1_copy := "da39a3ee5e6b4b0d3255bfef95601890afd80709";
               md5_verify := "d41d8cd98f00b204e9800998ecf8427e";
               sha1_verify := "da39a3ee5e6b4b0d3255bfef95601890afd80709";
               md5_match := "YES"; sha1_match := "YES";
               user_confirm := "YES";
               conclusion := HASH_ONLY |}).
Proof. split; [reflexivity | vm_compute; reflexivity]. Qed.

(** ** What [image_and_hash] has done when it returns *)

Lemma image_and_hash_return_inv (fs fs' : filesystem)
    (src_path out_path : string) (chunk_size : Z)
    (m s : string) (ss os : option Z) :
  chunk_size <> 0 ->
  file_of fs src_path <> file_of fs out_path ->
  image_and_hash fs src_path out_path chunk_size = Some (fs', Return (m, s, ss, os)) ->
  exists ns : node,
    fs !! src_path = Some ns /\
    opens_wb fs out_path = true /\
    fs' = <[out_path := set_content (content ns) (dest_node fs out_path)]> fs /\
    m = MD5.digest (content ns) /\
    s = SHA1.digest (content ns) /\
    ss = try_getsize fs src_path /\
    os = try_getsize fs' out_path.
Proof.
  intros Hnz Hne Hrun. unfold image_and_hash in Hrun.
  destruct (open_rb fs src_path) as [src | e] eqn:Eopen; [| discriminate].
  destruct (open_rb_return_inv _ _ _ Eopen) as (ns & Hs & _ & ->).
  destruct (open_wb fs out_path) as [[fs1 dst] | e] eqn:Ewb; [| discriminate].
  pose proof (open_wb_return_inv _ _ _ _ Ewb) as Hopen.
  rewrite (open_wb_eq _ _ Hopen) in Ewb. injection Ewb as <- <-.
  destruct (copy_loop _ _ _ _ _ _ _ _)
    as [[fs2 [[[[md5 sha1] t] d] | e]] |] eqn:Hloop; [| discriminate | discriminate].
  injection Hrun as <- <- <- <- <-.
  apply copy_loop_return_inv
    with (ns := ns) (nd := set_content [] (dest_node fs out_path)) in Hloop;
    cbn [rfile offset rfault wfile wfault writes] in *.
  - destruct Hloop as (-> & -> & -> & _ & _).
    rewrite skipn_O, insert_after_open. cbn [content set_content app].
    exists ns. repeat split; [exact Hs | exact Hopen].
  - exact Hnz.
  - exact Hne.
  - change (<[out_path := set_content [] (dest_node fs out_path)]> fs !! src_path
            = Some ns).
    rewrite path_lookup_insert_ne by (intros E; apply Hne; symmetry; exact E).
    exact Hs.
  - apply (path_lookup_insert_eq fs out_path).
Qed.

(** C1, as amended. When [image_and_hash] returns for a chunk size other
    than 0 and an output path that leads to another file than the source
    path, the destination holds exactly the bytes of the source, the source
    is as it was, and the two digests returned are those of the bytes
    written to the destination, in whatever sequence of chunks they are fed
    to the hash objects. *)
Theorem image_and_hash_exact_copy (fs fs' : filesystem)
    (src_path out_path : string) (chunk_size : Z)
    (m s : string) (ss os : option Z) :
  chunk_size <> 0 ->
  file_of fs src_path <> file_of fs out_path ->
  image_and_hash fs src_path out_path chunk_size = Some (fs', Return (m, s, ss, os)) ->
  file_bytes fs' out_path = file_bytes fs src_path /\
  file_bytes fs' src_path = file_bytes fs src_path /\
  forall chunks : list (list byte),
    concat chunks = file_bytes fs' out_path ->
    m = MD5.hexdigest (fold_left MD5.update chunks MD5.init) /\
    s = SHA1.hexdigest (fold_left SHA1.update chunks SHA1.init).
Proof.
  intros Hnz Hne Hrun.
  destruct (image_and_hash_return_inv _ _ _ _ _ _ _ _ _ Hnz Hne Hrun)
    as (ns & Hs & _ & -> & -> & -> & _ & _).
  rewrite file_bytes_insert_eq, (file_bytes_lookup _ _ _ Hs).
  cbn [content set_content].
  split; [reflexivity |]. split.
  - apply file_bytes_lookup.
    rewrite path_lookup_insert_ne by (intros E; apply Hne; symmetry; exact E).
    exact Hs.
  - intros chunks Hchunks.
    rewrite md5_update_chunks, sha1_update_chunks, Hchunks. split; reflexivity.
Qed.

(** An instance: five bytes copied in chunks of two. *)
Lemma image_and_hash_exact_copy_witness :
  file_bytes
    (flat (<[ "img.dd"%string := regular [x68; x65; x6c; x6c; x6f] ]>
             {[ "src.bin"%string := regular [x68; x65; x6c; x6c; x6f] ]}))
    "img.dd" =
  file_bytes (flat {[ "src.bin"%string := regular [x68; x65; x6c; x6c; x6f] ]})
    "src.bin" /\
  file_bytes
    (flat (<[ "img.dd"%string := regular [x68; x65; x6c; x6c; x6f] ]>
             {[ "src.bin"%string := regular [x68; x65; x6c; x6c; x6f] ]}))
    "src.bin" =
  file_bytes (flat {[ "src.bin"%string := regular [x68; x65; x6c; x6c; x6f] ]})
    "src.bin" /\
  forall chunks : list (list byte),
    concat chunks =
    file_bytes
      (flat (<[ "img.dd"%string := regular [x68; x65; x6c; x6c; x6f] ]>
               {[ "src.bin"%string := regular [x68; x65; x6c; x6c; x6f] ]}))
      "img.dd" ->
    "5d41402abc4b2a76b9719d911017c592"%string =
      MD5.hexdigest (fold_left MD5.update chunks MD5.init) /\
    "aaf4c61ddcc5e8a2dabede0f3b482cd9aea9434d"%string =
      SHA1.hexdigest (fold_left SHA1.update chunks SHA1.init).
Proof.
  apply (image_and_hash_exact_copy
           (flat {[ "src.bin"%string := regular [x68; x65; x6c; x6c; x6f] ]})
           _ "src.bin" "img.dd" 2 _ _ (Some 5) (Some 5)).
  - lia.
  - discriminate.
  - vm_compute. reflexivity.
Defined.

(** C1, as stated, fails at the chunk size 0: the first read returns no
    byte, the loop stops, and [image_and_hash] returns with an empty
    destination beside a source of one byte. *)
Lemma image_and_hash_chunk_size_zero :
  image_and_hash (flat {[ "src.bin"%string := regular [x61] ]}) "src.bin" "img.dd" 0
  = Some (flat (<[ "img.dd"%string := regular [] ]>
                  {[ "src.bin"%string := regular [x61] ]}),
          Return ("d41d8cd98f00b204e9800998ecf8427e"%string,
                  "da39a3ee5e6b4b0d3255bfef95601890afd80709"%string,
                  Some 1, Some 0)) /\
  file_bytes
    (flat (<[ "img.dd"%string := regular [] ]> {[ "src.bin"%string := regular [x61] ]}))
    "img.dd" = [] /\
  file_bytes
    (flat (<[ "img.dd"%string := regular [] ]> {[ "src.bin"%string := regular [x61] ]}))
    "src.bin" = [x61] /\
  file_bytes
    (flat (<[ "img.dd"%string := regular [] ]> {[ "src.bin"%string := regular [x61] ]}))
    "img.dd" <>
  file_bytes (flat {[ "src.bin"%string := regular [x61] ]}) "src.bin".
Proof.
  split; [vm_compute; reflexivity |].
  split; [vm_compute; reflexivity |].
  split; [vm_compute; reflexivity |].
  vm_compute. discriminate.
Qed.

(** The same loss when the image is written over the source, named by the
    same path or by another one that leads to it: opening the destination
    truncates the file the source handle reads. *)
Lemma image_and_hash_onto_source :
  image_and_hash (flat {[ "src.bin"%string := regular [x61] ]})
    "src.bin" "src.bin" default_chunk_size
  = Some (flat {[ "src.bin"%string := regular [] ]},
          Return ("d41d8cd98f00b204e9800998ecf8427e"%string,
                  "da39a3ee5e6b4b0d3255bfef95601890afd80709"%string,
                  Some 1, Some 0)).
Proof. vm_compute. reflexivity. Qed.

Lemma image_and_hash_onto_other_name :
  image_and_hash fs_hello "src.bin" "./src.bin" 2
  = Some (flat {[ "src.bin"%string := regular [] ]},
          Return ("d41d8cd98f00b204e9800998ecf8427e"%string,
                  "da39a3ee5e6b4b0d3255bfef95601890afd80709"%string,
                  Some 5, Some 0)).
Proof. vm_compute. reflexivity. Qed.

(** An output path that does not open: a directory that is missing, an old
    image that may not be written, a directory. The call raises what
    [open] raised and nothing is written. *)
Lemma image_and_hash_no_directory :
  image_and_hash fs_hello "src.bin" "nodir/img.dd" 2
  = Some (fs_hello, Raise FileNotFoundError).
Proof. vm_compute. reflexivity. Qed.

Lemma image_and_hash_read_only_image :
  image_and_hash fs_read_only_image "src.bin" "img.dd" 2
  = Some (fs_read_only_image, Raise PermissionError).
Proof. vm_compute. reflexivity. Qed.

Lemma image_and_hash_onto_directory :
  image_and_hash fs_hello "src.bin" "." 2 = Some (fs_hello, Raise IsADirectoryError).
Proof. vm_compute. reflexivity. Qed.

(** ** Copy pass and verify pass agree *)

Lemma dest_node_after_copy (fs : filesystem) (out_path : string)
    (c : list byte) :
  <[out_path := set_content c (dest_node fs out_path)]> fs !! out_path =
  Some (set_content c (dest_node fs out_path)).
Proof. apply path_lookup_insert_eq. Qed.

(** C2. For a source that reads without fault and whose content stays as it
    is (the image goes to another file, at a path that opens for writing),
    the digest pair of the copy pass is the pair that [hash_file] finds on
    the image, again on a second run over the image, and on the source
    itself, whatever the (positive) chunk sizes of the passes. *)
Theorem copy_digests_equal_verify_digests (fs : filesystem)
    (src_path out_path : string) (c1 c2 c3 : Z) (ns : node) :
  fs !! src_path = Some ns ->
  fault_free ns ->
  file_of fs src_path <> file_of fs out_path ->
  opens_wb fs out_path = true ->
  fault_free (dest_node fs out_path) ->
  0 < c1 -> 0 < c2 -> 0 < c3 ->
  exists (fs' : filesystem) (ss os : option Z),
    image_and_hash fs src_path out_path c1 =
      Some (fs', Return (MD5.digest (content ns), SHA1.digest (content ns), ss, os)) /\
    hash_file fs' out_path c2 =
      Some (Return (MD5.digest (content ns), SHA1.digest (content ns))) /\
    hash_file fs' out_path c3 =
      Some (Return (MD5.digest (content ns), SHA1.digest (content ns))) /\
    hash_file fs src_path c2 =
      Some (Return (MD5.digest (content ns), SHA1.digest (content ns))) /\
    hash_file fs' src_path c2 =
      Some (Return (MD5.digest (content ns), SHA1.digest (content ns))).
Proof.
  intros Hs (Hr & Hrf & _) Hne Hopen (Hdr & Hdrf & Hdwf) H1 H2 H3.
  eexists _, _, _. split; [| split; [| split; [| split]]].
  - apply image_and_hash_ok;
      [exact Hs | exact Hr | exact Hrf | exact Hne | exact Hopen | exact Hdwf | lia].
  - rewrite hash_file_ok
      with (n := set_content (content ns) (dest_node fs out_path));
      [reflexivity | apply dest_node_after_copy | exact Hdr | exact Hdrf | right; exact H2].
  - rewrite hash_file_ok
      with (n := set_content (content ns) (dest_node fs out_path));
      [reflexivity | apply dest_node_after_copy | exact Hdr | exact Hdrf | right; exact H3].
  - apply hash_file_ok; [exact Hs | exact Hr | exact Hrf | right; exact H2].
  - apply hash_file_ok; [| exact Hr | exact Hrf | right; exact H2].
    rewrite path_lookup_insert_ne by (intros E; apply Hne; symmetry; exact E).
    exact Hs.
Qed.

Lemma fault_free_regular (c : list byte) : fault_free (regular c).
Proof. repeat split. Qed.

(** An instance: three bytes, copied in chunks of two, verified in chunks
    of one and of three. *)
Lemma copy_digests_equal_verify_digests_witness :
  exists (fs' : filesystem) (ss os : option Z),
    image_and_hash (flat {[ "src.bin"%string := regular [x61; x62; x63] ]})
      "src.bin" "img.dd" 2 =
      Some (fs', Return (MD5.digest (content (regular [x61; x62; x63])),
                         SHA1.digest (content (regular [x61; x62; x63])), ss, os)) /\
    hash_file fs' "img.dd" 1 =
      Some (Return (MD5.digest (content (regular [x61; x62; x63])),
                    SHA1.digest (content (regular [x61; x62; x63])))) /\
    hash_file fs' "img.dd" 3 =
      Some (Return (MD5.digest (content (regular [x61; x62; x63])),
                    SHA1.digest (content (regular [x61; x62; x63])))) /\
    hash_file (flat {[ "src.bin"%string := regular [x61; x62; x63] ]}) "src.bin" 1 =
      Some (Return (MD5.digest (content (regular [x61; x62; x63])),
                    SHA1.digest (content (regular [x61; x62; x63])))) /\
    hash_file fs' "src.bin" 1 =
      Some (Return (MD5.digest (content (regular [x61; x62; x63])),
                    SHA1.digest (content (regular [x61; x62; x63])))).
Proof.
  apply (copy_digests_equal_verify_digests
           (flat {[ "src.bin"%string := regular [x61; x62; x63] ]})
           "src.bin" "img.dd" 2 1 3 (regular [x61; x62; x63])).
  - reflexivity.
  - apply fault_free_regular.
  - discriminate.
  - reflexivity.
  - vm_compute. repeat split.
  - lia.
  - lia.
  - lia.
Defined.

(** ** The digest does not depend on the chunk size *)

(** C6. For every content and any two positive chunk sizes, [hash_file]
    returns the same digest pair, and [image_and_hash] (to a path that
    opens for writing and leads to another file than the source) the same
    result: the digests of the content, however the reads cut it. *)
Theorem digest_independent_of_chunk_size (fs : filesystem)
    (path out_path : string) (c1 c2 : Z) (n : node) :
  fs !! path = Some n ->
  fault_free n ->
  file_of fs path <> file_of fs out_path ->
  opens_wb fs out_path = true ->
  fault_free (dest_node fs out_path) ->
  0 < c1 -> 0 < c2 ->
  hash_file fs path c1 = hash_file fs path c2 /\
  hash_file fs path c1 =
    Some (Return (MD5.digest (content n), SHA1.digest (content n))) /\
  image_and_hash fs path out_path c1 = image_and_hash fs path out_path c2 /\
  exists (fs' : filesystem) (ss os : option Z),
    image_and_hash fs path out_path c1 =
      Some (fs', Return (MD5.digest (content n), SHA1.digest (content n), ss, os)).
Proof.
  intros Hn (Hr & Hrf & _) Hne Hopen (_ & _ & Hdwf) H1 H2.
  rewrite !(hash_file_ok fs path _ n Hn Hr Hrf) by (right; assumption).
  rewrite !(image_and_hash_ok fs path out_path _ n Hn Hr Hrf Hne Hopen Hdwf) by lia.
  repeat split. eexists _, _, _. reflexivity.
Qed.

(** An instance: five bytes read in chunks of two and of three. *)
Lemma digest_independent_of_chunk_size_witness :
  hash_file fs_hello "src.bin" 2 = hash_file fs_hello "src.bin" 3 /\
  hash_file fs_hello "src.bin" 2 =
    Some (Return (MD5.digest (content (regular hello)),
                  SHA1.digest (content (regular hello)))) /\
  image_and_hash fs_hello "src.bin" "img.dd" 2 =
  image_and_hash fs_hello "src.bin" "img.dd" 3 /\
  exists (fs' : filesystem) (ss os : option Z),
    image_and_hash fs_hello "src.bin" "img.dd" 2 =
      Some (fs', Return (MD5.digest (content (regular hello)),
                         SHA1.digest (content (regular hello)),
                         ss, os)).
Proof.
  apply (digest_independent_of_chunk_size fs_hello
           "src.bin" "img.dd" 2 3 (regular hello)).
  - reflexivity.
  - apply fault_free_regular.
  - discriminate.
  - reflexivity.
  - vm_compute. repeat split.
  - lia.
  - lia.
Defined.

(** The reference values of that instance, computed by the loops. *)
Example hash_file_hello_by_two :
  hash_file fs_hello "src.bin" 2 =
  Some (Return ("5d41402abc4b2a76b9719d911017c592"%string,
                "aaf4c61ddcc5e8a2dabede0f3b482cd9aea9434d"%string)).
Proof. vm_compute. reflexivity. Qed.

Example hash_file_hello_by_three :
  hash_file fs_hello "src.bin" 3 =
  Some (Return ("5d41402abc4b2a76b9719d911017c592"%string,
                "aaf4c61ddcc5e8a2dabede0f3b482cd9aea9434d"%string)).
Proof. vm_compute. reflexivity. Qed.

(** ** A whole run of [main] without fault *)

(** A source that reads without fault, an image path that leads to
    another file than the source, that opens for writing, takes the writes
    and reads back without fault: [main] ends with a report, the image
    holds the content of the source, both passes found the digests of that
    content, and the sizes are those [os.path.getsize] gave, where it
    answered. *)
Lemma main_ok (fs : filesystem) (inp : inputs) (ns : node) :
  in_source_path inp <> ""%string ->
  fs !! in_source_path inp = Some ns ->
  fault_free ns ->
  file_of fs (in_source_path inp)
    <> file_of fs (or_default (in_output_path inp) default_output) ->
  opens_wb fs (or_default (in_output_path inp) default_output) = true ->
  fault_free (dest_node fs (or_default (in_output_path inp) default_output)) ->
  main fs inp =
  Some (<[or_default (in_output_path inp) default_output :=
            set_content (content ns)
              (dest_node fs (or_default (in_output_path inp) default_output))]> fs,
        Reported
          (report_of inp (or_default (in_output_path inp) default_output) (content ns)
             (if sizable ns then Some (Z.of_nat (length (content ns))) else None)
             (if sizable (dest_node fs (or_default (in_output_path inp) default_output))
              then Some (Z.of_nat (length (content ns))) else None))).
Proof.
  intros Hsrc Hs (Hr & Hrf & _) Hne Hopen (Hdr & Hdrf & Hdwf).
  unfold main. apply String.eqb_neq in Hsrc. rewrite Hsrc.
  set (out := or_default (in_output_path inp) default_output) in *.
  rewrite (image_and_hash_ok fs _ out default_chunk_size ns Hs Hr Hrf Hne Hopen Hdwf)
    by discriminate.
  unfold main_after_copy.
  rewrite hash_file_ok with (n := set_content (content ns) (dest_node fs out));
    [| apply dest_node_after_copy | exact Hdr | exact Hdrf | right; reflexivity].
  cbn [content set_content]. rewrite !String.eqb_refl. reflexivity.
Qed.

(** ** The scenario of three MiB *)

Lemma scenario_of_three_chunks (c : list byte) :
  Z.of_nat (length c) = 3145728 ->
  (exists (src : reader) (fs1 : filesystem) (files2 : gmap string node)
          (dst dst' : writer) (md5 : MD5.state) (sha1 : SHA1.state),
     open_rb (flat {[ "source.bin"%string := regular c ]}) "source.bin" = Return src /\
     open_wb (flat {[ "source.bin"%string := regular c ]}) default_output
       = Return (fs1, dst) /\
     copy_loop (Datatypes.S (length (file_bytes fs1 "source.bin")))
       default_chunk_size (files fs1) src dst MD5.init SHA1.init 0
     = Some (files2, Return (md5, sha1, 3145728, dst')) /\
     writes dst' = 3%nat) /\
  exists (fs' : filesystem) (d : report_data),
    main (flat {[ "source.bin"%string := regular c ]}) (plain_run "source.bin")
      = Some (fs', Reported d) /\
    file_bytes fs' default_output = c /\
    source_size d = Some 3145728 /\
    output_size d = Some 3145728 /\
    md5_copy d = md5_verify d /\
    sha1_copy d = sha1_verify d /\
    size_match d = "YES"%string /\
    md5_match d = "YES"%string /\
    sha1_match d = "YES"%string /\
    conclusion d = SUCCESSFUL.
Proof.
  intros Hlen.
  set (fs := flat {[ "source.bin"%string := regular c ]}).
  assert (Hs : fs !! "source.bin"%string = Some (regular c)).
  { unfold fs. rewrite flat_lookup by reflexivity. apply lookup_singleton_eq. }
  assert (Hnone : fs !! default_output = None).
  { unfold fs. rewrite flat_lookup by reflexivity.
    apply lookup_singleton_ne. discriminate. }
  assert (Hdest : dest_node fs default_output = regular [])
    by (unfold dest_node; rewrite Hnone; reflexivity).
  assert (Hopen : opens_wb fs default_output = true)
    by (unfold opens_wb; rewrite Hnone; reflexivity).
  assert (Hne : file_of fs "source.bin" <> file_of fs default_output)
    by discriminate.
  split.
  - eexists _, _, _, _, _, _, _. split; [| split; [| split]].
    + unfold open_rb. rewrite Hs. reflexivity.
    + apply open_wb_eq. exact Hopen.
    + rewrite Hdest.
      assert (Hs1 : <[default_output := set_content [] (regular [])]> fs
                      !! "source.bin"%string = Some (regular c)).
      { rewrite path_lookup_insert_ne by (intros E; apply Hne; symmetry; exact E).
        exact Hs. }
      rewrite copy_loop_ok
        with (ns := regular c) (nd := set_content [] (regular []));
        cbn [rfile offset rfault wfile wfault writes regular content];
        rewrite ?skipn_O.
      * rewrite Hlen. reflexivity.
      * discriminate.
      * reflexivity.
      * reflexivity.
      * exact Hne.
      * exact Hs1.
      * apply (path_lookup_insert_eq fs default_output).
      * rewrite (file_bytes_lookup _ _ _ Hs1). cbn [regular content]. lia.
    + cbn [writes]. rewrite transfers_positive by reflexivity.
      rewrite Hlen. reflexivity.
  - eexists _, _. split.
    + apply main_ok with (ns := regular c).
      * discriminate.
      * exact Hs.
      * apply fault_free_regular.
      * exact Hne.
      * exact Hopen.
      * change (or_default (in_output_path (plain_run "source.bin")) default_output)
          with default_output.
        rewrite Hdest. apply fault_free_regular.
    + change (or_default (in_output_path (plain_run "source.bin")) default_output)
        with default_output.
      rewrite Hdest.
      cbn [report_of source_size output_size md5_copy md5_verify sha1_copy
             sha1_verify size_match md5_match sha1_match conclusion
             regular sizable content set_content].
      rewrite Hlen, file_bytes_insert_eq.
      repeat split.
Qed.

(** C7. The source of 3 MiB of the byte 0xAB, copied with the chunk size
    of 1 MiB: the copy loop writes exactly 3 chunks, 3,145,728 bytes in
    all, the image has that size and that content, the digests of the copy
    pass are those of the verify pass, the size comparison and both digest
    comparisons say "YES", and the conclusion is the successful one. *)
Theorem three_mib_scenario :
  (exists (src : reader) (fs1 : filesystem) (files2 : gmap string node)
          (dst dst' : writer) (md5 : MD5.state) (sha1 : SHA1.state),
     open_rb (flat {[ "source.bin"%string := regular three_mib ]}) "source.bin"
       = Return src /\
     open_wb (flat {[ "source.bin"%string := regular three_mib ]}) default_output
       = Return (fs1, dst) /\
     copy_loop (Datatypes.S (length (file_bytes fs1 "source.bin")))
       default_chunk_size (files fs1) src dst MD5.init SHA1.init 0
     = Some (files2, Return (md5, sha1, 3145728, dst')) /\
     writes dst' = 3%nat) /\
  exists (fs' : filesystem) (d : report_data),
    main (flat {[ "source.bin"%string := regular three_mib ]}) (plain_run "source.bin")
      = Some (fs', Reported d) /\
    file_bytes fs' default_output = three_mib /\
    source_size d = Some 3145728 /\
    output_size d = Some 3145728 /\
    md5_copy d = md5_verify d /\
    sha1_copy d = sha1_verify d /\
    size_match d = "YES"%string /\
    md5_match d = "YES"%string /\
    sha1_match d = "YES"%string /\
    conclusion d = SUCCESSFUL.
Proof.
  apply scenario_of_three_chunks.
  unfold three_mib. rewrite repeat_length. apply Z2Nat.id. discriminate.
Qed.

(** ** A size that cannot be queried *)

(** C8. When [os.path.getsize] fails for the source or for the image, the
    run goes on: the size concerned is [None] in the report, the copy and
    the verify pass run to their end (the image holds the content of the
    source and both passes found its digests), and the size comparison is
    "UNKNOWN". The source and the image read without fault, and the output
    path opens for writing and leads to another file than the source. *)
Theorem size_query_failure_not_fatal (fs : filesystem) (inp : inputs)
    (ns : node) :
  in_source_path inp <> ""%string ->
  fs !! in_source_path inp = Some ns ->
  fault_free ns ->
  file_of fs (in_source_path inp)
    <> file_of fs (or_default (in_output_path inp) default_output) ->
  opens_wb fs (or_default (in_output_path inp) default_output) = true ->
  fault_free (dest_node fs (or_default (in_output_path inp) default_output)) ->
  sizable ns = false \/
  sizable (dest_node fs (or_default (in_output_path inp) default_output)) = false ->
  exists (fs' : filesystem) (d : report_data),
    main fs inp = Some (fs', Reported d) /\
    (sizable ns = false ->
     try_getsize fs (in_source_path inp) = None /\ source_size d = None) /\
    (sizable (dest_node fs (or_default (in_output_path inp) default_output)) = false ->
     try_getsize fs' (or_default (in_output_path inp) default_output) = None /\
     output_size d = None) /\
    size_match d = "UNKNOWN"%string /\
    file_bytes fs' (or_default (in_output_path inp) default_output) = content ns /\
    md5_copy d = MD5.digest (content ns) /\
    sha1_copy d = SHA1.digest (content ns) /\
    md5_verify d = MD5.digest (content ns) /\
    sha1_verify d = SHA1.digest (content ns) /\
    md5_match d = "YES"%string /\
    sha1_match d = "YES"%string /\
    conclusion d = HASH_ONLY.
Proof.
  intros Hsrc Hs Hfree Hne Hopen Hdfree Hsize.
  eexists _, _. split; [apply (main_ok fs inp ns Hsrc Hs Hfree Hne Hopen Hdfree) |].
  set (out := or_default (in_output_path inp) default_output) in *.
  cbn [report_of source_size output_size md5_copy md5_verify sha1_copy
         sha1_verify size_match md5_match sha1_match conclusion].
  assert (Hunknown :
    size_match_of
      (if sizable ns then Some (Z.of_nat (length (content ns))) else None)
      (if sizable (dest_node fs out) then Some (Z.of_nat (length (content ns))) else None)
    = "UNKNOWN"%string).
  { destruct Hsize as [H | H]; rewrite H; [reflexivity |].
    destruct (sizable ns); reflexivity. }
  rewrite Hunknown, file_bytes_insert_eq.
  rewrite (try_getsize_lookup _ _ _ Hs).
  rewrite (try_getsize_lookup _ _ _ (dest_node_after_copy fs out (content ns))).
  cbn [sizable set_content].
  repeat split.
  - rewrite H. reflexivity.
  - rewrite H. reflexivity.
  - rewrite H. reflexivity.
  - rewrite H. reflexivity.
Qed.

(** An instance: a raw device of two bytes. *)
Lemma size_query_failure_not_fatal_witness :
  exists (fs' : filesystem) (d : report_data),
    main (flat {[ "\\.\E:"%string := raw_device [x61; x62] ]}) (plain_run "\\.\E:")
      = Some (fs', Reported d) /\
    (sizable (raw_device [x61; x62]) = false ->
     try_getsize (flat {[ "\\.\E:"%string := raw_device [x61; x62] ]})
       (in_source_path (plain_run "\\.\E:")) = None /\
     source_size d = None) /\
    (sizable (dest_node (flat {[ "\\.\E:"%string := raw_device [x61; x62] ]})
                (or_default (in_output_path (plain_run "\\.\E:")) default_output))
       = false ->
     try_getsize fs' (or_default (in_output_path (plain_run "\\.\E:")) default_output)
       = None /\
     output_size d = None) /\
    size_match d = "UNKNOWN"%string /\
    file_bytes fs' (or_default (in_output_path (plain_run "\\.\E:")) default_output)
      = content (raw_device [x61; x62]) /\
    md5_copy d = MD5.digest (content (raw_device [x61; x62])) /\
    sha1_copy d = SHA1.digest (content (raw_device [x61; x62])) /\
    md5_verify d = MD5.digest (content (raw_device [x61; x62])) /\
    sha1_verify d = SHA1.digest (content (raw_device [x61; x62])) /\
    md5_match d = "YES"%string /\
    sha1_match d = "YES"%string /\
    conclusion d = HASH_ONLY.
Proof.
  apply (size_query_failure_not_fatal
           (flat {[ "\\.\E:"%string := raw_device [x61; x62] ]})
           (plain_run "\\.\E:") (raw_device [x61; x62])).
  - discriminate.
  - reflexivity.
  - repeat split.
  - discriminate.
  - reflexivity.
  - vm_compute. repeat split.
  - left. reflexivity.
Defined.

(** The same run, evaluated. *)
Example raw_device_run :
  main (flat {[ "\\.\E:"%string := raw_device [x61; x62] ]}) (plain_run "\\.\E:")
  = Some (flat (<[ default_output := regular [x61; x62] ]>
                  {[ "\\.\E:"%string := raw_device [x61; x62] ]}),
          Reported
            {| case_id := "N/A"; examiner := "N/A"; evidence_desc := "N/A";
               source_path := "\\.\E:"; output_path := "disk_image.dd";
               source_size := None; output_size := Some 2;
               size_match := "UNKNOWN";
               md5_copy := "187ef4436122d1cc2f40dc2b92f0eba0";
               sha1_copy := "da23614e02469a0d7c7bd1bdab5c9c474b1904dc";
               md5_verify := "187ef4436122d1cc2f40dc2b92f0eba0";
               sha1_verify := "da23614e02469a0d7c7bd1bdab5c9c474b1904dc";
               md5_match := "YES"; sha1_match := "YES";
               user_confirm := "YES";
               conclusion := HASH_ONLY |}).
Proof. vm_compute. reflexivity. Qed.

(** ** The empty source *)

(** C10. For a source of zero bytes (and an image path that leads to a
    free name, or to a regular file, the source itself included), the copy
    loop stops at its first read without a write, the image is created with
    zero bytes, both passes find the digests of the empty string, both
    digest comparisons and the size comparison (0 and 0) say "YES", and the
    conclusion is the successful one. *)
Theorem empty_source_succeeds (fs : filesystem) (inp : inputs) :
  in_source_path inp <> ""%string ->
  fs !! in_source_path inp = Some (regular []) ->
  (fs !! or_default (in_output_path inp) default_output = None /\
   vacant fs (file_of fs (or_default (in_output_path inp) default_output)) = Free) \/
  (exists c : list byte,
     fs !! or_default (in_output_path inp) default_output = Some (regular c)) ->
  (exists (src : reader) (fs1 : filesystem) (dst : writer),
     open_rb fs (in_source_path inp) = Return src /\
     open_wb fs (or_default (in_output_path inp) default_output) = Return (fs1, dst) /\
     copy_loop 1 default_chunk_size (files fs1) src dst MD5.init SHA1.init 0
       = Some (files fs1, Return (MD5.init, SHA1.init, 0, dst)) /\
     writes dst = 0%nat) /\
  exists d : report_data,
    main fs inp
      = Some (<[or_default (in_output_path inp) default_output := regular []]> fs,
              Reported d) /\
    source_size d = Some 0 /\
    output_size d = Some 0 /\
    md5_copy d = "d41d8cd98f00b204e9800998ecf8427e"%string /\
    md5_verify d = "d41d8cd98f00b204e9800998ecf8427e"%string /\
    sha1_copy d = "da39a3ee5e6b4b0d3255bfef95601890afd80709"%string /\
    sha1_verify d = "da39a3ee5e6b4b0d3255bfef95601890afd80709"%string /\
    md5_match d = "YES"%string /\
    sha1_match d = "YES"%string /\
    size_match d = "YES"%string /\
    conclusion d = SUCCESSFUL.
Proof.
  intros Hsrc Hs Hout.
  set (out := or_default (in_output_path inp) default_output) in *.
  assert (Hdest : exists c, dest_node fs out = regular c).
  { unfold dest_node. destruct Hout as [[-> _] | [c ->]]; eauto. }
  destruct Hdest as [c Hdest].
  assert (Hopens : opens_wb fs out = true).
  { unfold opens_wb. destruct Hout as [[-> ->] | [c' ->]]; reflexivity. }
  assert (Hopen : open_wb fs out =
                  Return (<[out := regular []]> fs,
                          {| wfile := file_of fs out; wfault := None; writes := 0 |})).
  { rewrite (open_wb_eq _ _ Hopens), Hdest. reflexivity. }
  set (fs1 := <[out := regular []]> fs) in *.
  assert (Hnil : file_bytes fs1 (in_source_path inp) = []).
  { unfold fs1.
    destruct (decide (file_of fs out = file_of fs (in_source_path inp))) as [Heq | Hne].
    - apply (file_bytes_lookup _ _ (regular [])).
      apply path_lookup_insert_same. exact Heq.
    - apply (file_bytes_lookup _ _ (regular [])).
      rewrite path_lookup_insert_ne by exact Hne. exact Hs. }
  assert (Hloop : forall dst,
    copy_loop 1 default_chunk_size (files fs1)
      {| rfile := file_of fs (in_source_path inp); offset := 0; rfault := None |} dst
      MD5.init SHA1.init 0
    = Some (files fs1, Return (MD5.init, SHA1.init, 0, dst))).
  { intros dst. apply copy_loop_stop; cbn [rfile offset rfault].
    - discriminate.
    - change (bytes_of (files fs1) (file_of fs (in_source_path inp)))
        with (file_bytes fs1 (in_source_path inp)).
      rewrite Hnil. apply read_slice_nil. }
  split.
  - eexists _, _, _. split; [| split; [| split]].
    + unfold open_rb. rewrite Hs. reflexivity.
    + exact Hopen.
    + apply Hloop.
    + reflexivity.
  - assert (Hverify : hash_file fs1 out default_chunk_size
                      = Some (Return (MD5.digest [], SHA1.digest []))).
    { apply (hash_file_ok fs1 out default_chunk_size (regular []));
        [apply path_lookup_insert_eq | reflexivity | reflexivity | right; reflexivity]. }
    eexists. split.
    + unfold main. apply String.eqb_neq in Hsrc. rewrite Hsrc.
      fold out. unfold image_and_hash, open_rb.
      rewrite Hs. cbn [regular readable read_fault].
      rewrite Hopen. fold fs1. rewrite Hnil. cbn [length]. rewrite Hloop.
      rewrite with_files_same.
      unfold main_after_copy. rewrite Hverify.
      reflexivity.
    + cbn [source_size output_size md5_copy md5_verify sha1_copy sha1_verify
             size_match md5_match sha1_match conclusion].
      rewrite (try_getsize_lookup fs _ _ Hs).
      rewrite (try_getsize_lookup fs1 out (regular [])) by apply path_lookup_insert_eq.
      assert (Hm : MD5.hexdigest MD5.init
                   = "d41d8cd98f00b204e9800998ecf8427e"%string)
        by (vm_compute; reflexivity).
      assert (Hh : SHA1.hexdigest SHA1.init
                   = "da39a3ee5e6b4b0d3255bfef95601890afd80709"%string)
        by (vm_compute; reflexivity).
      rewrite Hm, Hh, md5_empty, sha1_empty.
      repeat split.
Qed.

(** An instance: the empty file [empty.bin]. *)
Lemma empty_source_succeeds_witness :
  (exists (src : reader) (fs1 : filesystem) (dst : writer),
     open_rb (flat {[ "empty.bin"%string := regular [] ]})
       (in_source_path (plain_run "empty.bin")) = Return src /\
     open_wb (flat {[ "empty.bin"%string := regular [] ]})
       (or_default (in_output_path (plain_run "empty.bin")) default_output)
       = Return (fs1, dst) /\
     copy_loop 1 default_chunk_size (files fs1) src dst MD5.init SHA1.init 0
       = Some (files fs1, Return (MD5.init, SHA1.init, 0, dst)) /\
     writes dst = 0%nat) /\
  exists d : report_data,
    main (flat {[ "empty.bin"%string := regular [] ]}) (plain_run "empty.bin")
      = Some (<[or_default (in_output_path (plain_run "empty.bin")) default_output
                  := regular []]> (flat {[ "empty.bin"%string := regular [] ]}),
              Reported d) /\
    source_size d = Some 0 /\
    output_size d = Some 0 /\
    md5_copy d = "d41d8cd98f00b204e9800998ecf8427e"%string /\
    md5_verify d = "d41d8cd98f00b204e9800998ecf8427e"%string /\
    sha1_copy d = "da39a3ee5e6b4b0d3255bfef95601890afd80709"%string /\
    sha1_verify d = "da39a3ee5e6b4b0d3255bfef95601890afd80709"%string /\
    md5_match d = "YES"%string /\
    sha1_match d = "YES"%string /\
    size_match d = "YES"%string /\
    conclusion d = SUCCESSFUL.
Proof.
  apply (empty_source_succeeds (flat {[ "empty.bin"%string := regular [] ]})
           (plain_run "empty.bin")).
  - discriminate.
  - reflexivity.
  - left. split; reflexivity.
Defined.

(** An empty source and an output path whose directory is missing: the
    second [open] raises and [main] ends in the handler of
    [FileNotFoundError]. *)
Example empty_source_no_directory :
  main (flat {[ "empty.bin"%string := regular [] ]})
    (mk_inputs "" "" "" "empty.bin" "nodir/img.dd" "y")
  = Some (flat {[ "empty.bin"%string := regular [] ]}, Failed FileNotFoundError).
Proof. vm_compute. reflexivity. Qed.

(** ** An I/O fault in the middle of the copy *)

Lemma image_and_hash_fault (fs : filesystem) (src_path out_path : string)
    (chunk_size : Z) (ns : node) (k : nat) :
  fs !! src_path = Some ns ->
  readable ns = true ->
  file_of fs src_path <> file_of fs out_path ->
  opens_wb fs out_path = true ->
  0 < chunk_size ->
  (read_fault ns = Some k /\
   write_fault (dest_node fs out_path) = None /\
   (k * Z.to_nat chunk_size < length (content ns) + Z.to_nat chunk_size)%nat) \/
  (read_fault ns = None /\
   write_fault (dest_node fs out_path) = Some k /\
   (k * Z.to_nat chunk_size < length (content ns))%nat) ->
  image_and_hash fs src_path out_path chunk_size =
  Some (<[out_path :=
            set_content (firstn (k * Z.to_nat chunk_size) (content ns))
              (dest_node fs out_path)]> fs,
        Raise OSError).
Proof.
  intros Hs Hr Hne Hopen Hcs Hfault.
  unfold image_and_hash, open_rb. rewrite Hs, Hr, (open_wb_eq _ _ Hopen).
  set (nd := dest_node fs out_path) in *.
  assert (Hs1 : <[out_path := set_content [] nd]> fs !! src_path = Some ns).
  { rewrite path_lookup_insert_ne by (intros E; apply Hne; symmetry; exact E).
    exact Hs. }
  rewrite (file_bytes_lookup _ _ _ Hs1).
  destruct Hfault as [(Hrf & Hwf & Hk) | (Hrf & Hwf & Hk)].
  - rewrite copy_loop_read_fault
      with (ns := ns) (nd := set_content [] nd) (k := k);
      cbn [rfile offset rfault wfile wfault writes]; rewrite ?skipn_O;
      [ | exact Hcs | exact Hrf | exact Hwf | exact Hne | exact Hs1
        | apply (path_lookup_insert_eq fs out_path) | exact Hk | lia ].
    rewrite insert_after_open. reflexivity.
  - rewrite copy_loop_write_fault
      with (ns := ns) (nd := set_content [] nd) (k := k);
      cbn [rfile offset rfault wfile wfault writes]; rewrite ?skipn_O;
      [ | exact Hcs | exact Hrf | exact Hwf | exact Hne | exact Hs1
        | apply (path_lookup_insert_eq fs out_path) | exact Hk | lia ].
    rewrite insert_after_open. reflexivity.
Qed.

(** C9. A read or a write that raises in the middle of the copy, after [k]
    chunks have gone through (both files were opened: the output path opens
    for writing and leads to another file than the source): [image_and_hash]
    raises, [main] ends in its last handler with no verify pass and no
    report, and the file system it leaves is the one the copy left at the
    fault: the image holds the [k] chunks written so far, and the handler
    has touched nothing. *)
Theorem io_fault_leaves_partial_image (fs : filesystem) (inp : inputs)
    (ns : node) (k : nat) :
  in_source_path inp <> ""%string ->
  fs !! in_source_path inp = Some ns ->
  readable ns = true ->
  file_of fs (in_source_path inp)
    <> file_of fs (or_default (in_output_path inp) default_output) ->
  opens_wb fs (or_default (in_output_path inp) default_output) = true ->
  (read_fault ns = Some k /\
   write_fault (dest_node fs (or_default (in_output_path inp) default_output)) = None /\
   (k * Z.to_nat default_chunk_size
    < length (content ns) + Z.to_nat default_chunk_size)%nat) \/
  (read_fault ns = None /\
   write_fault (dest_node fs (or_default (in_output_path inp) default_output)) = Some k /\
   (k * Z.to_nat default_chunk_size < length (content ns))%nat) ->
  image_and_hash fs (in_source_path inp)
    (or_default (in_output_path inp) default_output) default_chunk_size
  = Some (<[or_default (in_output_path inp) default_output :=
              set_content (firstn (k * Z.to_nat default_chunk_size) (content ns))
                (dest_node fs (or_default (in_output_path inp) default_output))]> fs,
          Raise OSError) /\
  main fs inp
  = Some (<[or_default (in_output_path inp) default_output :=
              set_content (firstn (k * Z.to_nat default_chunk_size) (content ns))
                (dest_node fs (or_default (in_output_path inp) default_output))]> fs,
          Failed OSError) /\
  file_bytes
    (<[or_default (in_output_path inp) default_output :=
         set_content (firstn (k * Z.to_nat default_chunk_size) (content ns))
           (dest_node fs (or_default (in_output_path inp) default_output))]> fs)
    (or_default (in_output_path inp) default_output)
  = firstn (k * Z.to_nat default_chunk_size) (content ns).
Proof.
  intros Hsrc Hs Hr Hne Hopen Hfault.
  pose proof (image_and_hash_fault fs _ _ default_chunk_size ns k Hs Hr Hne Hopen
                eq_refl Hfault) as Hcopy.
  split; [exact Hcopy |]. split.
  - unfold main. apply String.eqb_neq in Hsrc. rewrite Hsrc, Hcopy. reflexivity.
  - apply file_bytes_insert_eq.
Qed.

(** An instance: the first chunk is copied, the read after it raises. *)
Lemma io_fault_leaves_partial_image_witness :
  image_and_hash (flat {[ "src.bin"%string := faulty_source ]})
    (in_source_path (plain_run "src.bin"))
    (or_default (in_output_path (plain_run "src.bin")) default_output)
    default_chunk_size
  = Some (<[or_default (in_output_path (plain_run "src.bin")) default_output :=
              set_content
                (firstn (1 * Z.to_nat default_chunk_size) (content faulty_source))
                (dest_node (flat {[ "src.bin"%string := faulty_source ]})
                   (or_default (in_output_path (plain_run "src.bin")) default_output))]>
            (flat {[ "src.bin"%string := faulty_source ]}),
          Raise OSError) /\
  main (flat {[ "src.bin"%string := faulty_source ]}) (plain_run "src.bin")
  = Some (<[or_default (in_output_path (plain_run "src.bin")) default_output :=
              set_content
                (firstn (1 * Z.to_nat default_chunk_size) (content faulty_source))
                (dest_node (flat {[ "src.bin"%string := faulty_source ]})
                   (or_default (in_output_path (plain_run "src.bin")) default_output))]>
            (flat {[ "src.bin"%string := faulty_source ]}),
          Failed OSError) /\
  file_bytes
    (<[or_default (in_output_path (plain_run "src.bin")) default_output :=
         set_content
           (firstn (1 * Z.to_nat default_chunk_size) (content faulty_source))
           (dest_node (flat {[ "src.bin"%string := faulty_source ]})
              (or_default (in_output_path (plain_run "src.bin")) default_output))]>
       (flat {[ "src.bin"%string := faulty_source ]}))
    (or_default (in_output_path (plain_run "src.bin")) default_output)
  = firstn (1 * Z.to_nat default_chunk_size) (content faulty_source).
Proof.
  apply (io_fault_leaves_partial_image
           (flat {[ "src.bin"%string := faulty_source ]}) (plain_run "src.bin")
           faulty_source 1).
  - discriminate.
  - reflexivity.
  - reflexivity.
  - discriminate.
  - reflexivity.
  - left. split; [reflexivity |]. split; [reflexivity |].
    simpl length. lia.
Defined.

(** The same with chunks of two bytes, evaluated: the read after the first
    chunk raises and the image is left with that chunk; a write that raises
    at the second chunk leaves the first one. *)
Example read_fault_after_one_chunk :
  image_and_hash
    (flat {[ "src.bin"%string :=
               {| content := [x68; x65; x6c; x6c; x6f]; sizable := true;
                  readable := true; writable := true;
                  read_fault := Some 1%nat; write_fault := None |} ]})
    "src.bin" "img.dd" 2
  = Some (flat (<[ "img.dd"%string := regular [x68; x65] ]>
                  {[ "src.bin"%string :=
                       {| content := [x68; x65; x6c; x6c; x6f]; sizable := true;
                          readable := true; writable := true;
                          read_fault := Some 1%nat; write_fault := None |} ]}),
          Raise OSError).
Proof. vm_compute. reflexivity. Qed.

Example write_fault_at_second_chunk :
  image_and_hash
    (flat (<[ "img.dd"%string :=
                {| content := [x00; x00; x00]; sizable := true; readable := true;
                   writable := true;
                   read_fault := None; write_fault := Some 1%nat |} ]>
             {[ "src.bin"%string := regular [x68; x65; x6c; x6c; x6f] ]}))
    "src.bin" "img.dd" 2
  = Some (flat (<[ "img.dd"%string :=
                     {| content := [x68; x65]; sizable := true; readable := true;
                        writable := true;
                        read_fault := None; write_fault := Some 1%nat |} ]>
                  {[ "src.bin"%string := regular [x68; x65; x6c; x6c; x6f] ]}),
          Raise OSError).
Proof. vm_compute. reflexivity. Qed.

(** A fault scheduled on the source, and an output path whose directory is
    missing: the second [open] raises before any read, no image is made,
    and [main] ends in the handler of [FileNotFoundError]. *)
Example fault_never_reached :
  main (flat {[ "src.bin"%string := faulty_source ]})
    (mk_inputs "" "" "" "src.bin" "nodir/img.dd" "y")
  = Some (flat {[ "src.bin"%string := faulty_source ]}, Failed FileNotFoundError).
Proof. vm_compute. reflexivity. Qed.

(** ** An image truncated between the two passes *)

Lemma yes_no_false (a b : string) : a <> b -> yes_no (String.eqb a b) = "NO"%string.
Proof. intros H. apply String.eqb_neq in H. rewrite H. reflexivity. Qed.






(** * Further properties of [image_and_hash], [hash_file] and [main] *)

(** ** What the copy loop can do to the file system *)

(** Whatever the chunk size, the faults and the way the loop ends, it has
    appended to the destination a prefix of what was left of the source,
    and nothing else has changed. *)
Lemma copy_loop_effect (fuel : nat) (chunk_size : Z) (fs : gmap string node)
    (src : reader) (dst : writer) (md5 : MD5.state) (sha1 : SHA1.state)
    (total_read : Z) (ns nd : node) (fs' : gmap string node)
    (r : result (MD5.state * SHA1.state * Z * writer)) :
  rfile src <> wfile dst ->
  fs !! rfile src = Some ns ->
  fs !! wfile dst = Some nd ->
  copy_loop fuel chunk_size fs src dst md5 sha1 total_read = Some (fs', r) ->
  exists written tail : list byte,
    skipn (offset src) (content ns) = written ++ tail /\
    fs' = <[wfile dst := set_content (content nd ++ written) nd]> fs.
Proof.
  revert fs src dst md5 sha1 total_read nd.
  induction fuel as [|fuel IH];
    intros fs src dst md5 sha1 total_read nd Hne Hs Hd Hrun; [discriminate |].
  assert (Hstay : exists written tail : list byte,
             skipn (offset src) (content ns) = written ++ tail /\
             fs = <[wfile dst := set_content (content nd ++ written) nd]> fs).
  { exists [], (skipn (offset src) (content ns)). split; [reflexivity |].
    rewrite app_nil_r, set_content_same. symmetry. apply insert_id. exact Hd. }
  simpl in Hrun. unfold raw_read in Hrun.
  rewrite (bytes_of_lookup _ _ _ Hs) in Hrun.
  set (rest := skipn (offset src) (content ns)) in *.
  pose proof (read_slice_split chunk_size rest) as Hsplit.
  destruct (rfault src) as [[|kr]|] eqn:Hrf.
  { injection Hrun as <- <-. exact Hstay. }
  all: destruct (read_slice chunk_size rest) as [|c chunk] eqn:Echunk;
    [injection Hrun as <- <-; exact Hstay |].
  all: unfold write in Hrun; rewrite Hd in Hrun.
  all: destruct (wfault dst) as [[|kw]|] eqn:Hwf;
    [injection Hrun as <- <-; exact Hstay | |].
  all: apply IH with (nd := set_content (content nd ++ c :: chunk) nd) in Hrun;
    cbn [rfile offset rfault wfile wfault writes] in *;
    [ | exact Hne
      | rewrite lookup_insert_ne by (intros E; apply Hne; symmetry; exact E); exact Hs
      | apply lookup_insert_eq ].
  all: destruct Hrun as (written & tail & Hrest & ->).
  all: rewrite skipn_offset in Hrest; fold rest in Hrest.
  all: exists ((c :: chunk) ++ written), tail.
  all: split;
    [ rewrite <- Hsplit, Hrest, app_assoc; reflexivity
    | rewrite insert_insert_eq, set_content_app, app_assoc; reflexivity ].
Qed.

Lemma path_insert_same (fs : filesystem) (p q : string) (n : node) :
  file_of fs p = file_of fs q -> <[p := n]> fs = <[q := n]> fs.
Proof. intros H. rewrite !insert_path, H. reflexivity. Qed.

Lemma dest_node_same (fs : filesystem) (p q : string) :
  file_of fs p = file_of fs q -> dest_node fs p = dest_node fs q.
Proof. intros H. unfold dest_node. rewrite (path_lookup_same _ _ _ H). reflexivity. Qed.

Lemma dest_node_insert_ne (fs : filesystem) (p q : string) (n : node) :
  file_of fs p <> file_of fs q -> dest_node (<[p := n]> fs) q = dest_node fs q.
Proof.
  intros H. unfold dest_node. rewrite path_lookup_insert_ne by exact H. reflexivity.
Qed.

Lemma opens_wb_insert_ne (fs : filesystem) (p q : string) (n : node) :
  file_of fs p <> file_of fs q -> opens_wb (<[p := n]> fs) q = opens_wb fs q.
Proof.
  intros H. unfold opens_wb. rewrite path_lookup_insert_ne by exact H. reflexivity.
Qed.

Lemma opens_wb_insert_eq (fs : filesystem) (p : string) (n : node) :
  opens_wb (<[p := n]> fs) p = writable n.
Proof. unfold opens_wb. rewrite path_lookup_insert_eq. reflexivity. Qed.

(** A path that opens for writing leads to a file that may be written, or
    to none, and then a regular one is made. *)
Lemma opens_wb_writable (fs : filesystem) (p : string) :
  opens_wb fs p = true -> writable (dest_node fs p) = true.
Proof.
  unfold opens_wb, dest_node. destruct (fs !! p) as [n|]; [auto | reflexivity].
Qed.

(** Whatever the paths, the chunk size, the faults and the way it ends,
    [image_and_hash] either has been stopped by an [open] that raised, of
    the source or of the output path, and has changed nothing, or has left
    where the output path leads a prefix of what the source held, and
    nothing else has changed. *)
Lemma image_and_hash_effect (fs fs' : filesystem)
    (src_path out_path : string) (chunk_size : Z)
    (r : result (string * string * option Z * option Z)) :
  image_and_hash fs src_path out_path chunk_size = Some (fs', r) ->
  (fs' = fs /\
   exists e : exn,
     r = Raise e /\
     (open_rb fs src_path = Raise e \/
      (opens_wb fs out_path = false /\ open_wb fs out_path = Raise e))) \/
  exists (ns : node) (written tail : list byte),
    fs !! src_path = Some ns /\ readable ns = true /\
    opens_wb fs out_path = true /\
    content ns = written ++ tail /\
    fs' = <[out_path := set_content written (dest_node fs out_path)]> fs.
Proof.
  intros Hrun. unfold image_and_hash in Hrun.
  destruct (open_rb fs src_path) as [src | e] eqn:Eopen.
  2: { injection Hrun as <- <-. left. split; [reflexivity |]. exists e. auto. }
  destruct (open_rb_return_inv _ _ _ Eopen) as (ns & Hs & Hr & ->).
  destruct (open_wb fs out_path) as [[fs1 dst] | e] eqn:Ewb.
  2: { injection Hrun as <- <-. left. split; [reflexivity |]. exists e.
       split; [reflexivity |]. right. split; [| reflexivity].
       destruct (opens_wb fs out_path) eqn:E; [| reflexivity].
       rewrite (open_wb_eq _ _ E) in Ewb. discriminate. }
  right.
  pose proof (open_wb_return_inv _ _ _ _ Ewb) as Hopen.
  rewrite (open_wb_eq _ _ Hopen) in Ewb. injection Ewb as <- <-.
  set (nd := dest_node fs out_path) in *.
  exists ns.
  destruct (copy_loop _ _ _ _ _ _ _ _) as [[fs2 res] |] eqn:Hloop; [| discriminate].
  assert (Hfs : fs' = with_files (<[out_path := set_content [] nd]> fs) fs2).
  { destruct res as [[[[md5 sha1] t] d] | e]; injection Hrun as <- _; reflexivity. }
  subst fs'. clear Hrun.
  destruct (decide (file_of fs src_path = file_of fs out_path)) as [Heq | Hne].
  - exists [], (content ns).
    split; [exact Hs |]. split; [exact Hr |]. split; [exact Hopen |].
    split; [reflexivity |].
    assert (Hnil : file_bytes (<[out_path := set_content [] nd]> fs) src_path = []).
    { apply (file_bytes_lookup _ _ (set_content [] nd)).
      apply path_lookup_insert_same. symmetry. exact Heq. }
    rewrite Hnil in Hloop. cbn [length copy_loop] in Hloop. unfold raw_read in Hloop.
    cbn [rfile offset rfault] in Hloop.
    change (bytes_of (files (<[out_path := set_content [] nd]> fs))
              (file_of fs src_path))
      with (file_bytes (<[out_path := set_content [] nd]> fs) src_path) in Hloop.
    rewrite Hnil, skipn_O, read_slice_nil in Hloop.
    destruct (read_fault ns) as [[|k]|]; injection Hloop as <- _;
      apply with_files_same.
  - apply copy_loop_effect
      with (ns := ns) (nd := set_content [] nd) in Hloop;
      cbn [rfile offset rfault wfile wfault writes] in *;
      [ | exact Hne
        | change (<[out_path := set_content [] nd]> fs !! src_path = Some ns);
          rewrite path_lookup_insert_ne by (intros E; apply Hne; symmetry; exact E);
          exact Hs
        | apply (path_lookup_insert_eq fs out_path) ].
    destruct Hloop as (written & tail & Hrest & ->).
    rewrite skipn_O in Hrest. exists written, tail.
    split; [exact Hs |]. split; [exact Hr |]. split; [exact Hopen |].
    split; [exact Hrest |].
    rewrite insert_after_open. reflexivity.
Qed.

(** X1. Whatever the paths, the chunk size, the faults of the medium and
    the way it ends (return or exception), [image_and_hash] changes no file
    other than the one the output path leads to: a path that leads to
    another file finds it as it was. *)
Theorem image_and_hash_touches_only_output (fs fs' : filesystem)
    (src_path out_path : string) (chunk_size : Z)
    (r : result (string * string * option Z * option Z)) (p : string) :
  image_and_hash fs src_path out_path chunk_size = Some (fs', r) ->
  file_of fs p <> file_of fs out_path ->
  fs' !! p = fs !! p.
Proof.
  intros Hrun Hp.
  destruct (image_and_hash_effect _ _ _ _ _ _ Hrun)
    as [[-> _] | (ns & written & tail & _ & _ & _ & _ & ->)]; [reflexivity |].
  apply path_lookup_insert_ne. intros E. apply Hp. symmetry. exact E.
Qed.

Lemma image_and_hash_touches_only_output_witness :
  flat (<[ "img.dd"%string := regular [x68; x65] ]>
          (<[ "notes.txt"%string := regular [x6e] ]>
             {[ "src.bin"%string :=
                  {| content := hello; sizable := true; readable := true;
                     writable := true;
                     read_fault := Some 1%nat; write_fault := None |} ]}))
    !! "./notes.txt"%string
  = fs_with_notes !! "./notes.txt"%string.
Proof.
  apply (image_and_hash_touches_only_output fs_with_notes _ "src.bin" "img.dd" 2
           (Raise OSError) "./notes.txt").
  - vm_compute. reflexivity.
  - discriminate.
Defined.

(** X2. Whenever the source opens, whatever happens next (faults of either
    medium, any chunk size, the output path leading to the source or not):
    if the output path opens for writing, the file left there holds a
    prefix of what the source held when [image_and_hash] was called, never
    a byte that was not in the source, never out of order; if it does not
    open, the call raises and nothing has changed, so that an old image
    there keeps its content. *)
Theorem image_is_prefix_of_source (fs fs' : filesystem)
    (src_path out_path : string) (chunk_size : Z)
    (r : result (string * string * option Z * option Z)) (ns : node) :
  fs !! src_path = Some ns ->
  readable ns = true ->
  image_and_hash fs src_path out_path chunk_size = Some (fs', r) ->
  (opens_wb fs out_path = true /\
   exists tail : list byte, content ns = file_bytes fs' out_path ++ tail) \/
  (opens_wb fs out_path = false /\ fs' = fs /\
   exists e : exn, r = Raise e /\ open_wb fs out_path = Raise e).
Proof.
  intros Hs Hr Hrun.
  destruct (image_and_hash_effect _ _ _ _ _ _ Hrun)
    as [[-> (e & -> & [Hopen | [Hno Hwb]])]
       | (ns' & written & tail & Hs' & _ & Hopen & Hc & ->)].
  - unfold open_rb in Hopen. rewrite Hs, Hr in Hopen. discriminate.
  - right. split; [exact Hno |]. split; [reflexivity |]. exists e. auto.
  - left. split; [exact Hopen |].
    rewrite Hs in Hs'. injection Hs' as <-.
    exists tail. rewrite file_bytes_insert_eq. exact Hc.
Qed.

Lemma image_is_prefix_of_source_witness :
  (opens_wb fs_with_old_image "img.dd" = true /\
   exists tail : list byte,
     content (regular hello)
     = file_bytes
         (flat (<[ "img.dd"%string :=
                     {| content := [x68; x65; x6c; x6c]; sizable := true;
                        readable := true; writable := true; read_fault := None;
                        write_fault := Some 2%nat |} ]>
                  {[ "src.bin"%string := regular hello ]}))
         "img.dd" ++ tail) \/
  (opens_wb fs_with_old_image "img.dd" = false /\
   flat (<[ "img.dd"%string :=
              {| content := [x68; x65; x6c; x6c]; sizable := true;
                 readable := true; writable := true; read_fault := None;
                 write_fault := Some 2%nat |} ]>
           {[ "src.bin"%string := regular hello ]})
   = fs_with_old_image /\
   exists e : exn,
     @Raise (string * string * option Z * option Z) OSError = Raise e /\
     open_wb fs_with_old_image "img.dd" = Raise e).
Proof.
  apply (image_is_prefix_of_source fs_with_old_image _ "src.bin" "img.dd" 2
           (Raise OSError)).
  - reflexivity.
  - reflexivity.
  - vm_compute. reflexivity.
Defined.

(** An old image that may not be written keeps its content, which is no
    prefix of the source. *)
Example read_only_image_stays :
  image_and_hash fs_read_only_image "src.bin" "img.dd" default_chunk_size
  = Some (fs_read_only_image, Raise PermissionError) /\
  file_bytes fs_read_only_image "img.dd" = [x00; x01] /\
  main fs_read_only_image (mk_inputs "" "" "" "src.bin" "img.dd" "y")
  = Some (fs_read_only_image, Failed PermissionError).
Proof. repeat split; vm_compute; reflexivity. Qed.

(** ** A source that does not open *)

(** X3. When the source path is missing, or may not be read, [main] ends in
    the handler of [FileNotFoundError], or of [PermissionError], and the
    file system is exactly as it was: the source is opened before the
    output path, so a file already at the output path is not truncated.
    (A source path that leads to a directory ends the same way in the last
    handler.) *)
Theorem source_not_opened_changes_nothing (fs : filesystem) (inp : inputs)
    (chunk_size : Z) :
  in_source_path inp <> ""%string ->
  match fs !! in_source_path inp with
  | None => True
  | Some n => readable n = false
  end ->
  image_and_hash fs (in_source_path inp)
    (or_default (in_output_path inp) default_output) chunk_size
  = Some (fs, Raise (match fs !! in_source_path inp with
                     | None =>
                         match vacant fs (file_of fs (in_source_path inp)) with
                         | Directory _ => IsADirectoryError
                         | _ => FileNotFoundError
                         end
                     | Some _ => PermissionError
                     end)) /\
  main fs inp
  = Some (fs, Failed (match fs !! in_source_path inp with
                      | None =>
                          match vacant fs (file_of fs (in_source_path inp)) with
                          | Directory _ => IsADirectoryError
                          | _ => FileNotFoundError
                          end
                      | Some _ => PermissionError
                      end)).
Proof.
  intros Hsrc Hopen. apply String.eqb_neq in Hsrc.
  unfold main, image_and_hash, open_rb. rewrite Hsrc.
  destruct (fs !! in_source_path inp) as [n|].
  - rewrite Hopen. split; reflexivity.
  - destruct (vacant fs (file_of fs (in_source_path inp))); split; reflexivity.
Qed.

(** An instance: no file [gone.bin], and an old image that stays. *)
Lemma source_not_opened_changes_nothing_witness :
  image_and_hash fs_with_old_image (in_source_path (plain_run "gone.bin"))
    (or_default (in_output_path (plain_run "gone.bin")) default_output) 4096
  = Some (fs_with_old_image,
          Raise (match fs_with_old_image !! in_source_path (plain_run "gone.bin") with
                 | None =>
                     match vacant fs_with_old_image
                             (file_of fs_with_old_image
                                (in_source_path (plain_run "gone.bin"))) with
                     | Directory _ => IsADirectoryError
                     | _ => FileNotFoundError
                     end
                 | Some _ => PermissionError
                 end)) /\
  main fs_with_old_image (plain_run "gone.bin")
  = Some (fs_with_old_image,
          Failed (match fs_with_old_image !! in_source_path (plain_run "gone.bin") with
                  | None =>
                      match vacant fs_with_old_image
                              (file_of fs_with_old_image
                                 (in_source_path (plain_run "gone.bin"))) with
                      | Directory _ => IsADirectoryError
                      | _ => FileNotFoundError
                      end
                  | Some _ => PermissionError
                  end)).
Proof.
  apply (source_not_opened_changes_nothing fs_with_old_image (plain_run "gone.bin") 4096).
  - discriminate.
  - vm_compute. exact I.
Defined.

(** The same instance, evaluated: the handler is the one of
    [FileNotFoundError]. *)
Example missing_source_run :
  main fs_with_old_image (plain_run "gone.bin")
  = Some (fs_with_old_image, Failed FileNotFoundError).
Proof. vm_compute. reflexivity. Qed.

(** ** An output path that does not open *)

(** X21. When the source opens and the output path does not open for
    writing, nothing is read and nothing is written: [image_and_hash]
    raises what the second [open] raised, the file system is exactly as it
    was (an old image that may not be written keeps its content), and
    [main] ends in the handler of that exception: the one of
    [FileNotFoundError] for a directory that is missing, although the
    source is there; the one of [PermissionError] for a file or a directory
    that may not be written; the last one for a directory. *)
Theorem output_not_opened_changes_nothing (fs : filesystem) (inp : inputs)
    (ns : node) (chunk_size : Z) :
  in_source_path inp <> ""%string ->
  fs !! in_source_path inp = Some ns ->
  readable ns = true ->
  opens_wb fs (or_default (in_output_path inp) default_output) = false ->
  image_and_hash fs (in_source_path inp)
    (or_default (in_output_path inp) default_output) chunk_size
  = Some (fs, Raise (match fs !! or_default (in_output_path inp) default_output with
                     | Some _ => PermissionError
                     | None =>
                         match vacant fs
                                 (file_of fs
                                    (or_default (in_output_path inp) default_output)) with
                         | NoDirectory => FileNotFoundError
                         | Directory _ => IsADirectoryError
                         | _ => PermissionError
                         end
                     end)) /\
  main fs inp
  = Some (fs, Failed (match fs !! or_default (in_output_path inp) default_output with
                      | Some _ => PermissionError
                      | None =>
                          match vacant fs
                                  (file_of fs
                                     (or_default (in_output_path inp) default_output)) with
                          | NoDirectory => FileNotFoundError
                          | Directory _ => IsADirectoryError
                          | _ => PermissionError
                          end
                      end)).
Proof.
  intros Hsrc Hs Hr Hno. apply String.eqb_neq in Hsrc.
  unfold main, image_and_hash, open_rb. rewrite Hsrc, Hs, Hr.
  set (out := or_default (in_output_path inp) default_output) in *.
  unfold opens_wb in Hno. unfold open_wb.
  destruct (fs !! out) as [n|].
  - rewrite Hno. split; reflexivity.
  - destruct (vacant fs (file_of fs out)); [discriminate | | |]; split; reflexivity.
Qed.

(** An instance: an old image that may not be written. *)
Lemma output_not_opened_changes_nothing_witness :
  image_and_hash fs_read_only_image
    (in_source_path (mk_inputs "" "" "" "src.bin" "img.dd" "y"))
    (or_default (in_output_path (mk_inputs "" "" "" "src.bin" "img.dd" "y"))
       default_output) 4096
  = Some (fs_read_only_image,
          Raise (match fs_read_only_image
                         !! or_default
                              (in_output_path (mk_inputs "" "" "" "src.bin" "img.dd" "y"))
                              default_output with
                 | Some _ => PermissionError
                 | None =>
                     match vacant fs_read_only_image
                             (file_of fs_read_only_image
                                (or_default
                                   (in_output_path
                                      (mk_inputs "" "" "" "src.bin" "img.dd" "y"))
                                   default_output)) with
                     | NoDirectory => FileNotFoundError
                     | Directory _ => IsADirectoryError
                     | _ => PermissionError
                     end
                 end)) /\
  main fs_read_only_image (mk_inputs "" "" "" "src.bin" "img.dd" "y")
  = Some (fs_read_only_image,
          Failed (match fs_read_only_image
                          !! or_default
                               (in_output_path
                                  (mk_inputs "" "" "" "src.bin" "img.dd" "y"))
                               default_output with
                  | Some _ => PermissionError
                  | None =>
                      match vacant fs_read_only_image
                              (file_of fs_read_only_image
                                 (or_default
                                    (in_output_path
                                       (mk_inputs "" "" "" "src.bin" "img.dd" "y"))
                                    default_output)) with
                      | NoDirectory => FileNotFoundError
                      | Directory _ => IsADirectoryError
                      | _ => PermissionError
                      end
                  end)).
Proof.
  apply (output_not_opened_changes_nothing fs_read_only_image
           (mk_inputs "" "" "" "src.bin" "img.dd" "y") (regular hello) 4096).
  - discriminate.
  - reflexivity.
  - reflexivity.
  - reflexivity.
Defined.

(** The three handlers, evaluated. *)
Example output_in_missing_directory :
  main fs_hello (mk_inputs "" "" "" "src.bin" "nodir/img.dd" "y")
  = Some (fs_hello, Failed FileNotFoundError).
Proof. vm_compute. reflexivity. Qed.

Example output_is_a_directory :
  main fs_hello (mk_inputs "" "" "" "src.bin" "." "y")
  = Some (fs_hello, Failed IsADirectoryError).
Proof. vm_compute. reflexivity. Qed.

(** ** A first read that returns nothing *)

Example md5_of_nothing :
  MD5.hexdigest MD5.init = "d41d8cd98f00b204e9800998ecf8427e"%string.
Proof. vm_compute. reflexivity. Qed.

Example sha1_of_nothing :
  SHA1.hexdigest SHA1.init = "da39a3ee5e6b4b0d3255bfef95601890afd80709"%string.
Proof. vm_compute. reflexivity. Qed.

(** When the image is written over the source (the output path leads to
    the file of the source), or the chunk size is 0, the first read returns
    no byte: the output file is left empty and the digests are those of the
    empty string, whatever the source held. *)
Lemma image_and_hash_nothing_read (fs : filesystem)
    (src_path out_path : string) (chunk_size : Z) (ns : node) :
  file_of fs src_path = file_of fs out_path \/ chunk_size = 0 ->
  fs !! src_path = Some ns ->
  readable ns = true ->
  read_fault ns <> Some 0%nat ->
  opens_wb fs out_path = true ->
  image_and_hash fs src_path out_path chunk_size
  = Some (<[out_path := set_content [] (dest_node fs out_path)]> fs,
          Return ("d41d8cd98f00b204e9800998ecf8427e"%string,
                  "da39a3ee5e6b4b0d3255bfef95601890afd80709"%string,
                  try_getsize fs src_path,
                  if sizable (dest_node fs out_path) then Some 0 else None)).
Proof.
  intros Hcase Hs Hr Hrf Hopen.
  unfold image_and_hash, open_rb. rewrite Hs, Hr, (open_wb_eq _ _ Hopen).
  set (fs1 := <[out_path := set_content [] (dest_node fs out_path)]> fs).
  rewrite copy_loop_stop; cbn [rfile offset rfault].
  - rewrite md5_of_nothing, sha1_of_nothing, with_files_same.
    rewrite (try_getsize_lookup fs1 out_path _ (path_lookup_insert_eq _ _ _)).
    reflexivity.
  - exact Hrf.
  - rewrite skipn_O. destruct Hcase as [Heq | ->].
    + change (bytes_of (files fs1) (file_of fs src_path))
        with (file_bytes fs1 src_path).
      rewrite (file_bytes_lookup fs1 src_path
                 (set_content [] (dest_node fs out_path)))
        by (apply path_lookup_insert_same; symmetry; exact Heq).
      apply read_slice_nil.
    + apply read_slice_zero.
Qed.

(** X4. When the output path leads to the source itself, under the same
    name or another, and the file may be written, the run empties the
    evidence file: for every content, [image_and_hash] returns with the
    file truncated to zero bytes and with the digests of the empty string;
    [main] then finds both digests matching, the sizes differing (for a
    non-empty file of known size), and concludes that the hashes match. *)
Theorem image_onto_source_empties_it (fs : filesystem) (inp : inputs)
    (n : node) (chunk_size : Z) :
  in_source_path inp <> ""%string ->
  file_of fs (or_default (in_output_path inp) default_output)
    = file_of fs (in_source_path inp) ->
  fs !! in_source_path inp = Some n ->
  fault_free n ->
  writable n = true ->
  sizable n = true ->
  content n <> [] ->
  image_and_hash fs (in_source_path inp)
    (or_default (in_output_path inp) default_output) chunk_size
  = Some (<[in_source_path inp := set_content [] n]> fs,
          Return ("d41d8cd98f00b204e9800998ecf8427e"%string,
                  "da39a3ee5e6b4b0d3255bfef95601890afd80709"%string,
                  Some (Z.of_nat (length (content n))), Some 0)) /\
  file_bytes (<[in_source_path inp := set_content [] n]> fs) (in_source_path inp) = [] /\
  exists (fs' : filesystem) (d : report_data),
    main fs inp = Some (fs', Reported d) /\
    file_bytes fs' (in_source_path inp) = [] /\
    source_size d = Some (Z.of_nat (length (content n))) /\
    output_size d = Some 0 /\
    size_match d = "NO"%string /\
    md5_match d = "YES"%string /\
    sha1_match d = "YES"%string /\
    conclusion d = HASH_ONLY.
Proof.
  intros Hsrc Hout Hs (Hr & Hrf & Hwf) Hw Hsz Hne.
  set (out := or_default (in_output_path inp) default_output) in *.
  assert (Hso : fs !! out = Some n) by (rewrite (path_lookup_same _ _ _ Hout); exact Hs).
  assert (Hdest : dest_node fs out = n) by (apply dest_node_lookup; exact Hso).
  assert (Hopen : opens_wb fs out = true) by (unfold opens_wb; rewrite Hso; exact Hw).
  assert (Hcopy : forall cs,
    image_and_hash fs (in_source_path inp) out cs
    = Some (<[in_source_path inp := set_content [] n]> fs,
            Return ("d41d8cd98f00b204e9800998ecf8427e"%string,
                    "da39a3ee5e6b4b0d3255bfef95601890afd80709"%string,
                    Some (Z.of_nat (length (content n))), Some 0))).
  { intros cs.
    rewrite (image_and_hash_nothing_read fs _ out cs n
               (or_introl (eq_sym Hout)) Hs Hr)
      by (rewrite ?Hrf; discriminate || exact Hopen).
    rewrite Hdest, (try_getsize_lookup _ _ _ Hs), Hsz.
    rewrite (path_insert_same _ _ _ _ Hout). reflexivity. }
  split; [apply Hcopy |]. split; [apply file_bytes_insert_eq |].
  eexists _, _. split; [| split].
  - unfold main. apply String.eqb_neq in Hsrc. rewrite Hsrc. fold out. rewrite Hcopy.
    unfold main_after_copy.
    rewrite hash_file_ok with (n := set_content [] n);
      [| apply path_lookup_insert_same; symmetry; exact Hout
       | exact Hr | exact Hrf | right; reflexivity].
    cbn [content set_content]. rewrite md5_empty, sha1_empty. reflexivity.
  - apply file_bytes_insert_eq.
  - cbn [source_size output_size size_match md5_match sha1_match conclusion].
    assert (Hlen : (Z.of_nat (length (content n)) =? 0) = false).
    { apply Z.eqb_neq. destruct (content n); [congruence | simpl; lia]. }
    unfold size_match_of. rewrite Hlen. repeat split.
Qed.

Lemma image_onto_source_empties_it_witness :
  image_and_hash fs_hello
    (in_source_path (mk_inputs "" "" "" "src.bin" "./src.bin" "y"))
    (or_default (in_output_path (mk_inputs "" "" "" "src.bin" "./src.bin" "y"))
       default_output) 4096
  = Some (<[in_source_path (mk_inputs "" "" "" "src.bin" "./src.bin" "y")
              := set_content [] (regular hello)]> fs_hello,
          Return ("d41d8cd98f00b204e9800998ecf8427e"%string,
                  "da39a3ee5e6b4b0d3255bfef95601890afd80709"%string,
                  Some (Z.of_nat (length (content (regular hello)))), Some 0)) /\
  file_bytes
    (<[in_source_path (mk_inputs "" "" "" "src.bin" "./src.bin" "y")
         := set_content [] (regular hello)]> fs_hello)
    (in_source_path (mk_inputs "" "" "" "src.bin" "./src.bin" "y")) = [] /\
  exists (fs' : filesystem) (d : report_data),
    main fs_hello (mk_inputs "" "" "" "src.bin" "./src.bin" "y")
      = Some (fs', Reported d) /\
    file_bytes fs' (in_source_path (mk_inputs "" "" "" "src.bin" "./src.bin" "y")) = [] /\
    source_size d = Some (Z.of_nat (length (content (regular hello)))) /\
    output_size d = Some 0 /\
    size_match d = "NO"%string /\
    md5_match d = "YES"%string /\
    sha1_match d = "YES"%string /\
    conclusion d = HASH_ONLY.
Proof.
  apply (image_onto_source_empties_it fs_hello
           (mk_inputs "" "" "" "src.bin" "./src.bin" "y") (regular hello) 4096).
  - discriminate.
  - reflexivity.
  - reflexivity.
  - apply fault_free_regular.
  - reflexivity.
  - reflexivity.
  - discriminate.
Defined.

(** An evidence file that may be read but not written, named as its own
    image: the second [open] raises, the file keeps its content and [main]
    ends in the handler of [PermissionError]. *)
Example read_only_source_is_kept :
  main (flat {[ "src.bin"%string :=
                  {| content := hello; sizable := true; readable := true;
                     writable := false; read_fault := None;
                     write_fault := None |} ]})
    (mk_inputs "" "" "" "src.bin" "src.bin" "y")
  = Some (flat {[ "src.bin"%string :=
                    {| content := hello; sizable := true; readable := true;
                       writable := false; read_fault := None;
                       write_fault := None |} ]},
          Failed PermissionError).
Proof. vm_compute. reflexivity. Qed.

(** X5. With the chunk size 0 nothing is read: for every source that
    opens, [image_and_hash] (to an output path that opens for writing)
    returns with an empty image and [hash_file] returns normally, both with
    the digests of the empty string instead of those of the content. *)
Theorem chunk_size_zero_reads_nothing (fs : filesystem)
    (src_path out_path : string) (ns : node) :
  fs !! src_path = Some ns ->
  readable ns = true ->
  read_fault ns <> Some 0%nat ->
  opens_wb fs out_path = true ->
  image_and_hash fs src_path out_path 0
  = Some (<[out_path := set_content [] (dest_node fs out_path)]> fs,
          Return ("d41d8cd98f00b204e9800998ecf8427e"%string,
                  "da39a3ee5e6b4b0d3255bfef95601890afd80709"%string,
                  try_getsize fs src_path,
                  if sizable (dest_node fs out_path) then Some 0 else None)) /\
  hash_file fs src_path 0
  = Some (Return ("d41d8cd98f00b204e9800998ecf8427e"%string,
                  "da39a3ee5e6b4b0d3255bfef95601890afd80709"%string)).
Proof.
  intros Hs Hr Hrf Hopen. split.
  - apply (image_and_hash_nothing_read fs _ _ 0 ns (or_intror eq_refl) Hs Hr Hrf Hopen).
  - unfold hash_file, open_rb. rewrite Hs, Hr. cbn [hash_loop].
    unfold buffered_read, raw_read. cbn [rfile offset rfault Z.ltb Z.compare].
    rewrite read_slice_zero.
    destruct (read_fault ns) as [[|k]|]; [congruence | |];
      rewrite md5_of_nothing, sha1_of_nothing; reflexivity.
Qed.

Lemma chunk_size_zero_reads_nothing_witness :
  image_and_hash fs_hello "src.bin" "img.dd" 0
  = Some (<[ "img.dd"%string := set_content [] (dest_node fs_hello "img.dd") ]> fs_hello,
          Return ("d41d8cd98f00b204e9800998ecf8427e"%string,
                  "da39a3ee5e6b4b0d3255bfef95601890afd80709"%string,
                  try_getsize fs_hello "src.bin",
                  if sizable (dest_node fs_hello "img.dd") then Some 0 else None)) /\
  hash_file fs_hello "src.bin" 0
  = Some (Return ("d41d8cd98f00b204e9800998ecf8427e"%string,
                  "da39a3ee5e6b4b0d3255bfef95601890afd80709"%string)).
Proof.
  apply (chunk_size_zero_reads_nothing fs_hello "src.bin" "img.dd" (regular hello)).
  - reflexivity.
  - reflexivity.
  - discriminate.
  - reflexivity.
Defined.

(** ** The two passes of [main] can only agree *)

(** If the loop of [hash_file] returns for a chunk size other than 0, it
    has fed the whole rest of the file to both hash objects, whatever fault
    was scheduled on the handle. *)
Lemma hash_loop_return_inv (fuel : nat) (chunk_size : Z) (fs : gmap string node)
    (f : reader) (md5 md5' : MD5.state) (sha1 sha1' : SHA1.state)
    (total_read total_read' : Z) :
  chunk_size <> 0 ->
  hash_loop fuel chunk_size fs f md5 sha1 total_read
    = Some (Return (md5', sha1', total_read')) ->
  md5' = MD5.update md5 (skipn (offset f) (bytes_of fs (rfile f))) /\
  sha1' = SHA1.update sha1 (skipn (offset f) (bytes_of fs (rfile f))).
Proof.
  revert f md5 sha1 total_read.
  induction fuel as [|fuel IH]; intros f md5 sha1 total_read Hnz Hrun; [discriminate |].
  simpl in Hrun. unfold buffered_read in Hrun.
  destruct (chunk_size <? -1); [discriminate |].
  unfold raw_read in Hrun.
  set (rest := skipn (offset f) (bytes_of fs (rfile f))) in *.
  destruct (rfault f) as [[|k]|] eqn:Hrf; [discriminate | |].
  all: destruct rest as [|b rest'] eqn:Erest;
    [ rewrite read_slice_nil in Hrun; injection Hrun as <- <- _; split; reflexivity | ].
  all: assert (Hnil : b :: rest' <> []) by discriminate.
  all: pose proof (read_slice_nonempty chunk_size _ Hnz Hnil) as Hchunk.
  all: pose proof (read_slice_split chunk_size (b :: rest')) as Hsplit.
  all: destruct (read_slice chunk_size (b :: rest')) as [|c chunk] eqn:Echunk;
    [congruence |].
  all: apply IH in Hrun; [| exact Hnz]; cbn [rfile offset rfault] in Hrun.
  all: rewrite skipn_offset in Hrun; fold rest in Hrun; rewrite Erest in Hrun.
  all: set (tail := skipn (length (c :: chunk)) (b :: rest')) in *; clearbody tail.
  all: destruct Hrun as [-> ->].
  all: rewrite <- Hsplit.
  all: rewrite md5_update_app, sha1_update_app; split; reflexivity.
Qed.

Lemma hash_file_return_inv (fs : filesystem) (path : string)
    (chunk_size : Z) (m s : string) :
  chunk_size <> 0 ->
  hash_file fs path chunk_size = Some (Return (m, s)) ->
  m = MD5.digest (file_bytes fs path) /\ s = SHA1.digest (file_bytes fs path).
Proof.
  intros Hnz Hrun. unfold hash_file in Hrun.
  destruct (open_rb fs path) as [f | e] eqn:Eopen; [| discriminate].
  destruct (open_rb_return_inv _ _ _ Eopen) as (n & _ & _ & ->).
  destruct (hash_loop _ _ _ _ _ _ _) as [[[[md5 sha1] t] | e] |] eqn:Hloop;
    [| discriminate | discriminate].
  injection Hrun as <- <-.
  apply hash_loop_return_inv in Hloop; [| exact Hnz].
  cbn [rfile offset] in Hloop. rewrite skipn_O, bytes_of_path in Hloop.
  destruct Hloop as [-> ->]. split; reflexivity.
Qed.

(** The digests [image_and_hash] returns are those of the file it leaves
    where the output path leads, also when that is the source. *)
Lemma image_and_hash_digests_of_image (fs fs' : filesystem)
    (src_path out_path : string) (chunk_size : Z)
    (m s : string) (ss os : option Z) :
  chunk_size <> 0 ->
  image_and_hash fs src_path out_path chunk_size = Some (fs', Return (m, s, ss, os)) ->
  m = MD5.digest (file_bytes fs' out_path) /\
  s = SHA1.digest (file_bytes fs' out_path).
Proof.
  intros Hnz Hrun.
  destruct (decide (file_of fs src_path = file_of fs out_path)) as [Heq | Hne].
  - assert (Hopen : exists ns, fs !! src_path = Some ns /\ readable ns = true /\
                               read_fault ns <> Some 0%nat /\
                               opens_wb fs out_path = true).
    { unfold image_and_hash in Hrun.
      destruct (open_rb fs src_path) as [src | e] eqn:Eopen; [| discriminate].
      destruct (open_rb_return_inv _ _ _ Eopen) as (ns & Hs & Hr & ->).
      destruct (open_wb fs out_path) as [[fs1 dst] | e] eqn:Ewb; [| discriminate].
      pose proof (open_wb_return_inv _ _ _ _ Ewb) as Hopen.
      rewrite (open_wb_eq _ _ Hopen) in Ewb. injection Ewb as <- <-.
      exists ns. split; [exact Hs |]. split; [exact Hr |]. split; [| exact Hopen].
      intros Hf.
      set (fs1 := <[out_path := set_content [] (dest_node fs out_path)]> fs) in *.
      assert (Hnil : file_bytes fs1 src_path = []).
      { apply (file_bytes_lookup _ _ (set_content [] (dest_node fs out_path))).
        apply path_lookup_insert_same. symmetry. exact Heq. }
      rewrite Hnil in Hrun. cbn [length copy_loop] in Hrun. unfold raw_read in Hrun.
      cbn [rfile offset rfault] in Hrun. rewrite Hf in Hrun. discriminate. }
    destruct Hopen as (ns & Hs & Hr & Hrf & Hopen).
    rewrite (image_and_hash_nothing_read fs _ _ chunk_size ns
               (or_introl Heq) Hs Hr Hrf Hopen) in Hrun.
    injection Hrun as <- <- <- _ _.
    rewrite file_bytes_insert_eq. cbn [content set_content].
    rewrite md5_empty, sha1_empty. split; reflexivity.
  - destruct (image_and_hash_return_inv _ _ _ _ _ _ _ _ _ Hnz Hne Hrun)
      as (ns & Hs & _ & -> & -> & -> & _ & _).
    rewrite file_bytes_insert_eq. split; reflexivity.
Qed.

(** X6. Whatever the file system, the paths and the faults: when [main]
    ends with a report, the digests of the verify pass are those of the
    copy pass, both comparisons say "YES" and the conclusion is not the
    warning. The verify pass re-reads what the copy pass has just written,
    so the warning can only come from a change of the image between the
    two passes. *)
Theorem main_report_never_warns (fs fs' : filesystem) (inp : inputs)
    (d : report_data) :
  main fs inp = Some (fs', Reported d) ->
  md5_verify d = md5_copy d /\
  sha1_verify d = sha1_copy d /\
  md5_match d = "YES"%string /\
  sha1_match d = "YES"%string /\
  conclusion d <> WARNING.
Proof.
  unfold main. destruct (String.eqb (in_source_path inp) ""); [discriminate |].
  set (out := or_default (in_output_path inp) default_output).
  destruct (image_and_hash fs (in_source_path inp) out default_chunk_size)
    as [[fs1 [[[[m s] ss] os] | e]] |] eqn:Hcopy; [| discriminate | discriminate].
  unfold main_after_copy.
  destruct (hash_file fs1 out default_chunk_size) as [[[mv sv] | e] |] eqn:Hverify;
    [| discriminate | discriminate].
  intros H. injection H as _ <-.
  cbn [md5_verify md5_copy sha1_verify sha1_copy md5_match sha1_match conclusion].
  apply image_and_hash_digests_of_image in Hcopy; [| discriminate].
  apply hash_file_return_inv in Hverify; [| discriminate].
  destruct Hcopy as [-> ->]. destruct Hverify as [-> ->].
  rewrite !String.eqb_refl. unfold conclusion_of. cbn [andb yes_no].
  repeat split.
  destruct (String.eqb (size_match_of ss os) "YES"); discriminate.
Qed.

Lemma main_report_never_warns_witness :
  md5_verify
    (report_of (plain_run "src.bin") default_output hello (Some 5) (Some 5))
  = md5_copy
      (report_of (plain_run "src.bin") default_output hello (Some 5) (Some 5)) /\
  sha1_verify
    (report_of (plain_run "src.bin") default_output hello (Some 5) (Some 5))
  = sha1_copy
      (report_of (plain_run "src.bin") default_output hello (Some 5) (Some 5)) /\
  md5_match
    (report_of (plain_run "src.bin") default_output hello (Some 5) (Some 5))
  = "YES"%string /\
  sha1_match
    (report_of (plain_run "src.bin") default_output hello (Some 5) (Some 5))
  = "YES"%string /\
  conclusion
    (report_of (plain_run "src.bin") default_output hello (Some 5) (Some 5))
  <> WARNING.
Proof.
  apply (main_report_never_warns fs_hello
           (<[default_output := regular hello]> fs_hello) (plain_run "src.bin")).
  vm_compute. reflexivity.
Defined.

(** ** Regular files *)

(** X7. For every regular source, whatever its content, and an output
    path that leads to another file than the source, to a free name or to
    a regular file, whatever that file held: the image ends with exactly
    the content of the source (the old content is replaced, not appended
    to), both sizes are the length of the source, the three comparisons say
    "YES", and the conclusion is the successful one. *)
Theorem main_regular_file_succeeds (fs : filesystem) (inp : inputs)
    (c : list byte) :
  in_source_path inp <> ""%string ->
  fs !! in_source_path inp = Some (regular c) ->
  file_of fs (in_source_path inp)
    <> file_of fs (or_default (in_output_path inp) default_output) ->
  (fs !! or_default (in_output_path inp) default_output = None /\
   vacant fs (file_of fs (or_default (in_output_path inp) default_output)) = Free) \/
  (exists old : list byte,
     fs !! or_default (in_output_path inp) default_output = Some (regular old)) ->
  image_and_hash fs (in_source_path inp)
    (or_default (in_output_path inp) default_output) default_chunk_size
  = Some (<[or_default (in_output_path inp) default_output := regular c]> fs,
          Return (MD5.digest c, SHA1.digest c,
                  Some (Z.of_nat (length c)), Some (Z.of_nat (length c)))) /\
  exists (fs' : filesystem) (d : report_data),
    main fs inp = Some (fs', Reported d) /\
    file_bytes fs' (or_default (in_output_path inp) default_output) = c /\
    file_bytes fs' (in_source_path inp) = c /\
    md5_copy d = MD5.digest c /\
    sha1_copy d = SHA1.digest c /\
    md5_verify d = MD5.digest c /\
    sha1_verify d = SHA1.digest c /\
    source_size d = Some (Z.of_nat (length c)) /\
    output_size d = Some (Z.of_nat (length c)) /\
    size_match d = "YES"%string /\
    md5_match d = "YES"%string /\
    sha1_match d = "YES"%string /\
    conclusion d = SUCCESSFUL.
Proof.
  intros Hsrc Hs Hne Hout.
  set (out := or_default (in_output_path inp) default_output) in *.
  assert (Hdest : exists old, dest_node fs out = regular old).
  { unfold dest_node. destruct Hout as [[-> _] | [old ->]]; eauto. }
  destruct Hdest as [old Hdest].
  assert (Hopen : opens_wb fs out = true).
  { unfold opens_wb. destruct Hout as [[-> ->] | [c' ->]]; reflexivity. }
  split.
  - rewrite (image_and_hash_ok fs _ out default_chunk_size (regular c) Hs
               eq_refl eq_refl Hne Hopen)
      by (rewrite ?Hdest; reflexivity || discriminate).
    rewrite Hdest. reflexivity.
  - eexists _, _. split.
    + apply (main_ok fs inp (regular c) Hsrc Hs (fault_free_regular c) Hne Hopen).
      fold out. rewrite Hdest. apply fault_free_regular.
    + fold out. rewrite Hdest, file_bytes_insert_eq.
      rewrite (file_bytes_lookup _ (in_source_path inp) (regular c))
        by (rewrite path_lookup_insert_ne
              by (intros E; apply Hne; symmetry; exact E); exact Hs).
      cbn [report_of source_size output_size md5_copy md5_verify sha1_copy
             sha1_verify size_match md5_match sha1_match conclusion
             regular sizable content set_content].
      unfold size_match_of. rewrite Z.eqb_refl. repeat split.
Qed.

Lemma main_regular_file_succeeds_witness :
  image_and_hash fs_two_files
    (in_source_path (mk_inputs "" "" "" "src.bin" "img.dd" ""))
    (or_default (in_output_path (mk_inputs "" "" "" "src.bin" "img.dd" ""))
       default_output)
    default_chunk_size
  = Some (<[or_default (in_output_path (mk_inputs "" "" "" "src.bin" "img.dd" ""))
              default_output := regular hello]> fs_two_files,
          Return (MD5.digest hello, SHA1.digest hello,
                  Some (Z.of_nat (length hello)), Some (Z.of_nat (length hello)))) /\
  exists (fs' : filesystem) (d : report_data),
    main fs_two_files (mk_inputs "" "" "" "src.bin" "img.dd" "")
      = Some (fs', Reported d) /\
    file_bytes fs'
      (or_default (in_output_path (mk_inputs "" "" "" "src.bin" "img.dd" ""))
         default_output) = hello /\
    file_bytes fs' (in_source_path (mk_inputs "" "" "" "src.bin" "img.dd" "")) = hello /\
    md5_copy d = MD5.digest hello /\
    sha1_copy d = SHA1.digest hello /\
    md5_verify d = MD5.digest hello /\
    sha1_verify d = SHA1.digest hello /\
    source_size d = Some (Z.of_nat (length hello)) /\
    output_size d = Some (Z.of_nat (length hello)) /\
    size_match d = "YES"%string /\
    md5_match d = "YES"%string /\
    sha1_match d = "YES"%string /\
    conclusion d = SUCCESSFUL.
Proof.
  apply (main_regular_file_succeeds fs_two_files
           (mk_inputs "" "" "" "src.bin" "img.dd" "") hello).
  - discriminate.
  - reflexivity.
  - discriminate.
  - right. exists [x00; x01]. reflexivity.
Defined.

(** A regular source in a directory that takes no new file: no image. *)
Example regular_source_protected_directory :
  main fs_protected (plain_run "src.bin") = Some (fs_protected, Failed PermissionError).
Proof. vm_compute. reflexivity. Qed.

(** ** Chunk sizes below zero *)

(** X8. A chunk size below -1 is taken differently by the two passes: the
    unbuffered read of [image_and_hash] reads to the end of the file, so
    the copy (to an output path that opens for writing and leads to
    another file than the source) is complete and its digests are those of
    the content, while the buffered read of [hash_file] refuses the size
    with [ValueError]; with -1 [hash_file] reads the whole file and finds
    the same digests. *)
Theorem negative_chunk_size (fs : filesystem)
    (src_path out_path : string) (chunk_size : Z) (ns : node) :
  fs !! src_path = Some ns ->
  fault_free ns ->
  file_of fs src_path <> file_of fs out_path ->
  opens_wb fs out_path = true ->
  write_fault (dest_node fs out_path) = None ->
  chunk_size < -1 ->
  image_and_hash fs src_path out_path chunk_size
  = Some (<[out_path := set_content (content ns) (dest_node fs out_path)]> fs,
          Return (MD5.digest (content ns), SHA1.digest (content ns),
                  (if sizable ns then Some (Z.of_nat (length (content ns))) else None),
                  (if sizable (dest_node fs out_path)
                   then Some (Z.of_nat (length (content ns))) else None))) /\
  hash_file fs src_path chunk_size = Some (Raise ValueError) /\
  hash_file fs src_path (-1)
  = Some (Return (MD5.digest (content ns), SHA1.digest (content ns))).
Proof.
  intros Hs (Hr & Hrf & _) Hne Hopen Hwf Hcs. split; [| split].
  - apply image_and_hash_ok;
      [exact Hs | exact Hr | exact Hrf | exact Hne | exact Hopen | exact Hwf | lia].
  - unfold hash_file, open_rb. rewrite Hs, Hr. cbn [hash_loop].
    unfold buffered_read.
    destruct (Z.ltb_spec chunk_size (-1)) as [_ | H]; [reflexivity | lia].
  - apply hash_file_ok; [exact Hs | exact Hr | exact Hrf | left; reflexivity].
Qed.

Lemma negative_chunk_size_witness :
  image_and_hash fs_hello "src.bin" "img.dd" (-2)
  = Some (<[ "img.dd"%string :=
               set_content (content (regular hello)) (dest_node fs_hello "img.dd") ]>
            fs_hello,
          Return (MD5.digest (content (regular hello)),
                  SHA1.digest (content (regular hello)),
                  (if sizable (regular hello)
                   then Some (Z.of_nat (length (content (regular hello)))) else None),
                  (if sizable (dest_node fs_hello "img.dd")
                   then Some (Z.of_nat (length (content (regular hello))))
                   else None))) /\
  hash_file fs_hello "src.bin" (-2) = Some (Raise ValueError) /\
  hash_file fs_hello "src.bin" (-1)
  = Some (Return (MD5.digest (content (regular hello)),
                  SHA1.digest (content (regular hello)))).
Proof.
  apply (negative_chunk_size fs_hello "src.bin" "img.dd" (-2) (regular hello)).
  - reflexivity.
  - apply fault_free_regular.
  - discriminate.
  - reflexivity.
  - reflexivity.
  - lia.
Defined.

(** ** A fault in the verify pass *)

(** A read of [hash_file] that raises after [k] good ones: the loop stops
    with the exception. *)
Lemma hash_loop_read_fault (fuel : nat) (chunk_size : Z) (fs : gmap string node)
    (f : reader) (md5 : MD5.state) (sha1 : SHA1.state) (total_read : Z)
    (k : nat) :
  0 < chunk_size ->
  rfault f = Some k ->
  (k * Z.to_nat chunk_size <
   length (skipn (offset f) (bytes_of fs (rfile f))) + Z.to_nat chunk_size)%nat ->
  (length (skipn (offset f) (bytes_of fs (rfile f))) < fuel)%nat ->
  hash_loop fuel chunk_size fs f md5 sha1 total_read = Some (Raise OSError).
Proof.
  revert f md5 sha1 total_read k.
  induction fuel as [|fuel IH]; intros f md5 sha1 total_read k Hcs Hrf Hk Hlen; [lia |].
  assert (Hnz : chunk_size <> 0) by lia.
  assert (Hok : (chunk_size <? -1) = false) by (apply Z.ltb_ge; lia).
  simpl. unfold buffered_read, raw_read. rewrite Hok, Hrf.
  set (rest := skipn (offset f) (bytes_of fs (rfile f))) in *.
  destruct k as [|k]; [reflexivity |].
  rewrite Nat.mul_succ_l in Hk.
  assert (Hnil : rest <> []).
  { intros E. rewrite E in Hk. simpl in Hk. lia. }
  pose proof (read_slice_nonempty chunk_size _ Hnz Hnil) as Hchunk.
  pose proof (read_slice_length chunk_size rest) as Hclen.
  destruct (Z.ltb_spec chunk_size 0) as [Hneg | _]; [lia |].
  destruct (read_slice chunk_size rest) as [|c chunk] eqn:Echunk; [congruence |].
  apply IH with (k := k); cbn [rfile offset rfault fmap option_fmap option_map Nat.pred].
  - exact Hcs.
  - reflexivity.
  - rewrite skipn_offset. fold rest. rewrite length_skipn, Hclen. lia.
  - rewrite skipn_offset. fold rest. rewrite length_skipn, Hclen.
    destruct rest; [congruence | simpl length in *; lia].
Qed.

(** X9. A read that raises during the verify pass, after a copy that went
    through (to an output path that opens for writing and leads to another
    file than the source): [main] ends in its last handler without a
    report, and the image is left whole, with exactly the content of the
    source. *)
Theorem verify_fault_keeps_image (fs : filesystem) (inp : inputs)
    (ns : node) (k : nat) :
  in_source_path inp <> ""%string ->
  fs !! in_source_path inp = Some ns ->
  fault_free ns ->
  file_of fs (in_source_path inp)
    <> file_of fs (or_default (in_output_path inp) default_output) ->
  opens_wb fs (or_default (in_output_path inp) default_output) = true ->
  readable (dest_node fs (or_default (in_output_path inp) default_output)) = true ->
  write_fault (dest_node fs (or_default (in_output_path inp) default_output)) = None ->
  read_fault (dest_node fs (or_default (in_output_path inp) default_output)) = Some k ->
  (k * Z.to_nat default_chunk_size
   < length (content ns) + Z.to_nat default_chunk_size)%nat ->
  exists (fs1 : filesystem) (copy : string * string * option Z * option Z),
    image_and_hash fs (in_source_path inp)
      (or_default (in_output_path inp) default_output) default_chunk_size
    = Some (fs1, Return copy) /\
    hash_file fs1 (or_default (in_output_path inp) default_output) default_chunk_size
    = Some (Raise OSError) /\
    main fs inp = Some (fs1, Failed OSError) /\
    file_bytes fs1 (or_default (in_output_path inp) default_output) = content ns.
Proof.
  intros Hsrc Hs (Hr & Hrf & _) Hne Hopen Hdr Hdwf Hdrf Hk.
  set (out := or_default (in_output_path inp) default_output) in *.
  set (fs1 := <[out := set_content (content ns) (dest_node fs out)]> fs).
  assert (Hcopy := image_and_hash_ok fs _ out default_chunk_size ns Hs Hr Hrf Hne
                     Hopen Hdwf ltac:(discriminate)).
  fold fs1 in Hcopy.
  assert (Hlook : fs1 !! out = Some (set_content (content ns) (dest_node fs out)))
    by apply path_lookup_insert_eq.
  assert (Hverify : hash_file fs1 out default_chunk_size = Some (Raise OSError)).
  { unfold hash_file, open_rb. rewrite Hlook. cbn [readable set_content read_fault].
    rewrite Hdr.
    rewrite hash_loop_read_fault with (k := k);
      cbn [rfile offset rfault]; rewrite ?skipn_O, ?bytes_of_path;
      rewrite ?(file_bytes_lookup _ _ _ Hlook); cbn [content set_content].
    - reflexivity.
    - reflexivity.
    - exact Hdrf.
    - exact Hk.
    - lia. }
  eexists fs1, _. split; [exact Hcopy |]. split; [exact Hverify |]. split.
  - unfold main. apply String.eqb_neq in Hsrc. rewrite Hsrc. fold out.
    rewrite Hcopy. unfold main_after_copy. rewrite Hverify. reflexivity.
  - rewrite (file_bytes_lookup _ _ _ Hlook). reflexivity.
Qed.

Lemma verify_fault_keeps_image_witness :
  exists (fs1 : filesystem) (copy : string * string * option Z * option Z),
    image_and_hash fs_bad_sector (in_source_path (plain_run "src.bin"))
      (or_default (in_output_path (plain_run "src.bin")) default_output)
      default_chunk_size
    = Some (fs1, Return copy) /\
    hash_file fs1 (or_default (in_output_path (plain_run "src.bin")) default_output)
      default_chunk_size
    = Some (Raise OSError) /\
    main fs_bad_sector (plain_run "src.bin") = Some (fs1, Failed OSError) /\
    file_bytes fs1 (or_default (in_output_path (plain_run "src.bin")) default_output)
    = content (regular hello).
Proof.
  apply (verify_fault_keeps_image fs_bad_sector (plain_run "src.bin")
           (regular hello) 0).
  - discriminate.
  - reflexivity.
  - apply fault_free_regular.
  - discriminate.
  - reflexivity.
  - reflexivity.
  - reflexivity.
  - reflexivity.
  - simpl length. lia.
Defined.

(** ** Running [image_and_hash] again *)

(** X10. An image of an image has the digests of the original: copying the
    source to a first image, then that image to a second one, with
    whatever chunk sizes other than 0, returns the same digest pair twice
    and leaves both images with the content of the source. The two output
    paths open for writing, the first leads to another file than the
    source and the second to another file than the first. *)
Theorem image_of_image_same_digests (fs : filesystem)
    (a b c : string) (cs1 cs2 : Z) (na : node) :
  fs !! a = Some na ->
  fault_free na ->
  file_of fs a <> file_of fs b ->
  file_of fs b <> file_of fs c ->
  opens_wb fs b = true ->
  opens_wb fs c = true ->
  fault_free (dest_node fs b) ->
  write_fault (dest_node fs c) = None ->
  cs1 <> 0 -> cs2 <> 0 ->
  exists (fs1 fs2 : filesystem) (ss1 os1 ss2 os2 : option Z),
    image_and_hash fs a b cs1
    = Some (fs1, Return (MD5.digest (content na), SHA1.digest (content na), ss1, os1)) /\
    image_and_hash fs1 b c cs2
    = Some (fs2, Return (MD5.digest (content na), SHA1.digest (content na), ss2, os2)) /\
    file_bytes fs2 b = content na /\
    file_bytes fs2 c = content na.
Proof.
  intros Ha (Hr & Hrf & Hwfa) Hab Hbc Hob Hoc (Hbr & Hbrf & Hbwf) Hcwf H1 H2.
  set (nb := set_content (content na) (dest_node fs b)).
  set (fs1 := <[b := nb]> fs).
  assert (Hb1 : fs1 !! b = Some nb) by apply path_lookup_insert_eq.
  assert (Hc1 : dest_node fs1 c = dest_node fs c)
    by (apply dest_node_insert_ne; exact Hbc).
  assert (Hoc1 : opens_wb fs1 c = true)
    by (unfold fs1; rewrite opens_wb_insert_ne by exact Hbc; exact Hoc).
  eexists fs1, _, _, _, _, _. split; [| split; [| split]].
  - apply image_and_hash_ok;
      [exact Ha | exact Hr | exact Hrf | exact Hab | exact Hob | exact Hbwf | exact H1].
  - rewrite (image_and_hash_ok fs1 b c cs2 nb Hb1 Hbr Hbrf Hbc Hoc1)
      by (rewrite ?Hc1; assumption).
    reflexivity.
  - rewrite (file_bytes_lookup _ b nb); [reflexivity |].
    rewrite path_lookup_insert_ne by (intros E; apply Hbc; symmetry; exact E).
    exact Hb1.
  - rewrite file_bytes_insert_eq. reflexivity.
Qed.

Lemma image_of_image_same_digests_witness :
  exists (fs1 fs2 : filesystem) (ss1 os1 ss2 os2 : option Z),
    image_and_hash fs_two_files "src.bin" "img.dd" 2
    = Some (fs1, Return (MD5.digest (content (regular hello)),
                         SHA1.digest (content (regular hello)), ss1, os1)) /\
    image_and_hash fs1 "img.dd" "second.dd" 3
    = Some (fs2, Return (MD5.digest (content (regular hello)),
                         SHA1.digest (content (regular hello)), ss2, os2)) /\
    file_bytes fs2 "img.dd" = content (regular hello) /\
    file_bytes fs2 "second.dd" = content (regular hello).
Proof.
  apply (image_of_image_same_digests fs_two_files "src.bin" "img.dd" "second.dd"
           2 3 (regular hello)).
  - reflexivity.
  - apply fault_free_regular.
  - discriminate.
  - discriminate.
  - reflexivity.
  - reflexivity.
  - vm_compute. repeat split.
  - reflexivity.
  - lia.
  - lia.
Defined.

(** X11. Imaging the same source to the same output path a second time
    changes nothing: the second run returns what the first one returned
    and leaves the file system as the first one left it. The output path
    opens for writing and leads to another file than the source. *)
Theorem image_and_hash_again (fs : filesystem)
    (src_path out_path : string) (chunk_size : Z) (ns : node) :
  fs !! src_path = Some ns ->
  fault_free ns ->
  file_of fs src_path <> file_of fs out_path ->
  opens_wb fs out_path = true ->
  write_fault (dest_node fs out_path) = None ->
  chunk_size <> 0 ->
  exists (fs1 : filesystem) (r : string * string * option Z * option Z),
    image_and_hash fs src_path out_path chunk_size = Some (fs1, Return r) /\
    image_and_hash fs1 src_path out_path chunk_size = Some (fs1, Return r) /\
    file_bytes fs1 out_path = content ns.
Proof.
  intros Hs (Hr & Hrf & _) Hne Hopen Hwf Hcs.
  set (nd := dest_node fs out_path) in *.
  set (fs1 := <[out_path := set_content (content ns) nd]> fs).
  assert (Hs1 : fs1 !! src_path = Some ns).
  { unfold fs1.
    rewrite path_lookup_insert_ne by (intros E; apply Hne; symmetry; exact E).
    exact Hs. }
  assert (Hd1 : dest_node fs1 out_path = set_content (content ns) nd).
  { apply dest_node_lookup. apply path_lookup_insert_eq. }
  assert (Ho1 : opens_wb fs1 out_path = true).
  { unfold fs1. rewrite opens_wb_insert_eq. cbn [writable set_content].
    apply opens_wb_writable. exact Hopen. }
  eexists fs1, _. split; [| split].
  - apply image_and_hash_ok;
      [exact Hs | exact Hr | exact Hrf | exact Hne | exact Hopen | exact Hwf | exact Hcs].
  - rewrite (image_and_hash_ok fs1 src_path out_path chunk_size ns Hs1 Hr Hrf Hne Ho1)
      by (rewrite ?Hd1; assumption).
    rewrite Hd1. unfold fs1 at 1.
    rewrite path_insert_insert_eq, set_content_twice. reflexivity.
  - unfold fs1. rewrite file_bytes_insert_eq. reflexivity.
Qed.

Lemma image_and_hash_again_witness :
  exists (fs1 : filesystem) (r : string * string * option Z * option Z),
    image_and_hash fs_two_files "src.bin" "img.dd" 2 = Some (fs1, Return r) /\
    image_and_hash fs1 "src.bin" "img.dd" 2 = Some (fs1, Return r) /\
    file_bytes fs1 "img.dd" = content (regular hello).
Proof.
  apply (image_and_hash_again fs_two_files "src.bin" "img.dd" 2 (regular hello)).
  - reflexivity.
  - apply fault_free_regular.
  - discriminate.
  - reflexivity.
  - reflexivity.
  - lia.
Defined.

(** * [human_readable_size] *)

(** ** Strings *)

Lemma string_app_cons (x : ascii) (a b : string) :
  String x a +:+ b = String x (a +:+ b).
Proof. reflexivity. Qed.

Lemma string_app_assoc (a b c : string) : (a +:+ b) +:+ c = a +:+ b +:+ c.
Proof.
  induction a as [|x a IH]; [reflexivity |].
  rewrite !string_app_cons, IH. reflexivity.
Qed.

Lemma string_app_nil_r (a : string) : a +:+ "" = a.
Proof.
  induction a as [|x a IH]; [reflexivity |].
  rewrite string_app_cons, IH. reflexivity.
Qed.

Lemma string_length_app (a b : string) :
  String.length (a +:+ b) = (String.length a + String.length b)%nat.
Proof.
  induction a as [|x a IH]; [reflexivity |].
  rewrite string_app_cons. cbn [String.length]. rewrite IH. reflexivity.
Qed.

(** ** Rounding *)

Lemma round53_small (n : Z) : 0 <= n < 2 ^ 53 -> round53 n = n.
Proof.
  intros [H0 H53]. unfold round53.
  assert (Hlog : Z.log2 n < 53).
  { destruct (Z.eq_dec n 0) as [-> | Hnz]; [reflexivity |].
    apply Z.log2_lt_pow2; lia. }
  destruct (Z.leb_spec (Z.log2 n + 1 - 53) 0) as [_ | H]; [reflexivity | lia].
Qed.

(** The rounded integer stays between the two powers of two around [n]. *)
Lemma round53_bounds (n : Z) :
  0 < n -> 2 ^ Z.log2 n <= round53 n <= 2 ^ (Z.log2 n + 1).
Proof.
  intros Hpos.
  pose proof (Z.log2_spec n Hpos) as [Hlo Hhi].
  pose proof (Z.log2_nonneg n) as Hlog.
  rewrite <- Z.add_1_r in Hhi.
  unfold round53.
  destruct (Z.leb_spec (Z.log2 n + 1 - 53) 0) as [_ | Hs]; [lia |].
  set (s := Z.log2 n + 1 - 53) in *.
  rewrite Z.shiftl_mul_pow2 by lia. rewrite Z.shiftr_div_pow2 by lia.
  assert (Hp : 0 < 2 ^ s) by (apply Z.pow_pos_nonneg; lia).
  assert (E1 : 2 ^ Z.log2 n = 2 ^ 52 * 2 ^ s).
  { rewrite <- Z.pow_add_r by lia. f_equal. unfold s. lia. }
  assert (E2 : 2 ^ (Z.log2 n + 1) = 2 ^ 53 * 2 ^ s).
  { rewrite <- Z.pow_add_r by lia. f_equal. unfold s. lia. }
  assert (Hq1 : 2 ^ 52 <= n / 2 ^ s).
  { apply Z.div_le_lower_bound; [exact Hp |]. rewrite Z.mul_comm. lia. }
  assert (Hq2 : n / 2 ^ s < 2 ^ 53).
  { apply Z.div_lt_upper_bound; [exact Hp |]. rewrite Z.mul_comm. lia. }
  rewrite E1, E2.
  destruct ((Z.shiftl 1 (s - 1) <? Z.land n (Z.ones s))
            || ((Z.land n (Z.ones s) =? Z.shiftl 1 (s - 1)) && Z.odd (n / 2 ^ s)));
    split; apply Z.mul_le_mono_nonneg_r; lia.
Qed.

Lemma fixed2_whole (m : Z) : 0 <= m -> fixed2 (100 * m) = pretty m +:+ ".00".
Proof.
  intros Hm. unfold fixed2.
  replace (100 * m / 100) with m by (symmetry; rewrite Z.mul_comm; apply Z.div_mul; lia).
  replace (100 * m mod 100) with 0 by (symmetry; rewrite Z.mul_comm; apply Z.mod_mul; lia).
  replace (100 * m mod 10) with 0
    by (symmetry; replace (100 * m) with (10 * m * 10) by lia; apply Z.mod_mul; lia).
  reflexivity.
Qed.

Lemma round_half_even_exact (m b : Z) : 0 < b -> round_half_even (m * b) b = m.
Proof.
  intros Hb. unfold round_half_even.
  rewrite Z.div_mul by lia. rewrite Z.mod_mul by lia.
  destruct (Z.ltb_spec b (2 * 0)) as [H | _]; [lia |].
  destruct (Z.eqb_spec (2 * 0) b) as [H | _]; [lia |].
  reflexivity.
Qed.

Lemma sign_of_nonneg (m : Z) : 0 <= m -> sign_of m = ""%string.
Proof. intros H. unfold sign_of. destruct (Z.ltb_spec m 0); [lia | reflexivity]. Qed.

Lemma sgn_times (n m : Z) : 0 < n -> Z.sgn n * m = m.
Proof. intros H. rewrite Z.sgn_pos by exact H. lia. Qed.

(** ** The loop on floats *)

Lemma format_2f_float (m : Z) (k : nat) :
  0 <= m -> format_2f (Float m k) = Some (float_text m k).
Proof.
  intros Hm. unfold format_2f, float_text.
  rewrite sign_of_nonneg by exact Hm. rewrite Z.abs_eq by exact Hm. reflexivity.
Qed.

(** From a float on, the loop divides as long as the value is at least
    1024, and names the float with the unit it stops at. *)
Lemma size_loop_float_unit (units : list string) (m : Z) (j i : nat) (u : string) :
  0 <= m ->
  nth_error units i = Some u ->
  (forall t : nat, (t < i)%nat -> 1024 * 1024 ^ Z.of_nat (j + t) <= m) ->
  m < 1024 * 1024 ^ Z.of_nat (j + i) ->
  size_loop units (Float m j) = Some (float_text m (j + i) +:+ " " +:+ u).
Proof.
  intros Hm. revert j i.
  induction units as [|u0 units IH]; intros j i Hu Hbelow Hstop.
  - destruct i; discriminate.
  - cbn [size_loop lt_1024 div_1024]. destruct i as [|i].
    + injection Hu as ->. rewrite Nat.add_0_r in *.
      destruct (Z.ltb_spec m (1024 * 1024 ^ Z.of_nat j)) as [_ | H]; [| lia].
      rewrite format_2f_float by exact Hm. reflexivity.
    + assert (H0 := Hbelow 0%nat ltac:(lia)). rewrite Nat.add_0_r in H0.
      destruct (Z.ltb_spec m (1024 * 1024 ^ Z.of_nat j)) as [H | _]; [lia |].
      rewrite (IH (Datatypes.S j) i).
      * replace (Datatypes.S j + i)%nat with (j + Datatypes.S i)%nat by lia. reflexivity.
      * exact Hu.
      * intros t Ht.
        replace (Datatypes.S j + t)%nat with (j + Datatypes.S t)%nat by lia.
        apply Hbelow. lia.
      * replace (Datatypes.S j + i)%nat with (j + Datatypes.S i)%nat by lia. exact Hstop.
Qed.

Lemma size_loop_float_last (units : list string) (m : Z) (j : nat) :
  0 <= m ->
  (forall t : nat, (t < length units)%nat -> 1024 * 1024 ^ Z.of_nat (j + t) <= m) ->
  size_loop units (Float m j) = Some (float_text m (j + length units) +:+ " PB").
Proof.
  intros Hm. revert j.
  induction units as [|u0 units IH]; intros j Hbelow.
  - cbn [size_loop length]. rewrite format_2f_float by exact Hm.
    rewrite Nat.add_0_r. reflexivity.
  - cbn [size_loop lt_1024 div_1024 length].
    assert (H0 := Hbelow 0%nat ltac:(simpl; lia)). rewrite Nat.add_0_r in H0.
    destruct (Z.ltb_spec m (1024 * 1024 ^ Z.of_nat j)) as [H | _]; [lia |].
    rewrite (IH (Datatypes.S j)).
    + replace (Datatypes.S j + length units)%nat
        with (j + Datatypes.S (length units))%nat by lia.
      reflexivity.
    + intros t Ht.
      replace (Datatypes.S j + t)%nat with (j + Datatypes.S t)%nat by lia.
      apply Hbelow. simpl. lia.
Qed.

(** The first step of the loop on an integer of at least 1024 bytes: one
    division, into a float. *)
Lemma size_loop_first_division (n : Z) :
  1024 <= n -> round53 n < float_limit * 1024 ->
  human_readable_size (Some n)
  = size_loop ["KB"; "MB"; "GB"; "TB"]%string (Float (round53 n) 1).
Proof.
  intros Hn Hlim. unfold human_readable_size, size_units.
  cbn [size_loop lt_1024 div_1024].
  destruct (Z.ltb_spec n 1024) as [H | _]; [lia |].
  rewrite (Z.abs_eq n) by lia. rewrite sgn_times by lia.
  assert (Hr : 0 <= round53 n).
  { pose proof (round53_bounds n ltac:(lia)) as [Hlo _].
    pose proof (Z.pow_nonneg 2 (Z.log2 n) ltac:(lia)). lia. }
  rewrite Z.abs_eq by exact Hr.
  destruct (Z.leb_spec (float_limit * 1024) (round53 n)) as [H | _]; [lia |].
  reflexivity.
Qed.

(** ** What [human_readable_size] returns *)

Lemma pow_1024_le (a b : nat) : (a <= b)%nat -> 1024 ^ Z.of_nat a <= 1024 ^ Z.of_nat b.
Proof. intros H. apply Z.pow_le_mono_r; lia. Qed.

Lemma pow_1024_succ (a : nat) : 1024 * 1024 ^ Z.of_nat a = 1024 ^ Z.of_nat (Datatypes.S a).
Proof. rewrite Nat2Z.inj_succ, Z.pow_succ_r by lia. reflexivity. Qed.

(** Below 1024 the loop returns at once, with the integer formatted as a
    float. *)
Lemma size_loop_bytes (n : Z) :
  0 <= n < 1024 ->
  human_readable_size (Some n) = Some (fixed2 (100 * n) +:+ " B").
Proof.
  intros [H0 H1]. unfold human_readable_size, size_units.
  cbn [size_loop lt_1024 format_2f].
  destruct (Z.ltb_spec n 1024) as [_ | H]; [| lia].
  rewrite (Z.abs_eq n) by lia. rewrite round53_small by lia.
  assert (Hm : Z.sgn n * n = n).
  { destruct (Z.eq_dec n 0) as [-> | Hnz]; [reflexivity | apply sgn_times; lia]. }
  rewrite Hm. rewrite (Z.abs_eq n) by lia.
  assert (Hlim : 1024 < float_limit) by (vm_compute; reflexivity).
  destruct (Z.leb_spec float_limit n) as [H | _]; [lia |].
  rewrite sign_of_nonneg by lia. reflexivity.
Qed.

(** Between 1024 and 1024^5 the loop stops at the unit of the largest
    power of 1024 not above the size. *)
Lemma size_loop_units (n : Z) (k : nat) (u : string) :
  (1 <= k <= 4)%nat ->
  nth_error ["KB"; "MB"; "GB"; "TB"]%string (k - 1) = Some u ->
  1024 ^ Z.of_nat k <= n < 1024 ^ Z.of_nat (k + 1) ->
  human_readable_size (Some n) = Some (float_text n k +:+ " " +:+ u).
Proof.
  intros Hk Hu [Hlo Hhi].
  assert (H1024 : 1024 <= n).
  { pose proof (pow_1024_le 1 k ltac:(lia)) as H. change (1024 ^ Z.of_nat 1) with 1024 in H.
    lia. }
  assert (H53 : n < 2 ^ 53).
  { pose proof (pow_1024_le (k + 1) 5 ltac:(lia)) as H.
    assert (1024 ^ Z.of_nat 5 < 2 ^ 53) by (vm_compute; reflexivity). lia. }
  assert (Hlim : 2 ^ 53 < float_limit * 1024) by (vm_compute; reflexivity).
  rewrite size_loop_first_division by (rewrite ?round53_small; lia).
  rewrite round53_small by lia.
  rewrite (size_loop_float_unit _ n 1 (k - 1) u).
  - replace (1 + (k - 1))%nat with k by lia. reflexivity.
  - lia.
  - exact Hu.
  - intros t Ht. rewrite pow_1024_succ.
    pose proof (pow_1024_le (Datatypes.S (1 + t)) k ltac:(lia)). lia.
  - rewrite pow_1024_succ. replace (Datatypes.S (1 + (k - 1))) with (k + 1)%nat by lia.
    exact Hhi.
Qed.

Lemma unit_of_index (k : nat) :
  (1 <= k <= 4)%nat ->
  nth_error ["KB"; "MB"; "GB"; "TB"]%string (k - 1)
  = Some (nth k ["B"; "KB"; "MB"; "GB"; "TB"]%string ""%string).
Proof. intros Hk. destruct k as [|[|[|[|[|k]]]]]; try lia; reflexivity. Qed.

(** From 1024^5 on, the integer converted to a float stays within the
    floats, and is at least 1024^5. *)
Lemma round53_range (n : Z) :
  1024 ^ 5 <= n < 2 ^ 1033 ->
  2 ^ 50 <= round53 n < float_limit * 1024.
Proof.
  intros [Hlo Hhi].
  assert (H50 : 1024 ^ 5 = 2 ^ 50) by reflexivity.
  assert (Hpos : 0 < n) by (assert (0 < 1024 ^ 5) by reflexivity; lia).
  pose proof (round53_bounds n Hpos) as [Hr1 Hr2].
  assert (Hlog1 : 50 <= Z.log2 n) by (apply Z.log2_le_pow2; lia).
  assert (Hlog2 : Z.log2 n < 1033) by (apply Z.log2_lt_pow2; lia).
  pose proof (Z.pow_le_mono_r 2 50 (Z.log2 n) ltac:(lia) Hlog1).
  pose proof (Z.pow_le_mono_r 2 (Z.log2 n + 1) 1033 ltac:(lia) ltac:(lia)).
  assert (Hlim : 2 ^ 1033 < float_limit * 1024) by (vm_compute; reflexivity).
  lia.
Qed.

(** After the five units the loop is over, whatever the size. *)
Lemma size_loop_petabytes (n : Z) :
  1024 <= n ->
  2 ^ 50 <= round53 n < float_limit * 1024 ->
  human_readable_size (Some n) = Some (float_text (round53 n) 5 +:+ " PB").
Proof.
  intros H1024 [Hlo Hhi].
  rewrite size_loop_first_division by lia.
  rewrite size_loop_float_last.
  - reflexivity.
  - assert (0 < 2 ^ 50) by reflexivity. lia.
  - intros t Ht. cbn [length] in Ht. rewrite pow_1024_succ.
    pose proof (pow_1024_le (Datatypes.S (1 + t)) 5 ltac:(lia)) as H.
    change (1024 ^ Z.of_nat 5) with (2 ^ 50) in H. lia.
Qed.

(** X12. A size below 1024 is given in bytes, as the integer followed by
    two zero decimals. *)
Theorem size_below_1024_in_bytes (n : Z) :
  0 <= n < 1024 ->
  human_readable_size (Some n) = Some (pretty n +:+ ".00 B").
Proof.
  intros Hn. rewrite size_loop_bytes by exact Hn.
  rewrite fixed2_whole by lia. rewrite string_app_assoc. reflexivity.
Qed.

Lemma size_below_1024_in_bytes_witness :
  human_readable_size (Some 1023) = Some (pretty 1023 +:+ ".00 B").
Proof. apply (size_below_1024_in_bytes 1023). lia. Defined.

Example size_1023 : human_readable_size (Some 1023) = Some "1023.00 B"%string.
Proof. vm_compute. reflexivity. Qed.

(** X13. From 1 KB up to 1024 TB the unit is the largest power of 1024 not
    above the size: for [1024^k <= n < 1024^(k+1)], with [k] from 1 to 4,
    the result is [n / 1024^k], rounded half to even to two decimals,
    followed by the [k]-th unit. *)
Theorem size_unit_is_largest_power (n : Z) (k : nat) :
  (1 <= k <= 4)%nat ->
  1024 ^ Z.of_nat k <= n < 1024 ^ Z.of_nat (k + 1) ->
  human_readable_size (Some n)
  = Some (fixed2 (round_half_even (100 * n) (1024 ^ Z.of_nat k)) +:+ " " +:+
          nth k ["B"; "KB"; "MB"; "GB"; "TB"]%string ""%string).
Proof.
  intros Hk Hrange.
  rewrite (size_loop_units n k _ Hk (unit_of_index k Hk) Hrange).
  unfold float_text. reflexivity.
Qed.

Lemma size_unit_is_largest_power_witness :
  human_readable_size (Some 1536)
  = Some (fixed2 (round_half_even (100 * 1536) (1024 ^ Z.of_nat 1)) +:+ " " +:+
          nth 1 ["B"; "KB"; "MB"; "GB"; "TB"]%string ""%string).
Proof.
  apply (size_unit_is_largest_power 1536 1).
  - lia.
  - vm_compute. split; [intros H; discriminate H | reflexivity].
Defined.

Example size_1536 : human_readable_size (Some 1536) = Some "1.50 KB"%string.
Proof. vm_compute. reflexivity. Qed.

(** X14. There is no unit beyond PB: every size from 1024^5 bytes on (and
    below 2^1033) is given in PB, as the size converted to a float, divided
    by 1024^5 and rounded half to even to two decimals. *)
Theorem size_from_1024_pow_5_in_pb (n : Z) :
  1024 ^ 5 <= n < 2 ^ 1033 ->
  human_readable_size (Some n)
  = Some (fixed2 (round_half_even (100 * round53 n) (1024 ^ 5)) +:+ " PB").
Proof.
  intros Hn.
  assert (H1024 : 1024 <= n).
  { assert (1024 <= 1024 ^ 5) by (vm_compute; discriminate). lia. }
  rewrite (size_loop_petabytes n H1024 (round53_range n Hn)).
  unfold float_text. reflexivity.
Qed.

Lemma size_from_1024_pow_5_in_pb_witness :
  human_readable_size (Some (2 ^ 64))
  = Some (fixed2 (round_half_even (100 * round53 (2 ^ 64)) (1024 ^ 5)) +:+ " PB").
Proof.
  apply (size_from_1024_pow_5_in_pb (2 ^ 64)).
  vm_compute. split; [intros H; discriminate H | reflexivity].
Defined.

Example size_2_pow_64 : human_readable_size (Some (2 ^ 64)) = Some "16384.00 PB"%string.
Proof. vm_compute. reflexivity. Qed.

(** X15. A whole number of units is printed as such: [m * 1024^k] bytes,
    for [m] from 1 to 1023 and [k] from 1 to 4, gives [m], two zero
    decimals, and the [k]-th unit. *)
Theorem size_whole_units (m : Z) (k : nat) :
  (1 <= k <= 4)%nat ->
  1 <= m < 1024 ->
  human_readable_size (Some (m * 1024 ^ Z.of_nat k))
  = Some (pretty m +:+ ".00 " +:+
          nth k ["B"; "KB"; "MB"; "GB"; "TB"]%string ""%string).
Proof.
  intros Hk [Hm1 Hm2].
  assert (Hb : 0 < 1024 ^ Z.of_nat k) by (apply Z.pow_pos_nonneg; lia).
  rewrite (size_loop_units _ k _ Hk (unit_of_index k Hk)).
  - unfold float_text.
    rewrite Z.mul_assoc, round_half_even_exact by exact Hb.
    rewrite fixed2_whole by lia. rewrite string_app_assoc. reflexivity.
  - replace (k + 1)%nat with (Datatypes.S k) by lia. rewrite <- pow_1024_succ.
    split; nia.
Qed.

Lemma size_whole_units_witness :
  human_readable_size (Some (3 * 1024 ^ Z.of_nat 2))
  = Some (pretty 3 +:+ ".00 " +:+
          nth 2 ["B"; "KB"; "MB"; "GB"; "TB"]%string ""%string).
Proof. apply (size_whole_units 3 2); lia. Defined.

Example size_three_mib : human_readable_size (Some 3145728) = Some "3.00 MB"%string.
Proof. vm_compute. reflexivity. Qed.

(** X16. The number printed can reach 1024.00: the test against 1024 is
    made before the rounding to two decimals, so a size less than half a
    hundredth of a unit below the next power of 1024 is given as 1024.00 of
    the smaller unit, not as 1.00 of the larger one. *)
Theorem size_rounds_up_to_1024 (n : Z) (k : nat) :
  (1 <= k <= 4)%nat ->
  204799 * 1024 ^ Z.of_nat k < 200 * n ->
  n < 1024 ^ Z.of_nat (k + 1) ->
  human_readable_size (Some n)
  = Some ("1024.00 " +:+ nth k ["B"; "KB"; "MB"; "GB"; "TB"]%string ""%string).
Proof.
  intros Hk Hlo Hhi.
  assert (Hb : 0 < 1024 ^ Z.of_nat k) by (apply Z.pow_pos_nonneg; lia).
  assert (Hsucc : 1024 ^ Z.of_nat (k + 1) = 1024 * 1024 ^ Z.of_nat k).
  { replace (k + 1)%nat with (Datatypes.S k) by lia. symmetry. apply pow_1024_succ. }
  rewrite (size_loop_units _ k _ Hk (unit_of_index k Hk)) by (split; lia).
  unfold float_text.
  set (b := 1024 ^ Z.of_nat k) in *.
  assert (Hq : 100 * n / b = 102399).
  { symmetry. apply (Z.div_unique_pos _ _ _ (100 * n - b * 102399)); lia. }
  assert (Hr : 100 * n mod b = 100 * n - b * 102399).
  { symmetry. apply (Z.mod_unique_pos _ _ 102399); lia. }
  assert (Hround : round_half_even (100 * n) b = 102400).
  { unfold round_half_even. rewrite Hq, Hr.
    destruct (Z.ltb_spec b (2 * (100 * n - b * 102399))) as [_ | H]; [reflexivity | lia]. }
  rewrite Hround. reflexivity.
Qed.

Lemma size_rounds_up_to_1024_witness :
  human_readable_size (Some 1048575)
  = Some ("1024.00 " +:+ nth 1 ["B"; "KB"; "MB"; "GB"; "TB"]%string ""%string).
Proof.
  apply (size_rounds_up_to_1024 1048575 1).
  - lia.
  - vm_compute. reflexivity.
  - vm_compute. reflexivity.
Defined.

Example size_one_byte_below_1_mib :
  human_readable_size (Some 1048575) = Some "1024.00 KB"%string /\
  human_readable_size (Some 1048576) = Some "1.00 MB"%string.
Proof. split; vm_compute; reflexivity. Qed.

(** X17. [human_readable_size] returns a string for [None] and for every
    size from 0 to 2^1033 - 1, so for every size a file can have: the
    conversions to floats it makes do not raise [OverflowError] there. *)
Theorem size_never_overflows (n : Z) :
  0 <= n < 2 ^ 1033 ->
  human_readable_size None = Some "UNKNOWN"%string /\
  exists s : string, human_readable_size (Some n) = Some s.
Proof.
  intros [H0 Hhi]. split; [reflexivity |].
  destruct (Z_lt_le_dec n 1024) as [H1 | H1].
  { eexists. apply size_loop_bytes. lia. }
  destruct (Z_lt_le_dec n (1024 ^ 5)) as [H5 | H5].
  2: { eexists. apply (size_loop_petabytes n H1). apply round53_range. lia. }
  assert (Hk : exists k : nat,
             (1 <= k <= 4)%nat /\ 1024 ^ Z.of_nat k <= n < 1024 ^ Z.of_nat (k + 1)).
  { destruct (Z_lt_le_dec n (1024 ^ 2)) as [H2 | H2]; [exists 1%nat; split; [lia |]; split; [exact H1 | exact H2] |].
    destruct (Z_lt_le_dec n (1024 ^ 3)) as [H3 | H3]; [exists 2%nat; split; [lia |]; split; [exact H2 | exact H3] |].
    destruct (Z_lt_le_dec n (1024 ^ 4)) as [H4 | H4]; [exists 3%nat; split; [lia |]; split; [exact H3 | exact H4] |].
    exists 4%nat. split; [lia |]. split; [exact H4 | exact H5]. }
  destruct Hk as (k & Hk & Hrange).
  eexists. apply (size_loop_units n k _ Hk (unit_of_index k Hk) Hrange).
Qed.

Lemma size_never_overflows_witness :
  human_readable_size None = Some "UNKNOWN"%string /\
  exists s : string, human_readable_size (Some (2 ^ 63 - 1)) = Some s.
Proof.
  apply (size_never_overflows (2 ^ 63 - 1)).
  vm_compute. split; [intros H; discriminate H | reflexivity].
Defined.

(** Far beyond that range the conversion does raise: the first size for
    which the division by 1024 overflows. *)
Example size_overflow :
  human_readable_size (Some (2 ^ 1034 - 2 ^ 980)) = None /\
  human_readable_size (Some (2 ^ 1034 - 2 ^ 980 - 1)) <> None.
Proof. split; vm_compute; [reflexivity | discriminate]. Qed.

(** * [print_result_table] *)

Lemma length_repeat_char (c : ascii) (n : nat) : String.length (repeat_char c n) = n.
Proof. induction n as [|n IH]; [reflexivity |]. cbn [repeat_char String.length]. rewrite IH. reflexivity. Qed.

Lemma length_ljust (w : nat) (s : string) :
  String.length (ljust w s) = Nat.max w (String.length s).
Proof. unfold ljust. rewrite string_length_app, length_repeat_char. lia. Qed.

Lemma length_prefix_of (n : nat) (s : string) :
  String.length (prefix_of n s) = Nat.min n (String.length s).
Proof.
  unfold prefix_of. revert n.
  induction s as [|x s IH]; intros n.
  - destruct n; reflexivity.
  - destruct n as [|n]; [reflexivity |].
    cbn [substring String.length]. rewrite IH. reflexivity.
Qed.

Lemma prefix_of_short (n : nat) (s : string) :
  (String.length s <= n)%nat -> prefix_of n s = s.
Proof.
  unfold prefix_of. revert n.
  induction s as [|x s IH]; intros n Hn.
  - destruct n; reflexivity.
  - destruct n as [|n]; [cbn [String.length] in Hn; lia |].
    cbn [substring]. rewrite IH by (cbn [String.length] in Hn; lia). reflexivity.
Qed.

(** A line of the table has the width of its two columns and of the bar
    between them, whatever the value. *)
Lemma length_table_line (w1 : nat) (field : string) (value : option string) :
  (String.length field <= w1)%nat ->
  String.length (table_line w1 field value) = (w1 + 2 + col2_width)%nat.
Proof.
  intros Hf. unfold table_line.
  rewrite !string_length_app, !length_ljust, length_prefix_of.
  unfold col2_width. cbn [String.length]. lia.
Qed.

Lemma col1_width_table (data : ReportDict.dict) : col1_width (table_rows data) = 26%nat.
Proof. reflexivity. Qed.

(** X18. Whatever the values of the dictionary (long, empty or [None]),
    [print_result_table] prints 22 lines: the 16 rows and the header are
    exactly 88 characters wide, and the three rules are 89 dashes, one
    more than the rows they frame. *)
Theorem table_rows_are_88_wide (data : ReportDict.dict) :
  exists (header : string) (rows : list string),
    print_result_table data
    = [newline +:+ "==================== RESULT TABLE ===================="%string;
       repeat_char "-" 89; header; repeat_char "-" 89]
      ++ rows
      ++ [repeat_char "-" 89;
          "======================================================"%string +:+ newline] /\
    length rows = 16%nat /\
    String.length header = 88%nat /\
    Forall (fun line => String.length line = 88%nat) rows.
Proof.
  eexists _, _. split; [| split; [| split]].
  - unfold print_result_table. rewrite col1_width_table. reflexivity.
  - reflexivity.
  - reflexivity.
  - unfold table_rows. cbn [map fst snd].
    repeat (apply Forall_cons; split;
            [apply (length_table_line 26); cbn [String.length]; lia |]).
    apply Forall_nil. exact I.
Qed.

(** ** The table of a run of [main] *)

(** What a report of [main] holds: digests that hash objects gave, and a
    conclusion that [conclusion_of] chose. *)
Lemma main_reported_fields (fs fs' : filesystem) (inp : inputs)
    (d : report_data) :
  main fs inp = Some (fs', Reported d) ->
  (exists (a b : bool), conclusion d = conclusion_of a b (size_match d)) /\
  (exists (m1 m2 : MD5.state) (s1 s2 : SHA1.state),
     md5_copy d = MD5.hexdigest m1 /\ md5_verify d = MD5.hexdigest m2 /\
     sha1_copy d = SHA1.hexdigest s1 /\ sha1_verify d = SHA1.hexdigest s2).
Proof.
  unfold main. destruct (String.eqb (in_source_path inp) ""); [discriminate |].
  set (out := or_default (in_output_path inp) default_output).
  unfold image_and_hash.
  destruct (open_rb fs (in_source_path inp)) as [src | e]; [| discriminate].
  destruct (open_wb fs out) as [[fs1 dst] | e]; [| discriminate].
  destruct (copy_loop _ _ _ _ _ _ _ _) as [[fs2 [[[[m1 s1] t] w] | e]] |];
    [| discriminate | discriminate].
  unfold main_after_copy, hash_file.
  destruct (open_rb (with_files fs1 fs2) out) as [f | e]; [| discriminate].
  destruct (hash_loop _ _ _ _ _ _ _) as [[[[m2 s2] t2] | e] |];
    [| discriminate | discriminate].
  intros H. injection H as _ <-.
  cbn [conclusion size_match md5_copy md5_verify sha1_copy sha1_verify].
  split; [eexists _, _; reflexivity |].
  exists m1, m2, s1, s2. repeat split.
Qed.

Lemma report_dict_of_inv (now : string) (d : report_data) (data : ReportDict.dict) :
  report_dict_of now d = Some data ->
  exists s o : string, data = report_dict now d s o.
Proof.
  unfold report_dict_of.
  destruct (human_readable_size (source_size d)) as [s|]; [| discriminate].
  destruct (human_readable_size (output_size d)) as [o|]; [| discriminate].
  intros H. injection H as <-. exists s, o. reflexivity.
Qed.

Lemma ljust_full (w : nat) (s : string) :
  (w <= String.length s)%nat -> ljust w s = s.
Proof.
  intros H. unfold ljust. replace (w - String.length s)%nat with 0%nat by lia.
  apply string_app_nil_r.
Qed.

(** X19. The table never shows a whole conclusion: for every report of
    [main], the conclusion is longer than the 60 characters of the second
    column, and its row holds its first 60 characters only. *)
Theorem table_cuts_the_conclusion (now : string) (fs fs' : filesystem)
    (inp : inputs) (d : report_data) (data : ReportDict.dict) :
  main fs inp = Some (fs', Reported d) ->
  report_dict_of now d = Some data ->
  nth 19 (print_result_table data) ""%string
  = ("Conclusion                | " +:+ prefix_of 60 (conclusion d))%string /\
  (60 < String.length (conclusion d))%nat /\
  prefix_of 60 (conclusion d) <> conclusion d.
Proof.
  intros Hmain Hdict.
  destruct (main_reported_fields _ _ _ _ Hmain) as [(a & b & Hc) _].
  destruct (report_dict_of_inv _ _ _ Hdict) as (s & o & ->).
  assert (Hlong : (60 < String.length (conclusion d))%nat).
  { rewrite Hc. unfold conclusion_of.
    destruct (a && b && String.eqb (size_match d) "YES");
      [| destruct (a && b)]; cbn; lia. }
  assert (Hlen : String.length (prefix_of 60 (conclusion d)) = 60%nat).
  { rewrite length_prefix_of. lia. }
  split; [| split].
  - unfold print_result_table. rewrite col1_width_table.
    cbn [table_rows report_dict ReportDict.conclusion map app nth fst snd].
    unfold table_line, col2_width.
    rewrite (ljust_full 60) by lia. reflexivity.
  - exact Hlong.
  - intros E. rewrite E in Hlen. lia.
Qed.

Lemma table_cuts_the_conclusion_witness :
  nth 19
    (print_result_table dict_hello) ""%string
  = ("Conclusion                | " +:+
     prefix_of 60 (conclusion report_hello))%string /\
  (60 < String.length (conclusion report_hello))%nat /\
  prefix_of 60 (conclusion report_hello)
  <> conclusion report_hello.
Proof.
  apply (table_cuts_the_conclusion "2026-11-03 10:00:00" fs_hello
           (<[default_output := regular hello]> fs_hello) (plain_run "src.bin")).
  - vm_compute. reflexivity.
  - vm_compute. reflexivity.
Defined.

(** The row of the successful conclusion, as printed. *)
Example table_conclusion_row :
  nth 19
    (print_result_table dict_hello) ""%string
  = "Conclusion                | Image creation SUCCESSFUL. Integrity verified by size and ha"%string.
Proof. vm_compute. reflexivity. Qed.

Lemma md5_hexdigest_length (s : MD5.state) : String.length (MD5.hexdigest s) = 32%nat.
Proof.
  unfold MD5.hexdigest.
  destruct (MD5.h (MD5.update s _)) as [[[A B] C] D]. reflexivity.
Qed.

Lemma sha1_hexdigest_length (s : SHA1.state) : String.length (SHA1.hexdigest s) = 40%nat.
Proof.
  unfold SHA1.hexdigest.
  destruct (SHA1.h (SHA1.update s _)) as [[[[h0 h1] h2] h3] h4]. reflexivity.
Qed.

Lemma table_line_short (w1 : nat) (field value : string) :
  (String.length value <= col2_width)%nat ->
  table_line w1 field (Some value)
  = ljust w1 field +:+ "| " +:+ value +:+
    repeat_char " " (col2_width - String.length value).
Proof.
  intros H. unfold table_line. rewrite prefix_of_short by exact H. reflexivity.
Qed.

(** X20. The digests are never cut: in every report of [main] the MD5
    digests have 32 characters and the SHA1 digests 40, and their rows in
    the table hold them whole, followed by 28 and 20 spaces. *)
Theorem table_shows_whole_digests (now : string) (fs fs' : filesystem)
    (inp : inputs) (d : report_data) (data : ReportDict.dict) :
  main fs inp = Some (fs', Reported d) ->
  report_dict_of now d = Some data ->
  nth 12 (print_result_table data) ""%string
  = ("MD5 (Copy)                | " +:+ md5_copy d +:+ repeat_char " " 28)%string /\
  nth 13 (print_result_table data) ""%string
  = ("MD5 (Verify)              | " +:+ md5_verify d +:+ repeat_char " " 28)%string /\
  nth 15 (print_result_table data) ""%string
  = ("SHA1 (Copy)               | " +:+ sha1_copy d +:+ repeat_char " " 20)%string /\
  nth 16 (print_result_table data) ""%string
  = ("SHA1 (Verify)             | " +:+ sha1_verify d +:+ repeat_char " " 20)%string.
Proof.
  intros Hmain Hdict.
  destruct (main_reported_fields _ _ _ _ Hmain)
    as [_ (m1 & m2 & s1 & s2 & Hm1 & Hm2 & Hs1 & Hs2)].
  destruct (report_dict_of_inv _ _ _ Hdict) as (s & o & ->).
  assert (L1 := md5_hexdigest_length m1). rewrite <- Hm1 in L1.
  assert (L2 := md5_hexdigest_length m2). rewrite <- Hm2 in L2.
  assert (L3 := sha1_hexdigest_length s1). rewrite <- Hs1 in L3.
  assert (L4 := sha1_hexdigest_length s2). rewrite <- Hs2 in L4.
  unfold print_result_table. rewrite col1_width_table.
  cbn [table_rows report_dict ReportDict.md5_copy ReportDict.md5_verify
         ReportDict.sha1_copy ReportDict.sha1_verify map app nth fst snd].
  rewrite !table_line_short by (unfold col2_width; lia).
  rewrite L1, L2, L3, L4. repeat split.
Qed.

Lemma table_shows_whole_digests_witness :
  nth 12
    (print_result_table dict_hello) ""%string
  = ("MD5 (Copy)                | " +:+
     md5_copy report_hello +:+ repeat_char " " 28)%string /\
  nth 13
    (print_result_table dict_hello) ""%string
  = ("MD5 (Verify)              | " +:+
     md5_verify report_hello +:+ repeat_char " " 28)%string /\
  nth 15
    (print_result_table dict_hello) ""%string
  = ("SHA1 (Copy)               | " +:+
     sha1_copy report_hello +:+ repeat_char " " 20)%string /\
  nth 16
    (print_result_table dict_hello) ""%string
  = ("SHA1 (Verify)             | " +:+
     sha1_verify report_hello +:+ repeat_char " " 20)%string.
Proof.
  apply (table_shows_whole_digests "2026-11-03 10:00:00" fs_hello
           (<[default_output := regular hello]> fs_hello) (plain_run "src.bin")).
  - vm_compute. reflexivity.
  - vm_compute. reflexivity.
Defined.

